(** * NovelReader: chapter extraction, sanitizing and the reading session

    A shallow embedding of the two implementations found in the repository:
    [src/reader.js] (module [ReaderJs]) and the second, larger variant
    [src/unnamed/part_000] (module [Part000]).

    JavaScript strings are modelled as [string] (sequences of 8-bit code
    units), numbers that index chapters or count milliseconds as [Z],
    pixel measurements and scroll fractions as [Q] (exact rationals in
    place of doubles).  What the browser owns (the parsed DOM tree, layout
    measurements, the clock, timers and localStorage) is explicit data
    threaded through the operations; writes to localStorage are taken to
    succeed. *)

From Stdlib Require Import List String Ascii Bool Arith ZArith QArith Qround Qminmax Lia Permutation DecimalString.
Import ListNotations.

Set Warnings "-register-all".

Local Open Scope list_scope.
Local Open Scope string_scope.

(** ** Strings *)

Module Str.

(** The double quote character, written by code. *)
Definition dq : string := String "034"%char EmptyString.

Definition lower (c : ascii) : ascii :=
  let n := nat_of_ascii c in
  if andb (Nat.leb 65 n) (Nat.leb n 90) then ascii_of_nat (n + 32) else c.

Definition eqb_ci (a b : ascii) : bool := Ascii.eqb (lower a) (lower b).

(** [prefix_ci p s]: [s] starts with [p], ASCII letters compared without case. *)
Fixpoint prefix_ci (p s : string) : bool :=
  match p, s with
  | EmptyString, _ => true
  | String a p', String b s' => andb (eqb_ci a b) (prefix_ci p' s')
  | String _ _, EmptyString => false
  end.

(** [String.prototype.includes]. *)
Fixpoint includes (s sub : string) : bool :=
  if String.prefix sub s then true
  else match s with
       | EmptyString => false
       | String _ s' => includes s' sub
       end.

(** White space removed by [String.prototype.trim], among the code units
    below 256: TAB, LF, VT, FF, CR, SPACE and NBSP. *)
Definition is_space (c : ascii) : bool :=
  let n := nat_of_ascii c in
  orb (andb (Nat.leb 9 n) (Nat.leb n 13)) (orb (Nat.eqb n 32) (Nat.eqb n 160)).

Fixpoint trimStart (s : string) : string :=
  match s with
  | String c s' => if is_space c then trimStart s' else s
  | EmptyString => EmptyString
  end.

(** Dropping trailing white space: a character is kept when something
    that is kept follows it, or when it is not white space itself. *)
Fixpoint trimEnd (s : string) : string :=
  match s with
  | EmptyString => EmptyString
  | String c s' =>
      match trimEnd s' with
      | EmptyString => if is_space c then EmptyString else String c EmptyString
      | r => String c r
      end
  end.

Definition trim (s : string) : string := trimEnd (trimStart s).

(** JavaScript truthiness of a string: non-empty. *)
Definition truthy (s : string) : bool :=
  match s with EmptyString => false | _ => true end.

(** [a || b] on strings. *)
Definition or_else (a b : string) : string := if truthy a then a else b.

(** [s.replace(/[-_]/g, ' ')]. *)
Fixpoint dashes_to_spaces (s : string) : string :=
  match s with
  | EmptyString => EmptyString
  | String c s' =>
      String (if orb (Ascii.eqb c "-"%char) (Ascii.eqb c "_"%char) then " "%char else c)
             (dashes_to_spaces s')
  end.

(** Decimal rendering of a number in a template literal. *)
Definition of_nat (n : nat) : string := NilEmpty.string_of_uint (Nat.to_uint n).

Definition of_Z (z : Z) : string :=
  match z with
  | Z0 => "0"
  | Zpos p => of_nat (Pos.to_nat p)
  | Zneg p => "-" ++ of_nat (Pos.to_nat p)
  end.

End Str.

(** ** The DOM tree handed over by the HTML parser *)

Module Dom.

Inductive node : Type :=
| Text (data : string)
| Comment (data : string)
| Elem (tag : string) (attrs : list (string * string)) (children : list node).

(** Induction on trees, with the hypothesis at hand for every child. *)
Section NodeInd.
Variable P : node -> Prop.
Hypothesis HText : forall s, P (Text s).
Hypothesis HComment : forall s, P (Comment s).
Hypothesis HElem : forall t a kids, Forall P kids -> P (Elem t a kids).

Fixpoint node_rect' (n : node) : P n :=
  match n with
  | Text s => HText s
  | Comment s => HComment s
  | Elem t a kids =>
      HElem t a kids
        ((fix all (l : list node) : Forall P l :=
            match l with
            | [] => Forall_nil P
            | k :: l' => Forall_cons k (node_rect' k) (all l')
            end) kids)
  end.
End NodeInd.

(** Tag names are lower case, as the HTML parser leaves them. *)
Definition elt : Type := (string * list (string * string))%type.

Fixpoint getAttribute (a : list (string * string)) (name : string) : option string :=
  match a with
  | [] => None
  | (k, v) :: a' => if String.eqb k name then Some v else getAttribute a' name
  end.

(** [element.id]: the id attribute, or the empty string. *)
Definition id_of (a : list (string * string)) : string :=
  match getAttribute a "id" with Some v => v | None => "" end.

(** *** Selectors (the fragment of CSS the program uses) *)

Inductive simple : Type :=
| SType (tag : string)                 (* section *)
| SAttrSub (name value : string)       (* [class*=chapter] *)
| SId (value : string).                (* #content *)

(** A compound selector is a conjunction of simple ones; a complex
    selector is a chain of compounds joined by the descendant combinator,
    kept here subject first, then the required ancestors going outwards;
    a selector list is a comma separated disjunction. *)
Definition compound : Type := list simple.
Definition complex : Type := list compound.
Definition selector : Type := list complex.

Definition matches_simple (s : simple) (e : elt) : bool :=
  match s with
  | SType t => String.eqb (fst e) t
  | SAttrSub n v =>
      match getAttribute (snd e) n with
      | Some x => andb (Str.truthy v) (Str.includes x v)
      | None => false
      end
  | SId v =>
      match getAttribute (snd e) "id" with
      | Some x => String.eqb x v
      | None => false
      end
  end.

Definition matches_compound (c : compound) (e : elt) : bool :=
  forallb (fun s => matches_simple s e) c.

(** [anc] lists the ancestors of the subject, nearest first. *)
Fixpoint matches_ancestors (cs : list compound) (anc : list elt) : bool :=
  match cs with
  | [] => true
  | c :: cs' =>
      (fix find (l : list elt) : bool :=
         match l with
         | [] => false
         | a :: l' => if matches_compound c a then matches_ancestors cs' l' else find l'
         end) anc
  end.

Definition matches_complex (cx : complex) (anc : list elt) (e : elt) : bool :=
  match cx with
  | [] => false
  | subject :: outer => andb (matches_compound subject e) (matches_ancestors outer anc)
  end.

Definition matches (sel : selector) (anc : list elt) (e : elt) : bool :=
  existsb (fun cx => matches_complex cx anc e) sel.

(** Elements of the subtree [n] matched by [sel], in tree (document) order. *)
Fixpoint select_in (sel : selector) (anc : list elt) (n : node) : list node :=
  match n with
  | Text _ | Comment _ => []
  | Elem t a kids =>
      ((if matches sel anc (t, a) then [n] else [])
         ++ flat_map (select_in sel ((t, a) :: anc)) kids)%list
  end.

(** [element.querySelectorAll(sel)]: descendants only. *)
Definition querySelectorAll (sel : selector) (n : node) : list node :=
  match n with
  | Elem t a kids => flat_map (select_in sel [(t, a)]) kids
  | _ => []
  end.

Definition querySelector (sel : selector) (n : node) : option node :=
  hd_error (querySelectorAll sel n).

(** *** Serialisation: [innerHTML] and [textContent] *)

Definition void_tags : list string :=
  ["area"; "base"; "br"; "col"; "embed"; "hr"; "img"; "input"; "link";
   "meta"; "source"; "track"; "wbr"].

Definition raw_text_tags : list string :=
  ["style"; "script"; "xmp"; "iframe"; "noembed"; "noframes"; "plaintext"].

Definition mem (x : string) (l : list string) : bool :=
  existsb (String.eqb x) l.

Fixpoint escapeText (s : string) : string :=
  match s with
  | EmptyString => EmptyString
  | String c s' =>
      (if Ascii.eqb c "&"%char then "&amp;"
       else if Ascii.eqb c "<"%char then "&lt;"
       else if Ascii.eqb c ">"%char then "&gt;"
       else if Nat.eqb (nat_of_ascii c) 160 then "&nbsp;"
       else String c EmptyString) ++ escapeText s'
  end.

Fixpoint escapeAttr (s : string) : string :=
  match s with
  | EmptyString => EmptyString
  | String c s' =>
      (if Ascii.eqb c "&"%char then "&amp;"
       else if Ascii.eqb c "034"%char then "&quot;"
       else if Nat.eqb (nat_of_ascii c) 160 then "&nbsp;"
       else String c EmptyString) ++ escapeAttr s'
  end.

Definition serializeAttrs (a : list (string * string)) : string :=
  String.concat ""
    (map (fun kv => " " ++ fst kv ++ "=" ++ Str.dq ++ escapeAttr (snd kv) ++ Str.dq) a).

(** [raw] tells whether the parent is a raw text element, whose text
    children are written out as they are. *)
Fixpoint serialize (raw : bool) (n : node) : string :=
  match n with
  | Text s => if raw then s else escapeText s
  | Comment s => "<!--" ++ s ++ "-->"
  | Elem t a kids =>
      "<" ++ t ++ serializeAttrs a ++ ">"
        ++ (if mem t void_tags then ""
            else String.concat "" (map (serialize (mem t raw_text_tags)) kids)
                   ++ "</" ++ t ++ ">")
  end.

Definition serializeAll (raw : bool) (l : list node) : string :=
  String.concat "" (map (serialize raw) l).

Definition innerHTML (n : node) : string :=
  match n with
  | Elem t _ kids => serializeAll (mem t raw_text_tags) kids
  | _ => ""
  end.

Fixpoint textContent (n : node) : string :=
  match n with
  | Text s => s
  | Comment _ => ""
  | Elem _ _ kids => String.concat "" (map textContent kids)
  end.

(** *** Documents *)

(** [doc_title] is what [document.title] reports; [documentElement] is the
    root [html] element. *)
Record document : Type := {
  doc_title : string;
  documentElement : node
}.

(** [doc.querySelectorAll(sel)]. *)
Definition doc_querySelectorAll (sel : selector) (d : document) : list node :=
  select_in sel [] (documentElement d).

Definition is_body (n : node) : bool :=
  match n with
  | Elem t _ _ => orb (String.eqb t "body") (String.eqb t "frameset")
  | _ => false
  end.

(** [doc.body]: the first body (or frameset) child of the html element. *)
Definition doc_body (d : document) : option node :=
  match documentElement d with
  | Elem "html" _ kids => find is_body kids
  | _ => None
  end.

(** [doc.body || doc.querySelector('body')]. *)
Definition body_of (d : document) : option node :=
  match doc_body d with
  | Some b => Some b
  | None => hd_error (doc_querySelectorAll [[[SType "body"]]] d)
  end.

End Dom.

(** ** Configuration shared by both variants *)

Module Config.
Import Dom.

Definition chapter_in (tag attr : string) : complex :=
  [[SType tag; SAttrSub attr "chapter"]].

(** [CONFIG.SELECTORS], most specific first. *)
Definition SELECTORS : list selector :=
  [ [chapter_in "section" "class"];
    [chapter_in "div" "class"];
    [chapter_in "section" "id"];
    [chapter_in "div" "id"];
    [[[SType "article"]]];
    [[[SType "section"]]];
    [[[SType "section"]; [SId "content"]]];
    [[[SType "section"]; [SId "main"]]] ].

Definition THEMES : list string := ["light"; "dark"; "sepia"].
Definition FONTS : list string := ["serif"; "sans"; "mono"].
Definition DEBOUNCE_DELAY : Z := 200.

Definition BOOKMARK_ADDED : string := "Bookmark added".
Definition BOOKMARK_REMOVED : string := "Bookmark removed".
Definition NO_NOVEL_LOADED : string := "No novel loaded".
Definition PARSE_ERROR : string :=
  "Error processing the HTML file. Please make sure it's a valid HTML document.".
Definition FILE_TYPE_ERROR : string := "Please select an HTML file.".

End Config.

(** ** What both variants see of the page *)

Module Host.

Record Settings : Type := {
  theme : string;
  font : string;
  fontSize : Z
}.

Definition defaultSettings : Settings :=
  {| theme := "light"; font := "serif"; fontSize := 18 |}.

(** [a < b] on numbers, as a test. *)
Definition Qltb (a b : Q) : bool := negb (Qle_bool b a).

Definition Qclamp (lo hi x : Q) : Q := Qmin (Qmax lo x) hi.

(** The chapter title line and the scrolling chapter box
    ([chapterTitle], [chapterContent]). *)
Record Viewer : Type := {
  titleText : string;        (* chapterTitle.textContent *)
  html : string;             (* chapterContent.innerHTML *)
  scrollTop : Q;
  scrollHeight : Q;
  clientHeight : Q
}.

Definition emptyViewer (height : Q) : Viewer :=
  {| titleText := ""; html := ""; scrollTop := 0; scrollHeight := height;
     clientHeight := height |}.

Definition maxScroll (v : Viewer) : Q := scrollHeight v - clientHeight v.

Definition set_titleText (t : string) (v : Viewer) : Viewer :=
  {| titleText := t; html := html v; scrollTop := scrollTop v;
     scrollHeight := scrollHeight v; clientHeight := clientHeight v |}.

(** [content.scrollTop = x]: the browser keeps the offset inside the
    scrollable range. *)
Definition set_scrollTop (x : Q) (v : Viewer) : Viewer :=
  {| titleText := titleText v; html := html v;
     scrollTop := Qclamp 0 (Qmax 0 (maxScroll v)) x;
     scrollHeight := scrollHeight v; clientHeight := clientHeight v |}.

(** A scroll gesture: the offset is whatever the browser reports (an
    elastic overscroll may lie outside the scrollable range). *)
Definition user_scrolls (x : Q) (v : Viewer) : Viewer :=
  {| titleText := titleText v; html := html v; scrollTop := x;
     scrollHeight := scrollHeight v; clientHeight := clientHeight v |}.

(** [content.innerHTML = markup]: [measure] is the scroll height the box
    reports once it holds [markup]; the offset is kept, within the new
    range. *)
Definition set_innerHTML (measure : string -> Q) (markup : string) (v : Viewer) : Viewer :=
  let h := measure markup in
  {| titleText := titleText v; html := markup;
     scrollTop := Qclamp 0 (Qmax 0 (h - clientHeight v)) (scrollTop v);
     scrollHeight := h; clientHeight := clientHeight v |}.

(** [array[index]] for a number used as an index. *)
Definition at_index {A : Type} (l : list A) (index : Z) : option A :=
  if (index <? 0)%Z then None else nth_error l (Z.to_nat index).

Definition in_range {A : Type} (l : list A) (index : Z) : bool :=
  andb (0 <=? index)%Z (index <? Z.of_nat (List.length l))%Z.

(** [classList.remove(c)] and [classList.add(c)]. *)
Definition classList_remove (c : string) (l : list string) : list string :=
  filter (fun x => negb (String.eqb x c)) l.

Definition classList_add (c : string) (l : list string) : list string :=
  if existsb (String.eqb c) l then l else (l ++ [c])%list.

(** [name.endsWith(suffix)] *)
Fixpoint endsWith (s suffix : string) : bool :=
  if String.eqb s suffix then true
  else match s with
       | EmptyString => false
       | String _ s' => endsWith s' suffix
       end.

Record File : Type := {
  file_name : string;
  file_type : string;
  file_size : Z
}.

End Host.

(** ** Sanitizing and chapter extraction in [src/reader.js] *)

Module ReaderJs.
Import Dom Config.

(** *** [sanitizeContent]: one regular-expression pass, then [trim] *)

(** [[^>]*>]: everything up to and including the first [>].  Returns the
    number of characters consumed and what follows. *)
Fixpoint upto_gt (s : string) : option (nat * string) :=
  match s with
  | EmptyString => None
  | String c s' =>
      if Ascii.eqb c ">"%char then Some (1%nat, s')
      else match upto_gt s' with
           | Some (n, r) => Some (S n, r)
           | None => None
           end
  end.

(** [.] does not match a line terminator. *)
Definition is_line_terminator (c : ascii) : bool :=
  orb (Nat.eqb (nat_of_ascii c) 10) (Nat.eqb (nat_of_ascii c) 13).

(** [.*?<\/script>]: the shortest run of characters other than line
    terminators that is followed by the closing tag. *)
Fixpoint lazy_close (s : string) : option nat :=
  if Str.prefix_ci "</script>" s then Some 9%nat
  else match s with
       | EmptyString => None
       | String c s' =>
           if is_line_terminator c then None
           else match lazy_close s' with
                | Some n => Some (S n)
                | None => None
                end
       end.

Fixpoint drop (n : nat) (s : string) : string :=
  match n, s with
  | S k, String _ s' => drop k s'
  | _, _ => s
  end.

(** Length of the match of [/<script[^>]*>.*?<\/script>/i] that starts at
    the first character of [s], if there is one. *)
Definition match_script (s : string) : option nat :=
  if Str.prefix_ci "<script" s then
    match upto_gt (drop 7 s) with
    | Some (n, r) =>
        match lazy_close r with
        | Some m => Some (7 + n + m)%nat
        | None => None
        end
    | None => None
    end
  else None.

(** [.replace(re, '')] with the [g] flag: matches are looked for from left
    to right and do not overlap; [skip] counts the characters of the
    current match that are still to be dropped. *)
Fixpoint remove_scripts (skip : nat) (s : string) : string :=
  match s with
  | EmptyString => EmptyString
  | String c s' =>
      match skip with
      | S k => remove_scripts k s'
      | O =>
          match match_script s with
          | Some (S n) => remove_scripts n s'
          | _ => String c (remove_scripts 0 s')
          end
      end
  end.

Definition sanitizeContent (content : string) : string :=
  Str.trim (remove_scripts 0 content).


(** *** [parseNovelHTML] *)

Record Chapter : Type := {
  id : nat;
  title : string;
  content : string
}.

(** The [metadata] member of the result is written once and never read;
    it is left out. *)
Record Novel : Type := {
  novel_title : string;
  chapters : list Chapter
}.

Definition headings14 : selector :=
  [[[SType "h1"]]; [[SType "h2"]]; [[SType "h3"]]; [[SType "h4"]]].

(** [el.querySelector('h1,h2,h3,h4')?.textContent?.trim() || `Chapter ${index + 1}`] *)
Definition chapter_title (el : node) (index : nat) : string :=
  Str.or_else
    (match querySelector headings14 el with
     | Some h => Str.trim (textContent h)
     | None => ""
     end)
    ("Chapter " ++ Str.of_nat (index + 1)).

(** The body of [elements.forEach((el, index) => ...)]: what one element
    pushes. *)
Definition push_element (el : node) (index : nat) : list Chapter :=
  let title := chapter_title el index in
  let content := innerHTML el in
  if andb (Str.truthy title) (Str.truthy content)
  then [ {| id := index + 1; title := title; content := sanitizeContent content |} ]
  else [].

Fixpoint forEach_push (index : nat) (elements : list node) : list Chapter :=
  match elements with
  | [] => []
  | el :: rest => (push_element el index ++ forEach_push (S index) rest)%list
  end.

(** The [for (const selector of CONFIG.SELECTORS)] loop, left at the first
    selector with a match. *)
Fixpoint for_selectors (sels : list selector) (doc : document) : list Chapter :=
  match sels with
  | [] => []
  | sel :: rest =>
      match doc_querySelectorAll sel doc with
      | [] => for_selectors rest doc
      | elements => forEach_push 0 elements
      end
  end.

Definition fallback_chapter (doc : document) (body : node) : Chapter :=
  {| id := 1;
     title := Str.or_else (Str.trim (doc_title doc)) "Novel Content";
     content := sanitizeContent (innerHTML body) |}.

Definition extract (doc : document) : list Chapter :=
  let chapters := for_selectors SELECTORS doc in
  match chapters with
  | [] =>
      match body_of doc with
      | Some body => [fallback_chapter doc body]
      | None => []
      end
  | _ => chapters
  end.

Definition parseNovelHTML (doc : document) : Novel :=
  {| novel_title := Str.or_else (Str.trim (doc_title doc)) "Untitled Novel";
     chapters := extract doc |}.

(** *** The reading session of [reader.js] *)

Import Host.

Record Bookmark : Type := {
  b_id : string;
  b_title : string;
  b_chapter : Z;
  b_position : Q;
  b_timestamp : Z
}.

Record Progress : Type := {
  p_novel : string;
  p_chapter : Z;
  p_position : Q;
  p_timestamp : Z
}.

(** localStorage, by key; each entry is the value whose JSON text is
    stored, [None] when the key is absent. *)
Record Storage : Type := {
  SETTINGS : option Settings;
  PROGRESS : option Progress;
  BOOKMARKS : option (list Bookmark)
}.

Definition emptyStorage : Storage :=
  {| SETTINGS := None; PROGRESS := None; BOOKMARKS := None |}.

Record State : Type := {
  novelData : option Novel;
  currentChapter : Z;
  currentPosition : Q;
  bookmarks : list Bookmark;
  settings : Settings;
  localStorage : Storage;
  viewer : Viewer;
  rootClasses : list string;      (* document.documentElement.classList *)
  notices : list string           (* messages given to showNotification *)
}.

Definition set_novelData (x : option Novel) (s : State) : State :=
  {| novelData := x; currentChapter := currentChapter s;
     currentPosition := currentPosition s; bookmarks := bookmarks s;
     settings := settings s; localStorage := localStorage s; viewer := viewer s;
     rootClasses := rootClasses s; notices := notices s |}.

Definition set_currentChapter (x : Z) (s : State) : State :=
  {| novelData := novelData s; currentChapter := x;
     currentPosition := currentPosition s; bookmarks := bookmarks s;
     settings := settings s; localStorage := localStorage s; viewer := viewer s;
     rootClasses := rootClasses s; notices := notices s |}.

Definition set_currentPosition (x : Q) (s : State) : State :=
  {| novelData := novelData s; currentChapter := currentChapter s;
     currentPosition := x; bookmarks := bookmarks s;
     settings := settings s; localStorage := localStorage s; viewer := viewer s;
     rootClasses := rootClasses s; notices := notices s |}.

Definition set_bookmarks (x : list Bookmark) (s : State) : State :=
  {| novelData := novelData s; currentChapter := currentChapter s;
     currentPosition := currentPosition s; bookmarks := x;
     settings := settings s; localStorage := localStorage s; viewer := viewer s;
     rootClasses := rootClasses s; notices := notices s |}.

Definition set_settings (x : Settings) (s : State) : State :=
  {| novelData := novelData s; currentChapter := currentChapter s;
     currentPosition := currentPosition s; bookmarks := bookmarks s;
     settings := x; localStorage := localStorage s; viewer := viewer s;
     rootClasses := rootClasses s; notices := notices s |}.

Definition set_localStorage (x : Storage) (s : State) : State :=
  {| novelData := novelData s; currentChapter := currentChapter s;
     currentPosition := currentPosition s; bookmarks := bookmarks s;
     settings := settings s; localStorage := x; viewer := viewer s;
     rootClasses := rootClasses s; notices := notices s |}.

Definition set_viewer (x : Viewer) (s : State) : State :=
  {| novelData := novelData s; currentChapter := currentChapter s;
     currentPosition := currentPosition s; bookmarks := bookmarks s;
     settings := settings s; localStorage := localStorage s; viewer := x;
     rootClasses := rootClasses s; notices := notices s |}.

Definition set_rootClasses (x : list string) (s : State) : State :=
  {| novelData := novelData s; currentChapter := currentChapter s;
     currentPosition := currentPosition s; bookmarks := bookmarks s;
     settings := settings s; localStorage := localStorage s; viewer := viewer s;
     rootClasses := x; notices := notices s |}.

Definition showNotification (message : string) (s : State) : State :=
  {| novelData := novelData s; currentChapter := currentChapter s;
     currentPosition := currentPosition s; bookmarks := bookmarks s;
     settings := settings s; localStorage := localStorage s; viewer := viewer s;
     rootClasses := rootClasses s; notices := (notices s ++ [message])%list |}.

Definition loadSettings (st : Storage) : Settings :=
  match SETTINGS st with
  | Some saved => saved
  | None => defaultSettings
  end.


(** **** Storage *)

Definition saveSettings (s : State) : State :=
  set_localStorage
    {| SETTINGS := Some (settings s);
       PROGRESS := PROGRESS (localStorage s);
       BOOKMARKS := BOOKMARKS (localStorage s) |} s.

Definition saveBookmarks (s : State) : State :=
  set_localStorage
    {| SETTINGS := SETTINGS (localStorage s);
       PROGRESS := PROGRESS (localStorage s);
       BOOKMARKS := Some (bookmarks s) |} s.

(** [now] is the clock reading taken by [new Date()]. *)
Definition saveReadingProgress (now : Z) (s : State) : State :=
  match novelData s with
  | None => s
  | Some nd =>
      set_localStorage
        {| SETTINGS := SETTINGS (localStorage s);
           PROGRESS := Some {| p_novel := novel_title nd;
                               p_chapter := currentChapter s;
                               p_position := currentPosition s;
                               p_timestamp := now |};
           BOOKMARKS := BOOKMARKS (localStorage s) |} s
  end.

(** **** Settings *)

Definition setTheme (theme' : string) (s : State) : State :=
  if negb (mem theme' THEMES) then s
  else
    let s1 := set_settings {| theme := theme'; font := font (settings s);
                              fontSize := fontSize (settings s) |} s in
    let s2 := set_rootClasses
                (classList_add ("theme-" ++ theme')
                   (classList_remove ("theme-" ++ theme (settings s1)) (rootClasses s1)))
                s1 in
    saveSettings s2.

Definition setFont (font' : string) (s : State) : State :=
  if negb (mem font' FONTS) then s
  else
    let s1 := set_settings {| theme := theme (settings s); font := font';
                              fontSize := fontSize (settings s) |} s in
    let s2 := set_rootClasses
                (classList_add ("font-" ++ font')
                   (classList_remove ("font-" ++ font (settings s1)) (rootClasses s1)))
                s1 in
    saveSettings s2.

(** [size] is the number read off the slider. *)
Definition setFontSize (size : Z) (s : State) : State :=
  let size' := Z.max 12 (Z.min 24 size) in
  saveSettings
    (set_settings {| theme := theme (settings s); font := font (settings s);
                     fontSize := size' |} s).

Definition applySettings (s : State) : State :=
  setFontSize (fontSize (settings s))
    (setFont (font (settings s)) (setTheme (theme (settings s)) s)).

(** The state the constructor and [init] leave, given what localStorage
    holds. *)
Definition initial (st : Storage) (height : Q) : State :=
  applySettings
    {| novelData := None; currentChapter := 0; currentPosition := 0;
       bookmarks := []; settings := loadSettings st; localStorage := st;
       viewer := emptyViewer height; rootClasses := []; notices := [] |}.

Section Browser.

(** The scroll height the chapter box reports for a given markup. *)
Variable measure : string -> Q.

(** **** Navigation *)

(** Called with a novel loaded; reading [chapters] of a missing novel
    raises, which is [None] here. *)
Definition displayChapter (index : Z) (s : State) : option State :=
  match novelData s with
  | None => None
  | Some nd =>
      match at_index (chapters nd) index with
      | None => Some s
      | Some chapter =>
          let v1 := set_titleText (title chapter) (viewer s) in
          let v2 := set_innerHTML measure (content chapter) v1 in
          let v3 := set_scrollTop 0 v2 in
          Some (set_currentPosition 0 (set_viewer v3 s))
      end
  end.

(** [updateUI] only touches [chapterProgressElement], which nothing ever
    assigns: it does nothing. *)
Definition updateUI (s : State) : State := s.

Definition goToChapter (index : Z) (s : State) : State :=
  match novelData s with
  | None => s
  | Some nd =>
      if in_range (chapters nd) index then
        match displayChapter index (set_currentChapter index s) with
        | Some s' => updateUI s'
        | None => s
        end
      else s
  end.

(** **** Scrolling *)

(** [Math.round(x * 10000) / 10000] *)
Definition round4 (x : Q) : Q :=
  inject_Z (Qfloor (x * 10000 + (1 # 2))) / 10000.

Definition handleScrollDebounced (now : Z) (s : State) : State :=
  let v := viewer s in
  let progress :=
    if Qltb (clientHeight v) (scrollHeight v)
    then round4 (scrollTop v / (scrollHeight v - clientHeight v))
    else 0 in
  saveReadingProgress now (set_currentPosition progress s).

Definition goToBeginning (now : Z) (s : State) : State :=
  saveReadingProgress now
    (set_currentPosition 0 (set_viewer (set_scrollTop 0 (viewer s)) s)).

Definition goToEnd (now : Z) (s : State) : State :=
  saveReadingProgress now
    (set_currentPosition 1
       (set_viewer (set_scrollTop (maxScroll (viewer s)) (viewer s)) s)).

Definition restoreScrollPosition (s : State) : State :=
  if Qltb 0 (currentPosition s)
  then set_viewer (set_scrollTop (maxScroll (viewer s) * currentPosition s) (viewer s)) s
  else s.

(** **** Bookmarks *)

(** [None]: the chapter title of a chapter that does not exist is read,
    which raises before anything is changed. *)
Definition toggleBookmark (now : Z) (s : State) : option State :=
  let bookmarkId := Str.of_Z (currentChapter s) ++ "-" ++ Str.of_Z now in
  match find (fun b => (b_chapter b =? currentChapter s)%Z) (bookmarks s) with
  | Some existingBookmark =>
      let s1 := set_bookmarks
                  (filter (fun b => negb (String.eqb (b_id b) (b_id existingBookmark)))
                     (bookmarks s)) s in
      Some (saveBookmarks (showNotification BOOKMARK_REMOVED s1))
  | None =>
      match novelData s with
      | None => None
      | Some nd =>
          match at_index (chapters nd) (currentChapter s) with
          | None => None
          | Some chapter =>
              let s1 := set_bookmarks
                          (bookmarks s ++
                             [ {| b_id := bookmarkId;
                                  b_title := title chapter;
                                  b_chapter := currentChapter s;
                                  b_position := currentPosition s;
                                  b_timestamp := now |} ])%list s in
              Some (saveBookmarks (showNotification BOOKMARK_ADDED s1))
          end
      end
  end.

(** **** Loading a file *)

Definition loadReadingProgress (s : State) : State :=
  match PROGRESS (localStorage s), novelData s with
  | Some data, Some nd =>
      if String.eqb (p_novel data) (novel_title nd) then
        let s1 := set_currentChapter (p_chapter data) s in
        let s2 := set_currentPosition (p_position data) s1 in
        let s3 := goToChapter (currentChapter s2) s2 in
        if Qltb 0 (currentPosition s3) then restoreScrollPosition s3 else s3
      else s
  | _, _ => s
  end.

(** The [reader.onload] handler, once the parser has produced [doc]. *)
Definition onload (doc : document) (s : State) : State :=
  let s1 := set_novelData (Some (parseNovelHTML doc)) s in
  match displayChapter 0 s1 with
  | Some s2 => loadReadingProgress s2
  | None => showNotification PARSE_ERROR s1
  end.

Definition processFile (file : File) (doc : document) (s : State) : State :=
  if andb (negb (Str.includes (file_type file) "html"))
       (andb (negb (endsWith (file_name file) ".html"))
             (negb (endsWith (file_name file) ".htm")))
  then showNotification FILE_TYPE_ERROR s
  else onload doc s.

End Browser.

End ReaderJs.

(** ** Sanitizing and chapter extraction in [src/unnamed/part_000] *)

Module Part000.
Import Dom Config.

Record SanitizeConfig : Type := {
  ALLOWED_TAGS : list string;
  ALLOWED_ATTR : list string;
  ALLOW_DATA_ATTR : bool
}.

Definition SANITIZE_CONFIG : SanitizeConfig :=
  {| ALLOWED_TAGS :=
       ["p"; "br"; "strong"; "em"; "b"; "i"; "u"; "strike"; "sub"; "sup";
        "h1"; "h2"; "h3"; "h4"; "h5"; "h6"; "blockquote"; "q";
        "ol"; "ul"; "li"; "dl"; "dt"; "dd";
        "table"; "thead"; "tbody"; "tr"; "th"; "td";
        "a"; "img"; "div"; "span"; "pre"; "code"];
     ALLOWED_ATTR := ["href"; "src"; "alt"; "title"; "class"; "id"];
     ALLOW_DATA_ATTR := false |}.

(** ['script, style, iframe, object, embed'] *)
Definition dangerous : selector :=
  [[[SType "script"]]; [[SType "style"]]; [[SType "iframe"]];
   [[SType "object"]]; [[SType "embed"]]].

(** [root.querySelectorAll(sel).forEach(el => el.remove())] on the
    subtree [n]: every matched element leaves the tree with all it holds. *)
Fixpoint remove_all (sel : selector) (anc : list elt) (n : node) : list node :=
  match n with
  | Elem t a kids =>
      if matches sel anc (t, a) then []
      else [Elem t a (flat_map (remove_all sel ((t, a) :: anc)) kids)]
  | _ => [n]
  end.

(** The scratch [div] the fallback works in. *)
Definition div : elt := ("div", []).

Definition removeDangerous (kids : list node) : list node :=
  flat_map (remove_all dangerous [div]) kids.

Record Chapter : Type := {
  title : string;
  content : string;
  element : node
}.

Definition headings16 : selector :=
  [[[SType "h1"]]; [[SType "h2"]]; [[SType "h3"]];
   [[SType "h4"]]; [[SType "h5"]]; [[SType "h6"]]].

Definition attr_or_empty (n : node) (name : string) : string :=
  match n with
  | Elem _ a _ => match getAttribute a name with Some v => v | None => "" end
  | _ => ""
  end.

Definition extractChapterTitle (el : node) (index : nat) : string :=
  match querySelectorAll headings16 el with
  | h :: _ => Str.trim (textContent h)
  | [] =>
      let titleAttr :=
        Str.or_else (attr_or_empty el "data-title")
          (Str.or_else (attr_or_empty el "title") (attr_or_empty el "id")) in
      if Str.truthy titleAttr then Str.trim (Str.dashes_to_spaces titleAttr)
      else "Chapter " ++ Str.of_nat (index + 1)
  end.

Section Browser.

(** [DOMPurify.sanitize], when the page has loaded that library. *)
Variable DOMPurify : option (string -> SanitizeConfig -> string).

(** The HTML fragment parser behind [div.innerHTML = html]. *)
Variable parseFragment : string -> list node.

Definition sanitizeContent (html : string) : string :=
  match DOMPurify with
  | Some sanitize => sanitize html SANITIZE_CONFIG
  | None => serializeAll false (removeDangerous (parseFragment html))
  end.

Fixpoint forEach_push (index : nat) (elements : list node) : list Chapter :=
  match elements with
  | [] => []
  | el :: rest =>
      {| title := extractChapterTitle el index;
         content := sanitizeContent (innerHTML el);
         element := el |} :: forEach_push (S index) rest
  end.

(** The selector loop; [chapters] is the array filled so far. *)
Fixpoint for_selectors (sels : list selector) (doc : document)
    (chapters : list Chapter) : list Chapter :=
  match sels with
  | [] => chapters
  | sel :: rest =>
      let elements := doc_querySelectorAll sel doc in
      if (0 <? List.length elements)%nat then
        let chapters' := (chapters ++ forEach_push 0 elements)%list in
        if (0 <? List.length chapters')%nat then chapters'
        else for_selectors rest doc chapters'
      else for_selectors rest doc chapters
  end.

Definition extractChapters (doc : document) : list Chapter :=
  let chapters := for_selectors SELECTORS doc [] in
  if (List.length chapters =? 0)%nat then
    match body_of doc with
    | Some body =>
        [ {| title := "Chapter 1";
             content := sanitizeContent (innerHTML body);
             element := body |} ]
    | None => chapters
    end
  else chapters.

End Browser.

(** *** The reading session of [part_000] *)

Import Host.

Record Novel : Type := {
  novel_title : string;
  chapters : list Chapter;
  fileName : string
}.

Record Bookmark : Type := {
  novelTitle : string;
  chapterIndex : Z;
  chapterTitle : string;
  timestamp : Z
}.

Record Progress : Type := {
  p_novelTitle : string;
  p_currentChapter : Z;
  p_currentPosition : Q;
  p_timestamp : Z
}.

(** localStorage, by key; each entry is the value whose JSON text is
    stored, [None] when the key is absent. *)
Record Storage : Type := {
  SETTINGS : option Settings;
  PROGRESS : option Progress;
  BOOKMARKS : option (list Bookmark)
}.

Definition emptyStorage : Storage :=
  {| SETTINGS := None; PROGRESS := None; BOOKMARKS := None |}.

(** What a pending [setTimeout] or [requestAnimationFrame] will run. *)
Inductive callback : Type :=
| CbDebounce          (* handleScroll: updateProgress, saveProgress, checkAutoAdvance *)
| CbAutoAdvance       (* checkAutoAdvance: the delayed advance *)
| CbRestoreScroll     (* restoreScrollPosition *)
| CbFrame             (* displayChapterWithScrollToTop: requestAnimationFrame *)
| CbForceTop.         (* displayChapterWithScrollToTop: the inner setTimeout *)

Record Timer : Type := {
  tid : nat;
  due : Z;
  cb : callback
}.

Record State : Type := {
  novelData : option Novel;
  currentChapter : Z;
  currentPosition : Q;
  bookmarks : list Bookmark;
  settings : Settings;
  scrollTimeout : option nat;
  autoAdvanceTimeout : option nat;
  localStorage : Storage;
  viewer : Viewer;
  className : string   (* novelReader.className *);
  notices : list string   (* messages given to showNotification *);
  clock : Z   (* milliseconds, what Date.now() reads *);
  timers : list Timer   (* callbacks waiting to run *);
  nextTimer : nat   (* the handle the next setTimeout returns *)
}.

Definition set_novelData (x : option Novel) (s : State) : State :=
  {| novelData := x;
     currentChapter := currentChapter s;
     currentPosition := currentPosition s;
     bookmarks := bookmarks s;
     settings := settings s;
     scrollTimeout := scrollTimeout s;
     autoAdvanceTimeout := autoAdvanceTimeout s;
     localStorage := localStorage s;
     viewer := viewer s;
     className := className s;
     notices := notices s;
     clock := clock s;
     timers := timers s;
     nextTimer := nextTimer s |}.

Definition set_currentChapter (x : Z) (s : State) : State :=
  {| novelData := novelData s;
     currentChapter := x;
     currentPosition := currentPosition s;
     bookmarks := bookmarks s;
     settings := settings s;
     scrollTimeout := scrollTimeout s;
     autoAdvanceTimeout := autoAdvanceTimeout s;
     localStorage := localStorage s;
     viewer := viewer s;
     className := className s;
     notices := notices s;
     clock := clock s;
     timers := timers s;
     nextTimer := nextTimer s |}.

Definition set_currentPosition (x : Q) (s : State) : State :=
  {| novelData := novelData s;
     currentChapter := currentChapter s;
     currentPosition := x;
     bookmarks := bookmarks s;
     settings := settings s;
     scrollTimeout := scrollTimeout s;
     autoAdvanceTimeout := autoAdvanceTimeout s;
     localStorage := localStorage s;
     viewer := viewer s;
     className := className s;
     notices := notices s;
     clock := clock s;
     timers := timers s;
     nextTimer := nextTimer s |}.

Definition set_bookmarks (x : list Bookmark) (s : State) : State :=
  {| novelData := novelData s;
     currentChapter := currentChapter s;
     currentPosition := currentPosition s;
     bookmarks := x;
     settings := settings s;
     scrollTimeout := scrollTimeout s;
     autoAdvanceTimeout := autoAdvanceTimeout s;
     localStorage := localStorage s;
     viewer := viewer s;
     className := className s;
     notices := notices s;
     clock := clock s;
     timers := timers s;
     nextTimer := nextTimer s |}.

Definition set_settings (x : Settings) (s : State) : State :=
  {| novelData := novelData s;
     currentChapter := currentChapter s;
     currentPosition := currentPosition s;
     bookmarks := bookmarks s;
     settings := x;
     scrollTimeout := scrollTimeout s;
     autoAdvanceTimeout := autoAdvanceTimeout s;
     localStorage := localStorage s;
     viewer := viewer s;
     className := className s;
     notices := notices s;
     clock := clock s;
     timers := timers s;
     nextTimer := nextTimer s |}.

Definition set_scrollTimeout (x : option nat) (s : State) : State :=
  {| novelData := novelData s;
     currentChapter := currentChapter s;
     currentPosition := currentPosition s;
     bookmarks := bookmarks s;
     settings := settings s;
     scrollTimeout := x;
     autoAdvanceTimeout := autoAdvanceTimeout s;
     localStorage := localStorage s;
     viewer := viewer s;
     className := className s;
     notices := notices s;
     clock := clock s;
     timers := timers s;
     nextTimer := nextTimer s |}.

Definition set_autoAdvanceTimeout (x : option nat) (s : State) : State :=
  {| novelData := novelData s;
     currentChapter := currentChapter s;
     currentPosition := currentPosition s;
     bookmarks := bookmarks s;
     settings := settings s;
     scrollTimeout := scrollTimeout s;
     autoAdvanceTimeout := x;
     localStorage := localStorage s;
     viewer := viewer s;
     className := className s;
     notices := notices s;
     clock := clock s;
     timers := timers s;
     nextTimer := nextTimer s |}.

Definition set_localStorage (x : Storage) (s : State) : State :=
  {| novelData := novelData s;
     currentChapter := currentChapter s;
     currentPosition := currentPosition s;
     bookmarks := bookmarks s;
     settings := settings s;
     scrollTimeout := scrollTimeout s;
     autoAdvanceTimeout := autoAdvanceTimeout s;
     localStorage := x;
     viewer := viewer s;
     className := className s;
     notices := notices s;
     clock := clock s;
     timers := timers s;
     nextTimer := nextTimer s |}.

Definition set_viewer (x : Viewer) (s : State) : State :=
  {| novelData := novelData s;
     currentChapter := currentChapter s;
     currentPosition := currentPosition s;
     bookmarks := bookmarks s;
     settings := settings s;
     scrollTimeout := scrollTimeout s;
     autoAdvanceTimeout := autoAdvanceTimeout s;
     localStorage := localStorage s;
     viewer := x;
     className := className s;
     notices := notices s;
     clock := clock s;
     timers := timers s;
     nextTimer := nextTimer s |}.

Definition set_className (x : string) (s : State) : State :=
  {| novelData := novelData s;
     currentChapter := currentChapter s;
     currentPosition := currentPosition s;
     bookmarks := bookmarks s;
     settings := settings s;
     scrollTimeout := scrollTimeout s;
     autoAdvanceTimeout := autoAdvanceTimeout s;
     localStorage := localStorage s;
     viewer := viewer s;
     className := x;
     notices := notices s;
     clock := clock s;
     timers := timers s;
     nextTimer := nextTimer s |}.

Definition set_notices (x : list string) (s : State) : State :=
  {| novelData := novelData s;
     currentChapter := currentChapter s;
     currentPosition := currentPosition s;
     bookmarks := bookmarks s;
     settings := settings s;
     scrollTimeout := scrollTimeout s;
     autoAdvanceTimeout := autoAdvanceTimeout s;
     localStorage := localStorage s;
     viewer := viewer s;
     className := className s;
     notices := x;
     clock := clock s;
     timers := timers s;
     nextTimer := nextTimer s |}.

Definition set_clock (x : Z) (s : State) : State :=
  {| novelData := novelData s;
     currentChapter := currentChapter s;
     currentPosition := currentPosition s;
     bookmarks := bookmarks s;
     settings := settings s;
     scrollTimeout := scrollTimeout s;
     autoAdvanceTimeout := autoAdvanceTimeout s;
     localStorage := localStorage s;
     viewer := viewer s;
     className := className s;
     notices := notices s;
     clock := x;
     timers := timers s;
     nextTimer := nextTimer s |}.

Definition set_timers (x : list Timer) (s : State) : State :=
  {| novelData := novelData s;
     currentChapter := currentChapter s;
     currentPosition := currentPosition s;
     bookmarks := bookmarks s;
     settings := settings s;
     scrollTimeout := scrollTimeout s;
     autoAdvanceTimeout := autoAdvanceTimeout s;
     localStorage := localStorage s;
     viewer := viewer s;
     className := className s;
     notices := notices s;
     clock := clock s;
     timers := x;
     nextTimer := nextTimer s |}.

Definition set_nextTimer (x : nat) (s : State) : State :=
  {| novelData := novelData s;
     currentChapter := currentChapter s;
     currentPosition := currentPosition s;
     bookmarks := bookmarks s;
     settings := settings s;
     scrollTimeout := scrollTimeout s;
     autoAdvanceTimeout := autoAdvanceTimeout s;
     localStorage := localStorage s;
     viewer := viewer s;
     className := className s;
     notices := notices s;
     clock := clock s;
     timers := timers s;
     nextTimer := x |}.


Definition showNotification (message : string) (s : State) : State :=
  set_notices (notices s ++ [message])%list s.

(** **** Timers *)

Definition setTimeout (f : callback) (delay : Z) (s : State) : nat * State :=
  (nextTimer s,
   set_nextTimer (S (nextTimer s))
     (set_timers (timers s ++ [ {| tid := nextTimer s; due := clock s + delay; cb := f |} ])%list s)).

Definition clearTimeout (handle : option nat) (s : State) : State :=
  match handle with
  | None => s
  | Some i => set_timers (filter (fun t => negb (tid t =? i)%nat) (timers s)) s
  end.

(** **** Storage *)

Definition saveSettings (s : State) : State :=
  set_localStorage
    {| SETTINGS := Some (settings s);
       PROGRESS := PROGRESS (localStorage s);
       BOOKMARKS := BOOKMARKS (localStorage s) |} s.

Definition saveBookmarks (s : State) : State :=
  set_localStorage
    {| SETTINGS := SETTINGS (localStorage s);
       PROGRESS := PROGRESS (localStorage s);
       BOOKMARKS := Some (bookmarks s) |} s.

Definition loadBookmarks (s : State) : State :=
  set_bookmarks
    (match BOOKMARKS (localStorage s) with Some l => l | None => [] end) s.

Definition saveProgress (s : State) : State :=
  match novelData s with
  | None => s
  | Some nd =>
      set_localStorage
        {| SETTINGS := SETTINGS (localStorage s);
           PROGRESS := Some {| p_novelTitle := novel_title nd;
                               p_currentChapter := currentChapter s;
                               p_currentPosition := currentPosition s;
                               p_timestamp := clock s |};
           BOOKMARKS := BOOKMARKS (localStorage s) |} s
  end.

Definition loadProgress (s : State) : State :=
  match PROGRESS (localStorage s), novelData s with
  | Some data, Some nd =>
      if String.eqb (p_novelTitle data) (novel_title nd) then
        set_currentPosition (p_currentPosition data)
          (set_currentChapter (p_currentChapter data) s)
      else s
  | _, _ => s
  end.

(** **** Settings *)

Definition loadSettings (st : Storage) : Settings :=
  match SETTINGS st with
  | Some saved => saved
  | None => defaultSettings
  end.

Definition setTheme (theme' : string) (s : State) : State :=
  if negb (mem theme' THEMES) then s
  else
    let s1 := set_settings {| theme := theme'; font := font (settings s);
                              fontSize := fontSize (settings s) |} s in
    let s2 := set_className
                ("novel-reader theme-" ++ theme' ++ " font-" ++ font (settings s1)) s1 in
    saveSettings s2.

Definition setFont (font' : string) (s : State) : State :=
  if negb (mem font' FONTS) then s
  else
    let s1 := set_settings {| theme := theme (settings s); font := font';
                              fontSize := fontSize (settings s) |} s in
    let s2 := set_className
                ("novel-reader theme-" ++ theme (settings s1) ++ " font-" ++ font') s1 in
    saveSettings s2.

Definition updateFontSize (size : Z) (s : State) : State :=
  saveSettings
    (set_settings {| theme := theme (settings s); font := font (settings s);
                     fontSize := size |} s).

Definition applySettings (s : State) : State :=
  updateFontSize (fontSize (settings s))
    (setFont (font (settings s)) (setTheme (theme (settings s)) s)).

(** The state the constructor and [init] leave. *)
Definition initial (st : Storage) (height : Q) : State :=
  applySettings
    (loadBookmarks
       {| novelData := None; currentChapter := 0; currentPosition := 0;
          bookmarks := []; settings := loadSettings st;
          scrollTimeout := None; autoAdvanceTimeout := None;
          localStorage := st; viewer := emptyViewer height;
          className := ""; notices := []; clock := 0; timers := [];
          nextTimer := 1 |}).

(** **** Bookmarks *)

Fixpoint findIndex {A : Type} (p : A -> bool) (l : list A) : option nat :=
  match l with
  | [] => None
  | x :: l' => if p x then Some O else option_map S (findIndex p l')
  end.

(** [array.splice(i, 1)] *)
Fixpoint splice1 {A : Type} (i : nat) (l : list A) : list A :=
  match l, i with
  | [], _ => []
  | _ :: l', O => l'
  | x :: l', S k => x :: splice1 k l'
  end.

Definition same_place (t : string) (c : Z) (b : Bookmark) : bool :=
  andb (String.eqb (novelTitle b) t) (chapterIndex b =? c)%Z.

(** [None]: the title of a chapter that does not exist is read, which
    raises before anything is changed. *)
Definition toggleBookmark (s : State) : option State :=
  match novelData s with
  | None => Some (showNotification NO_NOVEL_LOADED s)
  | Some nd =>
      match findIndex (same_place (novel_title nd) (currentChapter s)) (bookmarks s) with
      | Some bookmarkIndex =>
          Some (saveBookmarks
                  (showNotification BOOKMARK_REMOVED
                     (set_bookmarks (splice1 bookmarkIndex (bookmarks s)) s)))
      | None =>
          match at_index (chapters nd) (currentChapter s) with
          | None => None
          | Some chapter =>
              Some (saveBookmarks
                      (showNotification BOOKMARK_ADDED
                         (set_bookmarks
                            (bookmarks s ++
                               [ {| novelTitle := novel_title nd;
                                    chapterIndex := currentChapter s;
                                    chapterTitle := title chapter;
                                    timestamp := clock s |} ])%list s)))
          end
      end
  end.

(** What identifies a bookmark: the novel and the chapter it marks. *)
Definition place (b : Bookmark) : string * Z := (novelTitle b, chapterIndex b).

(** The bookmark [toggleBookmark] appends. *)
Definition freshBookmark (nd : Novel) (ch : Chapter) (s : State) : Bookmark :=
  {| novelTitle := novel_title nd; chapterIndex := currentChapter s;
     chapterTitle := title ch; timestamp := clock s |}.

(** **** Pending callbacks *)

(** A pending callback that is the delayed advance. *)
Definition advancing (t : Timer) : bool :=
  match cb t with CbAutoAdvance => true | _ => false end.

Definition pendingAdvances (s : State) : list Timer := filter advancing (timers s).

(** Handles are distinct and were all issued, and every pending advance
    is the one [autoAdvanceTimeout] refers to. *)
Record tidy (s : State) : Prop := {
  ids_distinct : NoDup (map tid (timers s));
  ids_issued : Forall (fun t => (tid t < nextTimer s)%nat) (timers s);
  advance_tracked :
    Forall (fun t => advancing t = true -> autoAdvanceTimeout s = Some (tid t)) (timers s)
}.

(** No delayed advance is pending. *)
Definition calm (s : State) : Prop := Forall (fun t => advancing t = false) (timers s).

(** [s'] comes from [s] by steps that neither touch [autoAdvanceTimeout]
    nor add a delayed advance. *)
Definition quiet (s s' : State) : Prop :=
  autoAdvanceTimeout s' = autoAdvanceTimeout s /\
  (tidy s -> tidy s') /\
  (calm s -> calm s').

Section Session.

Variable DOMPurify : option (string -> SanitizeConfig -> string).
Variable parseFragment : string -> list node.

(** The scroll height the chapter box reports for a given markup. *)
Variable measure : string -> Q.

(** **** Showing a chapter *)

(** [escapeHtml]: the text is written into a scratch element and read
    back as markup. *)
Definition escapeHtml (text : string) : string := escapeText text.

(** The two buttons appended to a chapter (layout white space of the
    template literals is not reproduced). *)
Definition nextButtonHtml (nextTitle : string) : string :=
  "<div class=" ++ Str.dq ++ "chapter-end-button-container" ++ Str.dq ++ ">"
  ++ "<button class=" ++ Str.dq ++ "chapter-end-nav-btn" ++ Str.dq
  ++ " id=" ++ Str.dq ++ "chapterEndNavBtn" ++ Str.dq ++ ">"
  ++ "<span class=" ++ Str.dq ++ "chapter-end-text" ++ Str.dq ++ ">Next Chapter: "
  ++ escapeHtml nextTitle ++ "</span>"
  ++ "<i class=" ++ Str.dq ++ "fas fa-arrow-right" ++ Str.dq
  ++ " aria-hidden=" ++ Str.dq ++ "true" ++ Str.dq ++ "></i></button></div>".

Definition lastChapterButton : string :=
  "<div class=" ++ Str.dq ++ "chapter-end-button-container" ++ Str.dq ++ ">"
  ++ "<button class=" ++ Str.dq ++ "chapter-end-nav-btn last-chapter" ++ Str.dq
  ++ " id=" ++ Str.dq ++ "lastChapterBtn" ++ Str.dq ++ ">"
  ++ "<span class=" ++ Str.dq ++ "chapter-end-text" ++ Str.dq
  ++ ">End of Book - Return to Chapters</span>"
  ++ "<i class=" ++ Str.dq ++ "fas fa-list" ++ Str.dq
  ++ " aria-hidden=" ++ Str.dq ++ "true" ++ Str.dq ++ "></i></button></div>".

Definition lastIndex (nd : Novel) : Z := Z.of_nat (List.length (chapters nd)) - 1.

Definition contentWithButton (nd : Novel) (chapterIndex' : Z) (chapter : Chapter) : string :=
  if (chapterIndex' <? lastIndex nd)%Z then
    match at_index (chapters nd) (chapterIndex' + 1) with
    | Some nextChapter => content chapter ++ nextButtonHtml (title nextChapter)
    | None => content chapter
    end
  else content chapter ++ lastChapterButton.

Definition updateProgress (s : State) : State :=
  let v := viewer s in
  let scrollHeight' := scrollHeight v - clientHeight v in
  if Qltb 0 scrollHeight'
  then set_currentPosition (scrollTop v / scrollHeight') s
  else s.

Definition restoreScrollPosition (s : State) : State :=
  if Qltb 0 (currentPosition s)
  then snd (setTimeout CbRestoreScroll 10 s)
  else s.

(** Title and markup of chapter [chapterIndex'] put on the page. *)
Definition show (nd : Novel) (chapterIndex' : Z) (chapter : Chapter) (s : State) : State :=
  set_viewer
    (set_innerHTML measure (contentWithButton nd chapterIndex' chapter)
       (set_titleText (title chapter) (viewer s))) s.

Definition displayChapter (chapterIndex' : Z) (s : State) : State :=
  match novelData s with
  | None => s
  | Some nd =>
      if orb (chapterIndex' <? 0)%Z (Z.of_nat (List.length (chapters nd)) <=? chapterIndex')%Z
      then s
      else
        match at_index (chapters nd) chapterIndex' with
        | None => s
        | Some chapter =>
            let s1 := set_currentChapter chapterIndex' s in
            let s2 := show nd chapterIndex' chapter s1 in
            saveProgress (updateProgress (restoreScrollPosition s2))
        end
  end.

Definition displayChapterWithScrollToTop (chapterIndex' : Z) (s : State) : State :=
  match novelData s with
  | None => s
  | Some nd =>
      if orb (chapterIndex' <? 0)%Z (Z.of_nat (List.length (chapters nd)) <=? chapterIndex')%Z
      then s
      else
        match at_index (chapters nd) chapterIndex' with
        | None => s
        | Some chapter =>
            let s1 := set_currentChapter chapterIndex' s in
            let s2 := show nd chapterIndex' chapter s1 in
            snd (setTimeout CbFrame 0 s2)
        end
  end.

(** **** Navigation *)

Definition previousChapter (s : State) : State :=
  if (0 <? currentChapter s)%Z then displayChapter (currentChapter s - 1) s else s.

Definition nextChapter (s : State) : State :=
  match novelData s with
  | Some nd =>
      if (currentChapter s <? lastIndex nd)%Z
      then displayChapter (currentChapter s + 1) s
      else s
  | None => s
  end.

Definition nextChapterDirect (s : State) : State :=
  match novelData s with
  | None => s
  | Some nd =>
      if (lastIndex nd <=? currentChapter s)%Z then s
      else
        let s1 := set_currentChapter (currentChapter s + 1) s in
        displayChapterWithScrollToTop (currentChapter s1) s1
  end.

(** The button at the end of a chapter (opening the side bar on the last
    chapter is not part of the state kept here). *)
Definition handleChapterEndNavigation (s : State) : State :=
  match novelData s with
  | None => s
  | Some nd =>
      if (lastIndex nd <=? currentChapter s)%Z
      then showNotification "You've reached the end of the book!" s
      else showNotification "Moved to next chapter" (nextChapterDirect s)
  end.

(** **** Scrolling and the automatic advance *)

Definition debounce (f : callback) (wait : Z) (s : State) : State :=
  let s1 := clearTimeout (scrollTimeout s) s in
  let '(handle, s2) := setTimeout f wait s1 in
  set_scrollTimeout (Some handle) s2.

Definition handleScroll (s : State) : State := debounce CbDebounce DEBOUNCE_DELAY s.

(** [scrollTop + clientHeight >= scrollHeight - threshold], threshold 100. *)
Definition nearBottom (v : Viewer) : bool :=
  Qle_bool (scrollHeight v - 100) (scrollTop v + clientHeight v).

Definition checkAutoAdvance (s : State) : State :=
  match novelData s with
  | None => s
  | Some nd =>
      if (lastIndex nd <=? currentChapter s)%Z then s
      else if nearBottom (viewer s) then
        let s1 := match autoAdvanceTimeout s with
                  | Some _ => clearTimeout (autoAdvanceTimeout s) s
                  | None => s
                  end in
        let '(handle, s2) := setTimeout CbAutoAdvance 500 s1 in
        set_autoAdvanceTimeout (Some handle) s2
      else
        match autoAdvanceTimeout s with
        | Some _ => set_autoAdvanceTimeout None (clearTimeout (autoAdvanceTimeout s) s)
        | None => s
        end
  end.

(** What each pending callback does when it runs. *)
Definition run (f : callback) (s : State) : State :=
  match f with
  | CbDebounce => checkAutoAdvance (saveProgress (updateProgress s))
  | CbAutoAdvance =>
      match novelData s with
      | None => s
      | Some nd =>
          set_autoAdvanceTimeout None
            (if (currentChapter s <? lastIndex nd)%Z
             then showNotification "Auto-advanced to next chapter" (nextChapter s)
             else s)
      end
  | CbRestoreScroll =>
      set_viewer (set_scrollTop (maxScroll (viewer s) * currentPosition s) (viewer s)) s
  | CbFrame => snd (setTimeout CbForceTop 10 s)
  | CbForceTop =>
      saveProgress (updateProgress (set_viewer (set_scrollTop 0 (viewer s)) s))
  end.

(** The timer [t] comes due: it leaves the pending list, the clock shows
    at least its due time, and its callback runs. *)
Definition fire (t : Timer) (s : State) : State :=
  let s1 := set_timers (filter (fun u => negb (tid u =? tid t)%nat) (timers s)) s in
  run (cb t) (set_clock (Z.max (clock s) (due t)) s1).

(** The pending timer that is due first (the older one on a tie). *)
Fixpoint earliest (l : list Timer) : option Timer :=
  match l with
  | [] => None
  | t :: l' =>
      match earliest l' with
      | Some u => if (due u <? due t)%Z then Some u else Some t
      | None => Some t
      end
  end.

(** Let time pass until [t], running what comes due on the way; [fuel]
    bounds the number of callbacks run. *)
Fixpoint run_until (fuel : nat) (t : Z) (s : State) : State :=
  match fuel with
  | O => s
  | S fuel' =>
      match earliest (timers s) with
      | Some u =>
          if (due u <=? t)%Z then run_until fuel' t (fire u s)
          else set_clock (Z.max (clock s) t) s
      | None => set_clock (Z.max (clock s) t) s
      end
  end.

(** The reader scrolls the chapter box to offset [top]. *)
Definition scrollTo (top : Q) (s : State) : State :=
  handleScroll (set_viewer (user_scrolls top (viewer s)) s).

(** **** Loading a file *)

Definition handleError (message : string) (s : State) : State :=
  showNotification ("An error occurred: " ++ message) s.

Definition eq_ci (a b : string) : bool :=
  andb (Str.prefix_ci a b) (String.length a =? String.length b)%nat.

(** [name.replace(/\.html?$/i, '')] *)
Fixpoint stripHtmlExtension (name : string) : string :=
  if orb (eq_ci name ".html") (eq_ci name ".htm") then ""
  else match name with
       | EmptyString => EmptyString
       | String c name' => String c (stripHtmlExtension name')
       end.

Definition showReaderInterface (s : State) : State := loadProgress s.

(** [processFile], once the file has been read and parsed into [doc]. *)
Definition processFile (file : File) (doc : document) (s : State) : State :=
  match doc_querySelectorAll [[[SType "parsererror"]]] doc with
  | _ :: _ => handleError "Invalid HTML format" s
  | [] =>
      let chapters' := extractChapters DOMPurify parseFragment doc in
      if (List.length chapters' =? 0)%nat
      then handleError "No chapters found in the file" s
      else
        let s1 := set_novelData
                    (Some {| novel_title :=
                               Str.or_else (doc_title doc)
                                 (stripHtmlExtension (file_name file));
                             chapters := chapters';
                             fileName := file_name file |}) s in
        let s2 := set_currentPosition 0 (set_currentChapter 0 s1) in
        let s3 := displayChapter 0 s2 in
        let s4 := showReaderInterface s3 in
        showNotification "Novel loaded successfully!" s4
  end.

(** **** What can happen to a session *)

Inductive event : Type :=
| Load (file : File) (doc : document)
| ChapterLink (index : Z)        (* a click in the chapter list *)
| Previous
| Next
| EndButton                      (* the button below the chapter *)
| Scroll (top : Q)
| ToggleBookmark
| SetTheme (name : string)
| SetFont (name : string)
| Elapse (t : Z)                 (* time passes without a callback *)
| Fire (handle : nat).           (* a pending callback runs *)

Definition handle (e : event) (s : State) : State :=
  match e with
  | Load file doc => processFile file doc s
  | ChapterLink index => displayChapter index s
  | Previous => previousChapter s
  | Next => nextChapter s
  | EndButton => handleChapterEndNavigation s
  | Scroll top => scrollTo top s
  | ToggleBookmark => match toggleBookmark s with Some s' => s' | None => s end
  | SetTheme name => setTheme name s
  | SetFont name => setFont name s
  | Elapse t => set_clock (Z.max (clock s) t) s
  | Fire i =>
      match find (fun u => (tid u =? i)%nat) (timers s) with
      | Some u => fire u s
      | None => s
      end
  end.

(** States a session can be in: from the state [init] leaves, by any
    sequence of events. *)
Inductive reachable (st : Storage) (height : Q) : State -> Prop :=
| reach_initial : reachable st height (initial st height)
| reach_step : forall s e, reachable st height s -> reachable st height (handle e s).

End Session.

End Part000.

(** ** Sample documents and sessions *)

Module Samples.
Import Dom Host.

Definition chapterEl (heading text : string) : node :=
  Elem "section" [("class", "chapter")]
    [Elem "h2" [] [Text heading]; Elem "p" [] [Text text]].

Definition page (t : string) (kids : list node) : document :=
  {| doc_title := t;
     documentElement :=
       Elem "html" []
         [Elem "head" [] [Elem "title" [] [Text t]]; Elem "body" [] kids] |}.

(** Five chapters. *)
Definition foo : document :=
  page "Foo"
    [chapterEl "One" "first"; chapterEl "Two" "second"; chapterEl "Three" "third";
     chapterEl "Four" "fourth"; chapterEl "Five" "fifth"].

(** Nothing any selector matches. *)
Definition plain : document := page "Plain" [Elem "p" [] [Text "No chapters here."]].

(** The first chapter element holds nothing. *)
Definition gappy : document :=
  page "Gappy" [Elem "section" [("class", "chapter")] []; chapterEl "Two" "second"].


Definition file (name : string) : File :=
  {| file_name := name; file_type := "text/html"; file_size := 1000 |}.

(** A fragment parser for markup that was serialised from one of the
    [known] elements: it gives back the children of that element. *)
Fixpoint reparse (known : list node) (markup : string) : list node :=
  match known with
  | [] => []
  | n :: rest =>
      if String.eqb (innerHTML n) markup
      then match n with Elem _ _ kids => kids | _ => [] end
      else reparse rest markup
  end.

Definition parserFor (d : document) : string -> list node :=
  reparse (doc_querySelectorAll [[[SType "section"]]; [[SType "body"]]] d).

(** Every chapter lays out 2500 pixels tall; the box shows 500. *)
Definition tall : string -> Q := fun _ => 2500.


(** [part_000]: events applied in order. *)
Definition play (d : document) (measure : string -> Q)
    (es : list (Part000.event)) (s : Part000.State) : Part000.State :=
  fold_left (fun s e => Part000.handle None (parserFor d) measure e s) es s.

Definition freshPart000 : Part000.State := Part000.initial Part000.emptyStorage 500.

(** A stored progress record for the novel Foo: chapter 3, fraction 0.42. *)
Definition fooSavedReaderJs : ReaderJs.Storage :=
  {| ReaderJs.SETTINGS := None;
     ReaderJs.PROGRESS :=
       Some {| ReaderJs.p_novel := "Foo"; ReaderJs.p_chapter := 3;
               ReaderJs.p_position := 42 # 100; ReaderJs.p_timestamp := 5 |};
     ReaderJs.BOOKMARKS := None |}.

Definition fooSavedPart000 : Part000.Storage :=
  {| Part000.SETTINGS := None;
     Part000.PROGRESS :=
       Some {| Part000.p_novelTitle := "Foo"; Part000.p_currentChapter := 3;
               Part000.p_currentPosition := 42 # 100; Part000.p_timestamp := 5 |};
     Part000.BOOKMARKS := None |}.

(** Foo loaded into a fresh session of each variant. *)
Definition fooInReaderJs : ReaderJs.State :=
  ReaderJs.processFile tall (file "foo.html") foo
    (ReaderJs.initial ReaderJs.emptyStorage 500).

Definition fooInPart000 : Part000.State := play foo tall [Part000.Load (file "foo.html") foo] freshPart000.


(** A chapter whose style sheet spells a script tag around another one. *)
Definition nested : node :=
  Elem "section" [("class", "chapter")]
    [Elem "style" [] [Text "<scr<script></script>ipt>alert(1)</script>"]].

Definition novelOf (s : Part000.State) : Part000.Novel :=
  match Part000.novelData s with
  | Some nd => nd
  | None => {| Part000.novel_title := ""; Part000.chapters := []; Part000.fileName := "" |}
  end.



(** Reading Foo: a bookmark set on the first chapter, and a second later
    the bookmark key pressed twice. *)
Definition marked : Part000.State :=
  play foo tall [Part000.ToggleBookmark; Part000.Elapse 1000] fooInPart000.

Definition markedTwiceMore : Part000.State :=
  play foo tall [Part000.ToggleBookmark; Part000.ToggleBookmark] marked.

(** Reading Foo: down to 96 per cent of the first chapter at time 0 and
    resting there; back up to 50 per cent at time 600; then on to time
    700. *)
Definition nearEnd : Part000.State := play foo tall [Part000.Scroll 1920] fooInPart000.

Definition waiting : Part000.State := Part000.run_until tall 5 600 nearEnd.

Definition backUp : Part000.State := play foo tall [Part000.Scroll 1000] waiting.

Definition later : Part000.State := Part000.run_until tall 5 700 backUp.

(** An elastic overscroll above the top and one below the bottom. *)
Definition pulledDownReaderJs : ReaderJs.State :=
  ReaderJs.set_viewer (user_scrolls (- 1000) (ReaderJs.viewer fooInReaderJs)) fooInReaderJs.

Definition pushedUpReaderJs : ReaderJs.State :=
  ReaderJs.set_viewer (user_scrolls 3400 (ReaderJs.viewer fooInReaderJs)) fooInReaderJs.

Definition pulledDownPart000 : Part000.State :=
  Part000.set_viewer (user_scrolls (- 1000) (Part000.viewer fooInPart000)) fooInPart000.

Definition pushedUpPart000 : Part000.State :=
  Part000.set_viewer (user_scrolls 3400 (Part000.viewer fooInPart000)) fooInPart000.

Definition midWayReaderJs : ReaderJs.State :=
  ReaderJs.set_viewer (user_scrolls 1000 (ReaderJs.viewer fooInReaderJs)) fooInReaderJs.

Definition midWayPart000 : Part000.State :=
  Part000.set_viewer (user_scrolls 1000 (Part000.viewer fooInPart000)) fooInPart000.

(** [reader.js]: on chapter 3 of Foo, then the document Plain is loaded. *)
Definition plainAfterChapter3 : ReaderJs.State :=
  ReaderJs.processFile tall (file "plain.html") plain
    (ReaderJs.goToChapter tall 3 fooInReaderJs).

(** [reader.js]: the first chapter of Foo bookmarked, then the document
    Plain is loaded and the bookmark key pressed. *)
Definition markedReaderJs : ReaderJs.State :=
  match ReaderJs.toggleBookmark 0 fooInReaderJs with
  | Some s => s
  | None => fooInReaderJs
  end.

Definition plainAfterMark : ReaderJs.State :=
  ReaderJs.processFile tall (file "plain.html") plain markedReaderJs.

Definition plainToggled : option ReaderJs.State :=
  ReaderJs.toggleBookmark 1000 plainAfterMark.

End Samples.

(** ** More of [src/unnamed/part_000]: files, keys, export *)

Module Part000More.
Import Dom Config Host Part000.

Definition MAX_FILE_SIZE : Z := 10 * 1024 * 1024.

Definition ALLOWED_MIME_TYPES : list string := ["text/html"; "application/xhtml+xml"].

(** The answer of [validateFile] and the state with the message it may
    have shown. *)
Definition validateFile (file : File) (s : State) : bool * State :=
  if negb (mem (file_type file) ALLOWED_MIME_TYPES)
  then (false, showNotification FILE_TYPE_ERROR s)
  else if (MAX_FILE_SIZE <? file_size file)%Z
       then (false, showNotification "File too large. Maximum size is 10MB." s)
       else (true, s).

(** What a pressed key carries. *)
Record KeyEvent : Type := {
  key : string;
  ctrlKey : bool;
  metaKey : bool
}.

(** What [exportNovel] puts into the downloaded JSON text. *)
Record ExportData : Type := {
  x_novel : Novel;
  x_bookmarks : list Bookmark;
  x_currentChapter : Z;
  x_currentPosition : Q;
  x_exportDate : Z
}.

(** The name of the download and its content, when there is one, and the
    state after. *)
Definition exportNovel (s : State) : option (string * ExportData) * State :=
  match novelData s with
  | None => (None, showNotification NO_NOVEL_LOADED s)
  | Some nd =>
      (Some (novel_title nd ++ "-export.json",
             {| x_novel := nd;
                x_bookmarks :=
                  filter (fun b => String.eqb (novelTitle b) (novel_title nd)) (bookmarks s);
                x_currentChapter := currentChapter s;
                x_currentPosition := currentPosition s;
                x_exportDate := clock s |}),
       showNotification "Novel exported successfully!" s)
  end.

Section Session.

Variable DOMPurify : option (string -> SanitizeConfig -> string).
Variable parseFragment : string -> list node.
Variable measure : string -> Q.

(** A file chosen in the file dialog: it is processed as it is.  Each
    file comes with the document the parser makes of its text. *)
Definition handleFileSelect (files : list (File * document)) (s : State) : State :=
  match files with
  | (file, doc) :: _ => processFile DOMPurify parseFragment measure file doc s
  | [] => s
  end.

(** A file dropped on the page: it is validated first. *)
Definition handleDrop (files : list (File * document)) (s : State) : State :=
  match files with
  | (file, doc) :: _ =>
      let '(ok, s1) := validateFile file s in
      if ok then processFile DOMPurify parseFragment measure file doc s1 else s1
  | [] => s
  end.

(** [hidden] tells whether the reader section is hidden when the key is
    pressed. *)
Definition handleKeyboard (hidden : bool) (e : KeyEvent) (s : State) : State :=
  match novelData s with
  | None => s
  | Some _ =>
      if hidden then s
      else if String.eqb (key e) "ArrowLeft" then previousChapter measure s
      else if String.eqb (key e) "ArrowRight" then nextChapter measure s
      else if String.eqb (key e) "b" then
        if orb (ctrlKey e) (metaKey e)
        then match toggleBookmark s with Some s' => s' | None => s end
        else s
      else if String.eqb (key e) "s" then
        if orb (ctrlKey e) (metaKey e) then showNotification "Progress saved" s else s
      else s
  end.

End Session.

(** The novel [processFile] makes of a file and the chapters found in
    it. *)
Definition novelFrom (file : File) (doc : document) (chapters' : list Chapter) : Novel :=
  {| novel_title := Str.or_else (doc_title doc) (stripHtmlExtension (file_name file));
     chapters := chapters';
     fileName := file_name file |}.

(** **** What a session keeps true *)

(** The current chapter is one of the chapters of the novel. *)
Definition chapterInRange (s : State) : Prop :=
  forall nd, novelData s = Some nd -> in_range (chapters nd) (currentChapter s) = true.

(** Storage holds the settings in use. *)
Definition settingsSaved (s : State) : Prop :=
  SETTINGS (localStorage s) = Some (settings s).

(** The bookmarks in use are the stored ones. *)
Definition bookmarksSaved (s : State) : Prop :=
  bookmarks s = match BOOKMARKS (localStorage s) with Some l => l | None => [] end.

(** The class [setTheme] and [setFont] give the reader element for given
    settings. *)
Definition classFor (st : Settings) : string :=
  "novel-reader theme-" ++ theme st ++ " font-" ++ font st.

(** The reader element wears the theme and font in use. *)
Definition dressed (s : State) : Prop := className s = classFor (settings s).

(** A pending callback that is the debounced scroll check. *)
Definition debouncing (t : Timer) : bool :=
  match cb t with CbDebounce => true | _ => false end.

Definition pendingScrollChecks (s : State) : list Timer := filter debouncing (timers s).

(** Every pending scroll check is the one [scrollTimeout] refers to. *)
Definition scrollTracked (s : State) : Prop :=
  Forall (fun t => debouncing t = true -> scrollTimeout s = Some (tid t)) (timers s).

(** [f] reads the same in [s'] as in [s]. *)
Definition same {A : Type} (f : State -> A) (s s' : State) : Prop := f s' = f s.

(** [s'] comes from [s] by steps that neither touch [scrollTimeout] nor
    leave a scroll check pending that it does not refer to. *)
Definition hush (s s' : State) : Prop :=
  scrollTimeout s' = scrollTimeout s /\ (scrollTracked s -> scrollTracked s').

(** Where the reader is. *)
Definition spot (s : State) : option Novel * Z := (novelData s, currentChapter s).

(** The delayed advance, as the session sees it. *)
Definition advances (s : State) : option nat * list Timer :=
  (autoAdvanceTimeout s, pendingAdvances s).

(** The debounced scroll check, as the session sees it. *)
Definition checks (s : State) : option nat * list Timer :=
  (scrollTimeout s, pendingScrollChecks s).

(** What navigation, scrolling and timers leave alone. *)
Definition kept (s : State) :
    Settings * option Settings * list Bookmark * option (list Bookmark) :=
  (settings s, SETTINGS (localStorage s), bookmarks s, BOOKMARKS (localStorage s)).

End Part000More.

(** * Properties *)

Local Open Scope list_scope.


(** ** The fallback sanitizer of part_000 works on the tree *)

Module SanitizeFacts.
Import Dom Config Host Part000.

Lemma remove_all_clean (sel : selector) (n : node) :
  forall anc, flat_map (select_in sel anc) (remove_all sel anc n) = [].
Proof.
  induction n as [s | s | t a kids IH] using node_rect'; intros anc; simpl; try reflexivity.
  destruct (matches sel anc (t, a)) eqn:Hm; simpl; [reflexivity|].
  rewrite Hm. simpl. rewrite app_nil_r.
  induction IH as [|k kids Hk _ IHk]; simpl; [reflexivity|].
  rewrite flat_map_app, Hk, IHk. reflexivity.
Qed.

Lemma remove_all_fixed (sel : selector) (n : node) :
  forall anc, select_in sel anc n = [] -> remove_all sel anc n = [n].
Proof.
  induction n as [s | s | t a kids IH] using node_rect'; intros anc H; simpl in *; try reflexivity.
  destruct (matches sel anc (t, a)) eqn:Hm; simpl in H; [discriminate|].
  do 2 f_equal.
  induction IH as [|k kids Hk _ IHk]; simpl in *; [reflexivity|].
  apply app_eq_nil in H as [H1 H2].
  rewrite (Hk _ H1), (IHk H2). reflexivity.
Qed.

Lemma remove_all_list_clean (sel : selector) (anc : list elt) (l : list node) :
  flat_map (select_in sel anc) (flat_map (remove_all sel anc) l) = [].
Proof.
  induction l as [|n l IH]; simpl; [reflexivity|].
  rewrite flat_map_app, remove_all_clean, IH. reflexivity.
Qed.

Lemma remove_all_list_fixed (sel : selector) (anc : list elt) (l : list node) :
  flat_map (select_in sel anc) l = [] -> flat_map (remove_all sel anc) l = l.
Proof.
  induction l as [|n l IH]; simpl; intros H; [reflexivity|].
  apply app_eq_nil in H as [H1 H2].
  rewrite (remove_all_fixed _ _ _ H1), (IH H2). reflexivity.
Qed.

(** Removing the dangerous elements a second time changes nothing. *)
Lemma removeDangerous_idempotent (l : list node) :
  removeDangerous (removeDangerous l) = removeDangerous l.
Proof.
  unfold removeDangerous. apply remove_all_list_fixed, remove_all_list_clean.
Qed.

End SanitizeFacts.

(** ** The selector loop *)

Module ExtractFacts.
Import Dom Config Host.

(** *** reader.js *)

Lemma chapter_title_truthy (el : node) (index : nat) :
  Str.truthy (ReaderJs.chapter_title el index) = true.
Proof.
  unfold ReaderJs.chapter_title, Str.or_else.
  set (h := match querySelector ReaderJs.headings14 el with
            | Some h => Str.trim (textContent h) | None => "" end).
  destruct (Str.truthy h) eqn:H; [exact H | reflexivity].
Qed.

Lemma readerjs_forEach_push_content (els : list node) :
  forall index,
    map ReaderJs.content (ReaderJs.forEach_push index els)
    = map (fun el => ReaderJs.sanitizeContent (innerHTML el))
        (filter (fun el => Str.truthy (innerHTML el)) els).
Proof.
  induction els as [|el els IH]; intros index; simpl; [reflexivity|].
  rewrite map_app, IH. unfold ReaderJs.push_element.
  rewrite chapter_title_truthy. simpl.
  destruct (Str.truthy (innerHTML el)); reflexivity.
Qed.

Lemma readerjs_for_selectors_first (doc : document) (sel : selector) (post : list selector) :
  forall pre,
    Forall (fun p => doc_querySelectorAll p doc = []) pre ->
    doc_querySelectorAll sel doc <> [] ->
    ReaderJs.for_selectors (pre ++ sel :: post) doc
    = ReaderJs.forEach_push 0 (doc_querySelectorAll sel doc).
Proof.
  induction pre as [|p pre IH]; intros Hpre Hsel; simpl.
  - destruct (doc_querySelectorAll sel doc); [congruence | reflexivity].
  - inversion Hpre as [|? ? Hp Hrest]; subst. rewrite Hp. now apply IH.
Qed.

Lemma readerjs_for_selectors_none (doc : document) (sels : list selector) :
  Forall (fun p => doc_querySelectorAll p doc = []) sels ->
  ReaderJs.for_selectors sels doc = [].
Proof.
  induction 1 as [|p sels Hp _ IH]; simpl; [reflexivity|]. now rewrite Hp.
Qed.

(** *** part_000 *)

Section WithBrowser.
Variable DOMPurify : option (string -> Part000.SanitizeConfig -> string).
Variable parseFragment : string -> list node.

Lemma part000_forEach_push_element (els : list node) :
  forall index,
    map Part000.element (Part000.forEach_push DOMPurify parseFragment index els) = els.
Proof.
  induction els as [|el els IH]; intros index; simpl; [reflexivity|]. now rewrite IH.
Qed.

Lemma part000_forEach_push_length (els : list node) :
  forall index,
    List.length (Part000.forEach_push DOMPurify parseFragment index els) = List.length els.
Proof.
  induction els as [|el els IH]; intros index; simpl; [reflexivity|]. now rewrite IH.
Qed.

Lemma part000_for_selectors_first (doc : document) (sel : selector) (post : list selector) :
  forall pre,
    Forall (fun p => doc_querySelectorAll p doc = []) pre ->
    doc_querySelectorAll sel doc <> [] ->
    Part000.for_selectors DOMPurify parseFragment (pre ++ sel :: post) doc []
    = Part000.forEach_push DOMPurify parseFragment 0 (doc_querySelectorAll sel doc).
Proof.
  induction pre as [|p pre IH]; intros Hpre Hsel; simpl.
  - destruct (doc_querySelectorAll sel doc) as [|el els]; [congruence|]. reflexivity.
  - inversion Hpre as [|? ? Hp Hrest]; subst. rewrite Hp. simpl. now apply IH.
Qed.

Lemma part000_for_selectors_none (doc : document) (sels : list selector) :
  Forall (fun p => doc_querySelectorAll p doc = []) sels ->
  Part000.for_selectors DOMPurify parseFragment sels doc [] = [].
Proof.
  induction 1 as [|p sels Hp _ IH]; simpl; [reflexivity|]. now rewrite Hp.
Qed.

(** [extractChapters] returns no chapter only for a document without a body. *)
Lemma part000_extractChapters_nonempty (doc : document) (body : node) :
  body_of doc = Some body ->
  Part000.extractChapters DOMPurify parseFragment doc <> [].
Proof.
  intros Hb. unfold Part000.extractChapters. rewrite Hb.
  destruct (Part000.for_selectors _ _ _ _ _); simpl; discriminate.
Qed.

End WithBrowser.
End ExtractFacts.

(** ** Numbers and indices *)

Module HostFacts.
Import Host.

Lemma Qltb_true (a b : Q) : Qltb a b = true <-> (a < b)%Q.
Proof.
  unfold Qltb. rewrite negb_true_iff. split.
  - intros H. apply Qnot_le_lt. intros Hle. apply Qle_bool_iff in Hle. congruence.
  - intros H. destruct (Qle_bool b a) eqn:E; [|reflexivity].
    apply Qle_bool_iff in E. exfalso. exact (Qlt_not_le _ _ H E).
Qed.

Lemma Qltb_false (a b : Q) : Qltb a b = false <-> (b <= a)%Q.
Proof.
  unfold Qltb. rewrite negb_false_iff. apply Qle_bool_iff.
Qed.

Lemma in_range_at_index {A : Type} (l : list A) (index : Z) :
  in_range l index = true -> exists x, at_index l index = Some x.
Proof.
  unfold in_range, at_index. intros H. apply andb_true_iff in H as [H0 H1].
  apply Z.leb_le in H0. apply Z.ltb_lt in H1.
  destruct (index <? 0)%Z eqn:E; [apply Z.ltb_lt in E; lia|].
  destruct (nth_error l (Z.to_nat index)) eqn:En; [eauto|].
  apply nth_error_None in En. lia.
Qed.

Lemma not_in_range_at_index {A : Type} (l : list A) (index : Z) :
  in_range l index = false -> at_index l index = None.
Proof.
  unfold in_range, at_index. intros H. apply andb_false_iff in H as [H | H].
  - apply Z.leb_gt in H. destruct (index <? 0)%Z eqn:E; [reflexivity|].
    apply Z.ltb_ge in E. lia.
  - apply Z.ltb_ge in H. destruct (index <? 0)%Z; [reflexivity|].
    apply nth_error_None. lia.
Qed.

Lemma mem_In (x : string) (l : list string) : Dom.mem x l = true <-> In x l.
Proof.
  unfold Dom.mem. rewrite existsb_exists. split.
  - intros (y & Hy & E). apply String.eqb_eq in E. now subst.
  - intros H. exists x. split; [assumption | apply String.eqb_refl].
Qed.

(** The fraction an offset inside the scrollable range stands for. *)
Lemma ratio_in_unit (top range : Q) :
  (0 < range)%Q -> (0 <= top)%Q -> (top <= range)%Q ->
  (0 <= top / range)%Q /\ (top / range <= 1)%Q.
Proof.
  intros Hr H0 H1. split.
  - apply Qle_shift_div_l; [assumption|]. now rewrite Qmult_0_l.
  - apply Qle_shift_div_r; [assumption|]. now rewrite Qmult_1_l.
Qed.

End HostFacts.

Module ReaderJsFacts.
Import Dom Config Host ReaderJs HostFacts.


Lemma round4_in_unit (x : Q) :
  (0 <= x)%Q -> (x <= 1)%Q -> (0 <= round4 x)%Q /\ (round4 x <= 1)%Q.
Proof.
  intros H0 H1. unfold round4.
  assert (L : (0 <= Qfloor (x * 10000 + (1 # 2)))%Z).
  { change 0%Z with (Qfloor 0). apply Qfloor_resp_le.
    apply Qle_trans with (0 * 10000 + (1 # 2))%Q; [discriminate|].
    apply Qplus_le_l. apply Qmult_le_compat_r; [assumption | discriminate]. }
  assert (U : (Qfloor (x * 10000 + (1 # 2)) <= 10000)%Z).
  { change 10000%Z with (Qfloor (1 * 10000 + (1 # 2))). apply Qfloor_resp_le.
    apply Qplus_le_l. apply Qmult_le_compat_r; [assumption | discriminate]. }
  split.
  - apply Qle_shift_div_l; [reflexivity|]. rewrite Qmult_0_l.
    change 0%Q with (inject_Z 0). now rewrite <- Zle_Qle.
  - apply Qle_shift_div_r; [reflexivity|]. rewrite Qmult_1_l.
    change 10000%Q with (inject_Z 10000). now rewrite <- Zle_Qle.
Qed.

End ReaderJsFacts.

(** ** What the operations of part_000 leave alone *)

Module SessionFacts.
Import Dom Config Host Part000.

Lemma viewer_saveProgress s : viewer (saveProgress s) = viewer s.
Proof. unfold saveProgress. destruct (novelData s); reflexivity. Qed.

Lemma viewer_updateProgress s : viewer (updateProgress s) = viewer s.
Proof. unfold updateProgress. destruct (Qltb _ _); reflexivity. Qed.

Lemma currentChapter_saveProgress s : currentChapter (saveProgress s) = currentChapter s.
Proof. unfold saveProgress. destruct (novelData s); reflexivity. Qed.

Lemma currentChapter_updateProgress s : currentChapter (updateProgress s) = currentChapter s.
Proof. unfold updateProgress. destruct (Qltb _ _); reflexivity. Qed.

Lemma currentPosition_saveProgress s : currentPosition (saveProgress s) = currentPosition s.
Proof. unfold saveProgress. destruct (novelData s); reflexivity. Qed.

Section Session.
Variable DOMPurify : option (string -> SanitizeConfig -> string).
Variable parseFragment : string -> list node.
Variable measure : string -> Q.

Lemma novelData_setTimeout f d s : novelData (snd (setTimeout f d s)) = novelData s.
Proof. reflexivity. Qed.

Lemma novelData_clearTimeout h s : novelData (clearTimeout h s) = novelData s.
Proof. destruct h; reflexivity. Qed.

Lemma novelData_saveProgress s : novelData (saveProgress s) = novelData s.
Proof. unfold saveProgress. destruct (novelData s) eqn:E; simpl; auto. Qed.

Lemma novelData_updateProgress s : novelData (updateProgress s) = novelData s.
Proof. unfold updateProgress. destruct (Qltb _ _); reflexivity. Qed.

Lemma novelData_restoreScrollPosition s : novelData (restoreScrollPosition s) = novelData s.
Proof. unfold restoreScrollPosition. destruct (Qltb _ _); reflexivity. Qed.

Lemma novelData_displayChapter i s : novelData (displayChapter measure i s) = novelData s.
Proof.
  unfold displayChapter. destruct (novelData s) eqn:E; [|exact E].
  destruct (orb _ _); [exact E|]. destruct (at_index _ _); [|exact E].
  rewrite novelData_saveProgress, novelData_updateProgress, novelData_restoreScrollPosition.
  exact E.
Qed.

Lemma novelData_displayChapterWithScrollToTop i s :
  novelData (displayChapterWithScrollToTop measure i s) = novelData s.
Proof.
  unfold displayChapterWithScrollToTop. destruct (novelData s) eqn:E; [|exact E].
  destruct (orb _ _); [exact E|]. destruct (at_index _ _); exact E.
Qed.

Lemma novelData_nextChapter s : novelData (nextChapter measure s) = novelData s.
Proof.
  unfold nextChapter. destruct (novelData s) eqn:E; [|exact E].
  destruct (_ <? _)%Z; [|exact E]. now rewrite novelData_displayChapter.
Qed.

Lemma novelData_previousChapter s : novelData (previousChapter measure s) = novelData s.
Proof.
  unfold previousChapter. destruct (_ <? _)%Z; [|reflexivity]. apply novelData_displayChapter.
Qed.

Lemma novelData_nextChapterDirect s : novelData (nextChapterDirect measure s) = novelData s.
Proof.
  unfold nextChapterDirect. destruct (novelData s) eqn:E; [|exact E].
  destruct (_ <=? _)%Z; [exact E|]. now rewrite novelData_displayChapterWithScrollToTop.
Qed.

Lemma novelData_handleChapterEndNavigation s :
  novelData (handleChapterEndNavigation measure s) = novelData s.
Proof.
  unfold handleChapterEndNavigation. destruct (novelData s) eqn:E; [|exact E].
  destruct (_ <=? _)%Z; simpl; [exact E|]. now rewrite novelData_nextChapterDirect.
Qed.

Lemma novelData_checkAutoAdvance s : novelData (checkAutoAdvance s) = novelData s.
Proof.
  unfold checkAutoAdvance. destruct (novelData s) eqn:E; [|exact E].
  destruct (_ <=? _)%Z; [exact E|].
  destruct (nearBottom _); destruct (autoAdvanceTimeout s); simpl; exact E.
Qed.

Lemma novelData_run f s : novelData (run measure f s) = novelData s.
Proof.
  destruct f; simpl.
  - now rewrite novelData_checkAutoAdvance, novelData_saveProgress, novelData_updateProgress.
  - destruct (novelData s) eqn:E; [|exact E]. simpl.
    destruct (_ <? _)%Z; simpl; [|exact E]. now rewrite novelData_nextChapter.
  - reflexivity.
  - reflexivity.
  - now rewrite novelData_saveProgress, novelData_updateProgress.
Qed.

Lemma novelData_fire t s : novelData (fire measure t s) = novelData s.
Proof. unfold fire. now rewrite novelData_run. Qed.

Lemma novelData_scrollTo top s : novelData (scrollTo top s) = novelData s.
Proof.
  unfold scrollTo, handleScroll, debounce.
  destruct (setTimeout _ _ _) eqn:E. simpl.
  change s0 with (snd (n, s0)). rewrite <- E.
  now rewrite novelData_setTimeout, novelData_clearTimeout.
Qed.

Lemma novelData_toggleBookmark s s' : toggleBookmark s = Some s' -> novelData s' = novelData s.
Proof.
  unfold toggleBookmark. intros H.
  destruct (novelData s) eqn:E.
  - destruct (findIndex _ _).
    + injection H as <-. simpl. exact E.
    + destruct (at_index _ _); [|discriminate]. injection H as <-. simpl. exact E.
  - injection H as <-. simpl. exact E.
Qed.

Lemma novelData_setTheme t s : novelData (setTheme t s) = novelData s.
Proof. unfold setTheme. destruct (negb _); reflexivity. Qed.

Lemma novelData_setFont t s : novelData (setFont t s) = novelData s.
Proof. unfold setFont. destruct (negb _); reflexivity. Qed.

Lemma novelData_loadProgress s : novelData (loadProgress s) = novelData s.
Proof.
  unfold loadProgress. destruct (PROGRESS _); [|reflexivity].
  destruct (novelData s) eqn:E; [|exact E]. destruct (String.eqb _ _); simpl; exact E.
Qed.

Lemma novelData_showNotification m s : novelData (showNotification m s) = novelData s.
Proof. reflexivity. Qed.

(** A novel is put in place only by [processFile], and only with a chapter
    in it. *)
Lemma novelData_processFile file doc s :
  novelData (processFile DOMPurify parseFragment measure file doc s) = novelData s \/
  exists nd, novelData (processFile DOMPurify parseFragment measure file doc s) = Some nd /\
             chapters nd = extractChapters DOMPurify parseFragment doc /\
             chapters nd <> [].
Proof.
  unfold processFile. destruct (doc_querySelectorAll _ doc); [|left; reflexivity].
  destruct (extractChapters DOMPurify parseFragment doc) as [|c l] eqn:Ex;
    [left; reflexivity|].
  right. cbn [List.length Nat.eqb].
  unfold showReaderInterface.
  rewrite novelData_showNotification, novelData_loadProgress, novelData_displayChapter.
  eexists. split; [reflexivity|]. split; [reflexivity | discriminate].
Qed.

Lemma novelData_handle e s :
  novelData (handle DOMPurify parseFragment measure e s) = novelData s \/
  exists nd, novelData (handle DOMPurify parseFragment measure e s) = Some nd /\
             chapters nd <> [].
Proof.
  destruct e; simpl.
  - destruct (novelData_processFile file doc s) as [H | (nd & H & _ & Hne)]; [now left|].
    right. now exists nd.
  - left. apply novelData_displayChapter.
  - left. apply novelData_previousChapter.
  - left. apply novelData_nextChapter.
  - left. apply novelData_handleChapterEndNavigation.
  - left. apply novelData_scrollTo.
  - left. destruct (toggleBookmark s) eqn:E; [|reflexivity]. now apply novelData_toggleBookmark.
  - left. apply novelData_setTheme.
  - left. apply novelData_setFont.
  - left. reflexivity.
  - left. destruct (find _ _); [apply novelData_fire | reflexivity].
Qed.

Lemma novelData_initial st height : novelData (initial st height) = None.
Proof.
  unfold initial, applySettings, updateFontSize. simpl.
  rewrite novelData_setFont, novelData_setTheme. reflexivity.
Qed.

Lemma reachable_novel_has_chapter st height s :
  reachable DOMPurify parseFragment measure st height s ->
  forall nd, novelData s = Some nd -> chapters nd <> [].
Proof.
  induction 1 as [|s e Hr IH]; intros nd Hnd.
  - rewrite novelData_initial in Hnd. discriminate.
  - destruct (novelData_handle e s) as [H | (nd' & H & Hne)].
    + apply IH. now rewrite <- H.
    + rewrite H in Hnd. injection Hnd as <-. exact Hne.
Qed.

End Session.
End SessionFacts.

(** ** Pending callbacks *)

Module TimerFacts.
Import Dom Config Host Part000.

Lemma quiet_refl s : quiet s s.
Proof. split; [reflexivity | split; auto]. Qed.

Lemma quiet_trans s1 s2 s3 : quiet s1 s2 -> quiet s2 s3 -> quiet s1 s3.
Proof.
  intros (A1 & B1 & C1) (A2 & B2 & C2). split; [congruence | split; auto].
Qed.

Lemma quiet_same s s' :
  timers s' = timers s -> nextTimer s' = nextTimer s ->
  autoAdvanceTimeout s' = autoAdvanceTimeout s -> quiet s s'.
Proof.
  intros Ht Hn Ha. split; [exact Ha|]. split.
  - intros [D I T]. constructor; rewrite ?Ht, ?Hn, ?Ha; assumption.
  - unfold calm. now rewrite Ht.
Qed.

Lemma filter_none {A : Type} (p : A -> bool) (l : list A) :
  Forall (fun x => p x = false) l -> filter p l = [].
Proof.
  induction 1 as [|x l Hx _ IH]; simpl; [reflexivity|]. now rewrite Hx.
Qed.

Lemma NoDup_ids_filter (keep : Timer -> bool) (l : list Timer) :
  NoDup (map tid l) -> NoDup (map tid (filter keep l)).
Proof.
  induction l as [|t l IH]; simpl; intros D; [constructor|].
  inversion D as [|? ? Hnot Hl]; subst.
  destruct (keep t); simpl; auto. constructor; auto.
  intros Hin. apply Hnot. apply in_map_iff in Hin as (u & Hu & Hin).
  apply filter_In in Hin as [Hin _]. apply in_map_iff. eauto.
Qed.

Lemma quiet_tidy s s' : quiet s s' -> tidy s -> tidy s'.
Proof. intros (_ & H & _). exact H. Qed.

Lemma filter_tidy (keep : Timer -> bool) (s s' : State) :
  timers s' = filter keep (timers s) -> nextTimer s' = nextTimer s ->
  autoAdvanceTimeout s' = autoAdvanceTimeout s -> quiet s s'.
Proof.
  intros Ht Hn Ha. split; [exact Ha|]. split.
  - intros [D I T]. constructor; rewrite Ht, ?Hn, ?Ha.
    + now apply NoDup_ids_filter.
    + apply Forall_forall. intros t Hin. apply filter_In in Hin as [Hin _].
      rewrite Forall_forall in I. auto.
    + apply Forall_forall. intros t Hin. apply filter_In in Hin as [Hin _].
      rewrite Forall_forall in T. auto.
  - unfold calm. rewrite Ht. intros H. apply Forall_forall. intros t Hin.
    apply filter_In in Hin as [Hin _]. rewrite Forall_forall in H. auto.
Qed.

Lemma quiet_clearTimeout h s : quiet s (clearTimeout h s).
Proof.
  destruct h as [i|]; [|apply quiet_refl].
  now apply (filter_tidy (fun t => negb (tid t =? i)%nat)).
Qed.

Lemma quiet_setTimeout f d s :
  f <> CbAutoAdvance -> quiet s (snd (setTimeout f d s)).
Proof.
  intros Hf. split; [reflexivity|]. split.
  - intros [D I T]. constructor; simpl.
    + rewrite map_app. simpl. apply NoDup_app; [assumption | repeat constructor; auto | ].
      * intros x Hin Hx. destruct Hx as [<- | []].
        apply in_map_iff in Hin as (u & Hu & Hin). rewrite Forall_forall in I.
        specialize (I u Hin). lia.
    + apply Forall_app. split.
      * eapply Forall_impl; [|exact I]. simpl. intros; lia.
      * repeat constructor.
    + apply Forall_app. split; [assumption|]. constructor; [|constructor].
      unfold advancing. simpl. destruct f; congruence.
  - unfold calm. simpl. intros H. apply Forall_app. split; [assumption|].
    constructor; [|constructor]. unfold advancing. simpl. destruct f; congruence.
Qed.

(** At most one delayed advance is pending in a tidy state. *)
Lemma tidy_one_advance s : tidy s -> (List.length (pendingAdvances s) <= 1)%nat.
Proof.
  intros [D _ T]. unfold pendingAdvances.
  destruct (autoAdvanceTimeout s) as [h|].
  - assert (T' : Forall (fun t => advancing t = true -> tid t = h) (timers s)).
    { eapply Forall_impl; [|exact T]. simpl. intros t H Ht. specialize (H Ht). congruence. }
    clear T. induction (timers s) as [|t l IH]; simpl; [lia|].
    inversion D as [|? ? Hnot Hl]; subst. inversion T' as [|? ? Ht Hrest]; subst.
    destruct (advancing t) eqn:E; [|auto].
    assert (N : filter advancing l = []).
    { apply filter_none. rewrite Forall_forall in Hrest. apply Forall_forall. intros u Hu.
      destruct (advancing u) eqn:Eu; [|reflexivity].
      exfalso. apply Hnot. rewrite (Ht eq_refl), <- (Hrest u Hu Eu).
      now apply in_map. }
    simpl. rewrite N. simpl. lia.
  - assert (N : filter advancing (timers s) = []).
    { apply filter_none. eapply Forall_impl; [|exact T]. simpl. intros t H.
      destruct (advancing t); [specialize (H eq_refl); discriminate | reflexivity]. }
    rewrite N. simpl. lia.
Qed.

Lemma tidy_calm_any_handle h s : tidy s -> calm s -> tidy (set_autoAdvanceTimeout h s).
Proof.
  intros [D I T] C. constructor; simpl; try assumption.
  eapply Forall_impl; [|exact C]. simpl. intros t -> H. discriminate.
Qed.

(** Assignments to the other members are quiet. *)
Lemma quiet_set_novelData x s : quiet s (set_novelData x s).
Proof. now apply quiet_same. Qed.

Lemma quiet_set_currentChapter x s : quiet s (set_currentChapter x s).
Proof. now apply quiet_same. Qed.

Lemma quiet_set_currentPosition x s : quiet s (set_currentPosition x s).
Proof. now apply quiet_same. Qed.

Lemma quiet_set_bookmarks x s : quiet s (set_bookmarks x s).
Proof. now apply quiet_same. Qed.

Lemma quiet_set_settings x s : quiet s (set_settings x s).
Proof. now apply quiet_same. Qed.

Lemma quiet_set_scrollTimeout x s : quiet s (set_scrollTimeout x s).
Proof. now apply quiet_same. Qed.

Lemma quiet_set_localStorage x s : quiet s (set_localStorage x s).
Proof. now apply quiet_same. Qed.

Lemma quiet_set_viewer x s : quiet s (set_viewer x s).
Proof. now apply quiet_same. Qed.

Lemma quiet_set_className x s : quiet s (set_className x s).
Proof. now apply quiet_same. Qed.

Lemma quiet_set_notices x s : quiet s (set_notices x s).
Proof. now apply quiet_same. Qed.

Lemma quiet_set_clock x s : quiet s (set_clock x s).
Proof. now apply quiet_same. Qed.

Lemma quiet_showNotification m s : quiet s (showNotification m s).
Proof. apply quiet_set_notices. Qed.

Lemma quiet_saveSettings s : quiet s (saveSettings s).
Proof. apply quiet_set_localStorage. Qed.

Lemma quiet_saveBookmarks s : quiet s (saveBookmarks s).
Proof. apply quiet_set_localStorage. Qed.

Lemma quiet_saveProgress s : quiet s (saveProgress s).
Proof.
  unfold saveProgress. destruct (novelData s); [apply quiet_set_localStorage | apply quiet_refl].
Qed.

Lemma quiet_updateProgress s : quiet s (updateProgress s).
Proof.
  unfold updateProgress.
  destruct (Qltb _ _); [apply quiet_set_currentPosition | apply quiet_refl].
Qed.

Lemma quiet_restoreScrollPosition s : quiet s (restoreScrollPosition s).
Proof.
  unfold restoreScrollPosition. destruct (Qltb _ _); [|apply quiet_refl].
  apply quiet_setTimeout. discriminate.
Qed.

Create HintDb quiet.

#[local] Hint Resolve quiet_refl quiet_set_novelData quiet_set_currentChapter
  quiet_set_currentPosition quiet_set_bookmarks quiet_set_settings
  quiet_set_scrollTimeout quiet_set_localStorage quiet_set_viewer
  quiet_set_className quiet_set_notices quiet_set_clock quiet_showNotification
  quiet_saveSettings quiet_saveBookmarks quiet_saveProgress quiet_updateProgress
  quiet_restoreScrollPosition quiet_clearTimeout : quiet.

#[local] Hint Extern 1 (quiet _ (snd (setTimeout _ _ _))) =>
  apply quiet_setTimeout; discriminate : quiet.

(** [quiet s (f (g (... s)))]: peel the operations off one by one, from
    the outside, each being quiet by a lemma of the database. *)
Ltac quiet_chain :=
  lazymatch goal with
  | |- quiet ?s ?s => apply quiet_refl
  | |- quiet ?s (snd (setTimeout ?f ?d ?t)) =>
      apply quiet_trans with t; [quiet_chain | solve [auto with quiet]]
  | |- quiet ?s (?g ?t) =>
      apply quiet_trans with t; [quiet_chain | solve [auto with quiet]]
  end.

Section Session.
Variable DOMPurify : option (string -> SanitizeConfig -> string).
Variable parseFragment : string -> list node.
Variable measure : string -> Q.

Lemma quiet_loadProgress s : quiet s (loadProgress s).
Proof.
  unfold loadProgress. destruct (PROGRESS _); [|apply quiet_refl].
  destruct (novelData s); [|apply quiet_refl].
  destruct (String.eqb _ _); [quiet_chain | apply quiet_refl].
Qed.

Lemma quiet_show nd i ch s : quiet s (show measure nd i ch s).
Proof. apply quiet_set_viewer. Qed.

Lemma quiet_displayChapter i s : quiet s (displayChapter measure i s).
Proof.
  unfold displayChapter. destruct (novelData s) as [nd|]; [|apply quiet_refl].
  destruct (orb _ _); [apply quiet_refl|].
  destruct (at_index _ _) as [ch|]; [|apply quiet_refl].
  cbv zeta. pose proof quiet_show. quiet_chain.
Qed.

Lemma quiet_displayChapterWithScrollToTop i s :
  quiet s (displayChapterWithScrollToTop measure i s).
Proof.
  unfold displayChapterWithScrollToTop. destruct (novelData s) as [nd|]; [|apply quiet_refl].
  destruct (orb _ _); [apply quiet_refl|].
  destruct (at_index _ _) as [ch|]; [|apply quiet_refl].
  cbv zeta. pose proof quiet_show. quiet_chain.
Qed.

Lemma quiet_nextChapter s : quiet s (nextChapter measure s).
Proof.
  unfold nextChapter. destruct (novelData s); [|apply quiet_refl].
  destruct (_ <? _)%Z; [apply quiet_displayChapter | apply quiet_refl].
Qed.

Lemma quiet_previousChapter s : quiet s (previousChapter measure s).
Proof.
  unfold previousChapter.
  destruct (_ <? _)%Z; [apply quiet_displayChapter | apply quiet_refl].
Qed.

Lemma quiet_nextChapterDirect s : quiet s (nextChapterDirect measure s).
Proof.
  unfold nextChapterDirect. destruct (novelData s); [|apply quiet_refl].
  destruct (_ <=? _)%Z; [apply quiet_refl|].
  cbv zeta. pose proof quiet_displayChapterWithScrollToTop. quiet_chain.
Qed.

Lemma quiet_handleChapterEndNavigation s : quiet s (handleChapterEndNavigation measure s).
Proof.
  unfold handleChapterEndNavigation. destruct (novelData s); [|apply quiet_refl].
  destruct (_ <=? _)%Z; [apply quiet_showNotification|].
  pose proof quiet_nextChapterDirect. quiet_chain.
Qed.

Lemma quiet_scrollTo top s : quiet s (scrollTo top s).
Proof.
  unfold scrollTo, handleScroll, debounce.
  set (s0 := set_viewer _ s).
  destruct (setTimeout CbDebounce DEBOUNCE_DELAY (clearTimeout (scrollTimeout s0) s0))
    as [h s2] eqn:E.
  assert (E2 : s2 = snd (setTimeout CbDebounce DEBOUNCE_DELAY (clearTimeout (scrollTimeout s0) s0)))
    by now rewrite E.
  rewrite E2. unfold s0. quiet_chain.
Qed.

Lemma quiet_toggleBookmark s s' : toggleBookmark s = Some s' -> quiet s s'.
Proof.
  unfold toggleBookmark. intros H. destruct (novelData s).
  - destruct (findIndex _ _).
    + injection H as <-. quiet_chain.
    + destruct (at_index _ _); [|discriminate]. injection H as <-. quiet_chain.
  - injection H as <-. quiet_chain.
Qed.

Lemma quiet_setTheme t s : quiet s (setTheme t s).
Proof. unfold setTheme. destruct (negb _); [apply quiet_refl | cbv zeta; quiet_chain]. Qed.

Lemma quiet_setFont t s : quiet s (setFont t s).
Proof. unfold setFont. destruct (negb _); [apply quiet_refl | cbv zeta; quiet_chain]. Qed.

Lemma quiet_processFile file doc s :
  quiet s (processFile DOMPurify parseFragment measure file doc s).
Proof.
  unfold processFile. destruct (doc_querySelectorAll _ doc); [|apply quiet_showNotification].
  destruct (_ =? _)%nat; [apply quiet_showNotification|].
  unfold showReaderInterface. cbv zeta.
  pose proof quiet_loadProgress. pose proof quiet_displayChapter. quiet_chain.
Qed.

(** The check itself keeps the state tidy: a new delayed advance is set
    only after the one before is cleared. *)
Lemma tidy_checkAutoAdvance s : tidy s -> tidy (checkAutoAdvance s).
Proof.
  intros Hs. unfold checkAutoAdvance.
  destruct (novelData s) as [nd|]; [|assumption].
  destruct (_ <=? _)%Z; [assumption|].
  destruct (nearBottom (viewer s)).
  - set (s1 := match autoAdvanceTimeout s with
               | Some _ => clearTimeout (autoAdvanceTimeout s) s
               | None => s
               end).
    assert (T1 : tidy s1).
    { unfold s1. destruct (autoAdvanceTimeout s); [|assumption].
      now apply quiet_clearTimeout. }
    assert (C1 : calm s1).
    { destruct Hs as [D I T]. unfold s1, calm.
      destruct (autoAdvanceTimeout s) as [h|] eqn:Eh.
      - simpl. apply Forall_forall. intros t Hin. apply filter_In in Hin as [Hin Hk].
        rewrite Forall_forall in T. specialize (T t Hin).
        destruct (advancing t); [|reflexivity]. specialize (T eq_refl).
        injection T as ->. rewrite Nat.eqb_refl in Hk. discriminate.
      - eapply Forall_impl; [|exact T]. simpl. intros t H.
        destruct (advancing t); [specialize (H eq_refl); discriminate | reflexivity]. }
    destruct T1 as [D I T]. simpl. constructor; simpl.
    + rewrite map_app. simpl. apply NoDup_app; [assumption | repeat constructor; auto |].
      intros x Hin [<- | []]. apply in_map_iff in Hin as (u & Hu & Hin).
      rewrite Forall_forall in I. specialize (I u Hin). lia.
    + apply Forall_app. split.
      * eapply Forall_impl; [|exact I]. simpl. intros; lia.
      * repeat constructor.
    + apply Forall_app. split.
      * eapply Forall_impl; [|exact C1]. simpl. intros t -> H. discriminate.
      * constructor; [|constructor]. reflexivity.
  - destruct (autoAdvanceTimeout s) as [h|] eqn:Eh; [|assumption].
    apply tidy_calm_any_handle.
    + now apply quiet_clearTimeout.
    + destruct Hs as [D I T]. unfold calm. simpl.
      apply Forall_forall. intros t Hin. apply filter_In in Hin as [Hin Hk].
      rewrite Forall_forall in T. specialize (T t Hin).
      destruct (advancing t); [|reflexivity]. specialize (T eq_refl).
      rewrite Eh in T. injection T as ->. rewrite Nat.eqb_refl in Hk. discriminate.
Qed.

Lemma tidy_fire u s : tidy s -> In u (timers s) -> tidy (fire measure u s).
Proof.
  intros Hs Hin. unfold fire.
  set (s1 := set_clock _ (set_timers _ s)).
  assert (Q1 : quiet s s1)
    by (eapply quiet_trans; [apply (filter_tidy (fun v => negb (tid v =? tid u)%nat) s
                                      (set_timers (filter (fun v => negb (tid v =? tid u)%nat) (timers s)) s));
                               reflexivity
                            | apply quiet_set_clock]).
  assert (T1 : tidy s1) by now apply Q1.
  destruct (cb u) eqn:Ecb; cbv beta iota delta [run].
  - apply tidy_checkAutoAdvance.
    now apply quiet_saveProgress, quiet_updateProgress.
  - assert (C1 : calm s1).
    { destruct Hs as [D I T]. unfold calm, s1. simpl.
      apply Forall_forall. intros t Ht. apply filter_In in Ht as [Ht Hk].
      rewrite Forall_forall in T.
      destruct (advancing t) eqn:Et; [|reflexivity].
      pose proof (T t Ht Et) as H1.
      assert (Eu : advancing u = true) by (unfold advancing; now rewrite Ecb).
      pose proof (T u Hin Eu) as H2. rewrite H1 in H2. injection H2 as H2.
      rewrite H2, Nat.eqb_refl in Hk. discriminate. }
    destruct (novelData s1) as [nd|]; [|assumption].
    destruct (_ <? _)%Z.
    + match goal with
      | |- tidy (set_autoAdvanceTimeout None ?x) =>
          assert (Q2 : quiet s1 x)
            by (apply quiet_trans with (nextChapter measure s1);
                [apply quiet_nextChapter | apply quiet_showNotification])
      end.
      apply tidy_calm_any_handle; apply Q2; assumption.
    + now apply tidy_calm_any_handle.
  - exact (quiet_tidy _ _ (quiet_set_viewer _ s1) T1).
  - now apply quiet_setTimeout.
  - now apply quiet_saveProgress, quiet_updateProgress, quiet_set_viewer.
Qed.

Lemma tidy_handle e s :
  tidy s -> tidy (handle DOMPurify parseFragment measure e s).
Proof.
  intros Hs. destruct e; simpl.
  - now apply quiet_processFile.
  - now apply quiet_displayChapter.
  - now apply quiet_previousChapter.
  - now apply quiet_nextChapter.
  - now apply quiet_handleChapterEndNavigation.
  - now apply quiet_scrollTo.
  - destruct (toggleBookmark s) eqn:E; [|assumption]. now apply (quiet_toggleBookmark s).
  - now apply quiet_setTheme.
  - now apply quiet_setFont.
  - now apply quiet_set_clock.
  - destruct (find _ _) as [u|] eqn:E; [|assumption].
    apply find_some in E as [Hin _]. now apply tidy_fire.
Qed.

Lemma tidy_initial st height : tidy (initial st height).
Proof.
  unfold initial, applySettings.
  set (b0 := loadBookmarks _).
  apply (quiet_tidy (setFont (font (settings b0)) (setTheme (theme (settings b0)) b0)));
    [unfold updateFontSize; quiet_chain|].
  apply (quiet_tidy (setTheme (theme (settings b0)) b0)); [apply quiet_setFont|].
  apply (quiet_tidy b0); [apply quiet_setTheme|].
  constructor; simpl; constructor.
Qed.

Lemma reachable_tidy st height s :
  reachable DOMPurify parseFragment measure st height s -> tidy s.
Proof.
  induction 1; [apply tidy_initial | now apply tidy_handle].
Qed.

End Session.
End TimerFacts.

(** ** Bookmarks *)

Module BookmarkFacts.
Import Dom Config Host Part000.

Lemma same_place_iff t c b : same_place t c b = true <-> place b = (t, c).
Proof.
  unfold same_place, place. rewrite andb_true_iff, String.eqb_eq, Z.eqb_eq.
  split; [intros [-> ->]; reflexivity | intros H; injection H; auto].
Qed.

Lemma findIndex_None {A : Type} (p : A -> bool) (l : list A) :
  findIndex p l = None <-> existsb p l = false.
Proof.
  induction l as [|x l IH]; simpl; [tauto|].
  destruct (p x); simpl; [split; discriminate|].
  destruct (findIndex p l); simpl.
  - split; [discriminate|]. intros H. apply IH in H. discriminate.
  - split; [intros _; now apply IH | reflexivity].
Qed.

(** [findIndex] finds the first match; [splice] takes exactly it out. *)
Lemma findIndex_Some {A : Type} (p : A -> bool) (l : list A) :
  forall i, findIndex p l = Some i ->
    exists l1 x l2, l = l1 ++ x :: l2 /\ p x = true /\
                    existsb p l1 = false /\ splice1 i l = l1 ++ l2.
Proof.
  induction l as [|y l IH]; simpl; intros i H; [discriminate|].
  destruct (p y) eqn:Ey.
  - injection H as <-. exists [], y, l. simpl. auto.
  - destruct (findIndex p l) as [j|]; [|discriminate]. injection H as <-.
    destruct (IH j eq_refl) as (l1 & x & l2 & -> & Hx & Hl1 & Hs).
    exists (y :: l1), x, l2. simpl. rewrite Ey, Hs. auto.
Qed.

Lemma findIndex_last {A : Type} (p : A -> bool) (l : list A) (x : A) :
  existsb p l = false -> p x = true ->
  findIndex p (l ++ [x]) = Some (List.length l) /\ splice1 (List.length l) (l ++ [x]) = l.
Proof.
  induction l as [|y l IH]; simpl; intros Hl Hx.
  - now rewrite Hx.
  - apply orb_false_iff in Hl as [Hy Hl]. rewrite Hy.
    destruct (IH Hl Hx) as [-> ->]. auto.
Qed.

Lemma existsb_place_false t c (l : list Bookmark) :
  existsb (same_place t c) l = false <-> ~ In (t, c) (map place l).
Proof.
  split.
  - intros H Hin. apply in_map_iff in Hin as (b & Hb & Hin).
    assert (existsb (same_place t c) l = true); [|congruence].
    apply existsb_exists. exists b. split; [assumption | now apply same_place_iff].
  - intros H. destruct (existsb (same_place t c) l) eqn:E; [|reflexivity].
    apply existsb_exists in E as (b & Hin & Hb). apply same_place_iff in Hb.
    exfalso. apply H. rewrite <- Hb. now apply in_map.
Qed.

(** One toggle, with a novel loaded and the current chapter in range. *)
Lemma toggleBookmark_step (s : State) (nd : Novel) (ch : Chapter) :
  novelData s = Some nd ->
  at_index (chapters nd) (currentChapter s) = Some ch ->
  exists s1,
    toggleBookmark s = Some s1 /\
    bookmarks s1
    = match findIndex (same_place (novel_title nd) (currentChapter s)) (bookmarks s) with
      | Some i => splice1 i (bookmarks s)
      | None => bookmarks s ++ [freshBookmark nd ch s]
      end /\
    novelData s1 = Some nd /\ currentChapter s1 = currentChapter s /\
    clock s1 = clock s /\ BOOKMARKS (localStorage s1) = Some (bookmarks s1).
Proof.
  intros Hnd Hch. unfold toggleBookmark. rewrite Hnd.
  destruct (findIndex _ _) as [i|].
  - eexists. split; [reflexivity|]. simpl. auto.
  - rewrite Hch. eexists. split; [reflexivity|]. simpl. auto.
Qed.

Lemma NoDup_place_app_inv (l1 l2 : list Bookmark) (x : Bookmark) :
  NoDup (map place (l1 ++ x :: l2)) ->
  NoDup (map place (l1 ++ l2)) /\ ~ In (place x) (map place (l1 ++ l2)).
Proof.
  rewrite !map_app. simpl. intros H. split.
  - eapply NoDup_remove_1; exact H.
  - eapply NoDup_remove_2; exact H.
Qed.

(** One toggle in reader.js, with the current chapter in range. *)
Lemma readerjs_toggleBookmark_step (now : Z) (s : ReaderJs.State) (nd : ReaderJs.Novel)
    (ch : ReaderJs.Chapter) :
  ReaderJs.novelData s = Some nd ->
  at_index (ReaderJs.chapters nd) (ReaderJs.currentChapter s) = Some ch ->
  exists s1,
    ReaderJs.toggleBookmark now s = Some s1 /\
    ReaderJs.bookmarks s1
    = match find (fun b => (ReaderJs.b_chapter b =? ReaderJs.currentChapter s)%Z)
              (ReaderJs.bookmarks s) with
      | Some x =>
          filter (fun b => negb (String.eqb (ReaderJs.b_id b) (ReaderJs.b_id x)))
            (ReaderJs.bookmarks s)
      | None =>
          ReaderJs.bookmarks s ++
            [ {| ReaderJs.b_id :=
                   (Str.of_Z (ReaderJs.currentChapter s) ++ "-" ++ Str.of_Z now)%string;
                 ReaderJs.b_title := ReaderJs.title ch;
                 ReaderJs.b_chapter := ReaderJs.currentChapter s;
                 ReaderJs.b_position := ReaderJs.currentPosition s;
                 ReaderJs.b_timestamp := now |} ]
      end /\
    ReaderJs.novelData s1 = Some nd /\
    ReaderJs.currentChapter s1 = ReaderJs.currentChapter s /\
    ReaderJs.currentPosition s1 = ReaderJs.currentPosition s.
Proof.
  intros Hnd Hch. unfold ReaderJs.toggleBookmark.
  destruct (find _ _) as [x|].
  - eexists. split; [reflexivity|]. simpl. auto.
  - rewrite Hnd, Hch. eexists. split; [reflexivity|]. simpl. auto.
Qed.

End BookmarkFacts.
(** ** Time passing *)

Module ScheduleFacts.
Import Dom Config Host Part000 TimerFacts.

Section Session.
Variable DOMPurify : option (string -> SanitizeConfig -> string).
Variable parseFragment : string -> list node.
Variable measure : string -> Q.

Lemma earliest_In (l : list Timer) (u : Timer) : earliest l = Some u -> In u l.
Proof.
  revert u. induction l as [|t l IH]; simpl; intros u H; [discriminate|].
  destruct (earliest l) as [v|].
  - destruct (due v <? due t)%Z; injection H as <-; auto.
  - injection H as <-. auto.
Qed.

Lemma find_by_id (l : list Timer) (u : Timer) :
  NoDup (map tid l) -> In u l -> find (fun v => (tid v =? tid u)%nat) l = Some u.
Proof.
  induction l as [|t l IH]; simpl; intros D Hin; [contradiction|].
  inversion D as [|? ? Hnot Hl]; subst. destruct Hin as [-> | Hin].
  - now rewrite Nat.eqb_refl.
  - destruct (tid t =? tid u)%nat eqn:E; [|auto].
    apply Nat.eqb_eq in E. exfalso. apply Hnot. rewrite E. now apply in_map.
Qed.

(** Letting time pass is a sequence of events. *)
Lemma reachable_run_until st height fuel t :
  forall s,
    reachable DOMPurify parseFragment measure st height s ->
    reachable DOMPurify parseFragment measure st height (run_until measure fuel t s).
Proof.
  induction fuel as [|fuel IH]; intros s Hs; simpl; [assumption|].
  destruct (earliest (timers s)) as [u|] eqn:E.
  - destruct (due u <=? t)%Z.
    + apply IH. apply earliest_In in E.
      pose proof (reach_step DOMPurify parseFragment measure st height s (Fire (tid u)) Hs) as H.
      simpl in H. rewrite (find_by_id _ _ (ids_distinct _ (reachable_tidy _ _ _ _ _ _ Hs)) E) in H.
      exact H.
    + exact (reach_step DOMPurify parseFragment measure st height s (Elapse t) Hs).
  - exact (reach_step DOMPurify parseFragment measure st height s (Elapse t) Hs).
Qed.

Lemma reachable_events st height (es : list event) :
  forall s,
    reachable DOMPurify parseFragment measure st height s ->
    reachable DOMPurify parseFragment measure st height
      (fold_left (fun s e => handle DOMPurify parseFragment measure e s) es s).
Proof.
  induction es as [|e es IH]; intros s Hs; simpl; [assumption|].
  apply IH. now apply reach_step.
Qed.

(** When the debounced check finds the position above the bottom zone,
    no delayed advance is left. *)
Lemma debounced_check_cancels (s : State) (nd : Novel) :
  tidy s ->
  novelData s = Some nd ->
  (currentChapter s < lastIndex nd)%Z ->
  nearBottom (viewer s) = false ->
  let s' := run measure CbDebounce s in
  pendingAdvances s' = [] /\ autoAdvanceTimeout s' = None /\
  currentChapter s' = currentChapter s.
Proof.
  intros Hs Hnd Hlast Hnear. cbv beta iota zeta delta [run].
  set (s1 := saveProgress (updateProgress s)).
  assert (T1 : tidy s1) by now apply quiet_saveProgress, quiet_updateProgress.
  assert (N1 : novelData s1 = Some nd)
    by (unfold s1; now rewrite SessionFacts.novelData_saveProgress,
                              SessionFacts.novelData_updateProgress).
  assert (V1 : viewer s1 = viewer s)
    by (unfold s1; now rewrite SessionFacts.viewer_saveProgress,
                              SessionFacts.viewer_updateProgress).
  assert (C1 : currentChapter s1 = currentChapter s)
    by (unfold s1; now rewrite SessionFacts.currentChapter_saveProgress,
                              SessionFacts.currentChapter_updateProgress).
  unfold checkAutoAdvance. rewrite N1, C1, V1, Hnear.
  replace (lastIndex nd <=? currentChapter s)%Z with false
    by (symmetry; apply Z.leb_gt; exact Hlast).
  destruct T1 as [D I T]. unfold pendingAdvances.
  destruct (autoAdvanceTimeout s1) as [h|] eqn:Eh; simpl.
  - split; [|split; [reflexivity | exact C1]].
    apply filter_none. apply Forall_forall. intros t Hin.
    apply filter_In in Hin as [Hin Hk]. rewrite Forall_forall in T.
    destruct (advancing t) eqn:Et; [|reflexivity].
    pose proof (T t Hin Et) as H. injection H as ->.
    rewrite Nat.eqb_refl in Hk. discriminate.
  - split; [|split; [exact Eh | exact C1]].
    apply filter_none. eapply Forall_impl; [|exact T]. simpl. intros t H.
    destruct (advancing t); [specialize (H eq_refl); discriminate | reflexivity].
Qed.

End Session.
End ScheduleFacts.

(** * The claims of the specification *)

Import Dom Config Host HostFacts ExtractFacts BookmarkFacts Samples.

(** ** C1: the first selector with a match decides the chapters *)

(** C1 (as amended).  When [sel] is the first entry of [CONFIG.SELECTORS]
    that matches anything in the document, [part_000] returns one chapter
    per matched element, in document order, built from that element and
    from nothing else; [reader.js] does the same for the matched elements
    whose inner markup is not empty, provided there is one. *)
Theorem C1_first_match_wins :
  forall (doc : document) (pre post : list selector) (sel : selector),
    SELECTORS = (pre ++ sel :: post)%list ->
    Forall (fun p => doc_querySelectorAll p doc = []) pre ->
    doc_querySelectorAll sel doc <> [] ->
    let matched := doc_querySelectorAll sel doc in
    (forall DOMPurify parseFragment,
        let chapters := Part000.extractChapters DOMPurify parseFragment doc in
        map Part000.element chapters = matched /\
        chapters = Part000.forEach_push DOMPurify parseFragment 0 matched)
    /\
    (let kept := filter (fun el => Str.truthy (innerHTML el)) matched in
     kept <> [] ->
     ReaderJs.extract doc = ReaderJs.forEach_push 0 matched /\
     map ReaderJs.content (ReaderJs.extract doc)
     = map (fun el => ReaderJs.sanitizeContent (innerHTML el)) kept).
Proof.
  intros doc pre post sel Hsplit Hpre Hsel matched. split.
  - intros DOMPurify parseFragment chapters.
    assert (E : chapters = Part000.forEach_push DOMPurify parseFragment 0 matched).
    { unfold chapters, Part000.extractChapters. rewrite Hsplit.
      rewrite (part000_for_selectors_first _ _ doc sel post pre Hpre Hsel).
      fold matched. unfold matched in *.
      destruct (doc_querySelectorAll sel doc); [congruence | reflexivity]. }
    split; [|exact E]. rewrite E. apply part000_forEach_push_element.
  - intros kept Hkept.
    assert (E : ReaderJs.extract doc = ReaderJs.forEach_push 0 matched).
    { unfold ReaderJs.extract. rewrite Hsplit.
      rewrite (readerjs_for_selectors_first doc sel post pre Hpre Hsel). fold matched.
      destruct (ReaderJs.forEach_push 0 matched) eqn:Hp; [|reflexivity].
      exfalso. apply Hkept. unfold kept.
      pose proof (readerjs_forEach_push_content matched 0%nat) as Hc. rewrite Hp in Hc. simpl in Hc.
      symmetry in Hc. apply map_eq_nil in Hc. exact Hc. }
    split; [exact E|]. rewrite E. apply readerjs_forEach_push_content.
Qed.

Lemma C1_first_match_wins_witness :
  map Part000.element (Part000.extractChapters None (parserFor foo) foo)
  = doc_querySelectorAll (hd [] SELECTORS) foo /\
  ReaderJs.extract foo
  = ReaderJs.forEach_push 0 (doc_querySelectorAll (hd [] SELECTORS) foo).
Proof.
  assert (Hsel : doc_querySelectorAll (hd [] SELECTORS) foo <> [])
    by (vm_compute; discriminate).
  pose proof (C1_first_match_wins foo [] (tl SELECTORS) (hd [] SELECTORS)
                eq_refl (Forall_nil _) Hsel) as [HB HA].
  split.
  - exact (proj1 (HB None (parserFor foo))).
  - apply HA. vm_compute. discriminate.
Defined.

(** C1 as stated fails in [reader.js]: the first selector matches two
    elements of the document, the empty one is passed over, and one
    chapter comes back. *)
Lemma C1_reader_js_skips_empty_element :
  List.length (doc_querySelectorAll (hd [] SELECTORS) gappy) = 2%nat /\
  map ReaderJs.title (ReaderJs.extract gappy) = ["Two"%string] /\
  List.length (ReaderJs.extract gappy) = 1%nat.
Proof. vm_compute. repeat split. Qed.

(** ** C2: what the sanitizer lets through *)




(** ** C3: sanitizing twice *)

(** C3, evaluated on [reader.js].  The inner markup of the chapter
    [nested] is a style element whose text spells a script tag around
    another one.  One pass of the regular expression removes the inner
    pair and leaves a complete script block; a second pass removes that
    one too, so the second result differs from the first. *)
Theorem C3_regex_sanitizer_not_idempotent :
  let x := innerHTML nested in
  x = "<style><scr<script></script>ipt>alert(1)</script></style>"%string /\
  ReaderJs.sanitizeContent x = "<style><script>alert(1)</script></style>"%string /\
  ReaderJs.sanitizeContent (ReaderJs.sanitizeContent x) = "<style></style>"%string /\
  ReaderJs.sanitizeContent (ReaderJs.sanitizeContent x) <> ReaderJs.sanitizeContent x.
Proof.
  cbv zeta. repeat split; try (vm_compute; reflexivity).
  vm_compute. discriminate.
Qed.

(** ** C4: no selector matches *)

(** C4.  For a document with a body in which no selector of
    [CONFIG.SELECTORS] matches, both variants return exactly one chapter,
    whose content is the sanitized inner markup of the body.  A novel
    parsed by [reader.js] from a document with a body has a chapter, and
    so has every novel a session of [part_000] ever holds. *)
Theorem C4_fallback_single_chapter :
  (forall (doc : document) (body : node),
      Forall (fun p => doc_querySelectorAll p doc = []) SELECTORS ->
      body_of doc = Some body ->
      ReaderJs.extract doc = [ReaderJs.fallback_chapter doc body] /\
      ReaderJs.content (ReaderJs.fallback_chapter doc body)
      = ReaderJs.sanitizeContent (innerHTML body) /\
      forall DOMPurify parseFragment,
        Part000.extractChapters DOMPurify parseFragment doc
        = [ {| Part000.title := "Chapter 1";
               Part000.content :=
                 Part000.sanitizeContent DOMPurify parseFragment (innerHTML body);
               Part000.element := body |} ])
  /\
  (forall (doc : document) (body : node),
      body_of doc = Some body ->
      (1 <= List.length (ReaderJs.chapters (ReaderJs.parseNovelHTML doc)))%nat)
  /\
  (forall DOMPurify parseFragment measure st height (s : Part000.State) (nd : Part000.Novel),
      Part000.reachable DOMPurify parseFragment measure st height s ->
      Part000.novelData s = Some nd ->
      (1 <= List.length (Part000.chapters nd))%nat).
Proof.
  split; [|split].
  - intros doc body Hnone Hb. split; [|split].
    + unfold ReaderJs.extract. rewrite (readerjs_for_selectors_none doc _ Hnone), Hb. reflexivity.
    + reflexivity.
    + intros DOMPurify parseFragment. unfold Part000.extractChapters.
      rewrite (part000_for_selectors_none _ _ doc _ Hnone), Hb. reflexivity.
  - intros doc body Hb. cbn [ReaderJs.parseNovelHTML ReaderJs.chapters].
    unfold ReaderJs.extract. rewrite Hb.
    destruct (ReaderJs.for_selectors SELECTORS doc); simpl; lia.
  - intros DOMPurify parseFragment measure st height s nd Hs Hnd.
    pose proof (SessionFacts.reachable_novel_has_chapter _ _ _ _ _ _ Hs nd Hnd) as H.
    destruct (Part000.chapters nd); [congruence | simpl; lia].
Qed.

Lemma C4_fallback_single_chapter_witness :
  (ReaderJs.extract plain
   = [ReaderJs.fallback_chapter plain (Elem "body" [] [Elem "p" [] [Text "No chapters here."]])]) /\
  (1 <= List.length (ReaderJs.chapters (ReaderJs.parseNovelHTML plain)))%nat /\
  (1 <= List.length (Part000.chapters (novelOf fooInPart000)))%nat.
Proof.
  destruct C4_fallback_single_chapter as [H1 [H2 H3]].
  split; [|split].
  - apply (H1 plain (Elem "body" [] [Elem "p" [] [Text "No chapters here."]])).
    + repeat constructor.
    + reflexivity.
  - apply (H2 plain (Elem "body" [] [Elem "p" [] [Text "No chapters here."]])). reflexivity.
  - apply (H3 None (parserFor foo) tall Part000.emptyStorage 500%Q fooInPart000 (novelOf fooInPart000)).
    + apply Part000.reach_step, Part000.reach_initial.
    + vm_compute. reflexivity.
Defined.

(** ** C5: going to a chapter *)




(** ** C6: restoring the saved progress *)

(** C6, evaluated on both variants.  Storage holds the record (Foo,
    chapter 3, fraction 0.42) and the novel Foo with five chapters is
    loaded.  [reader.js] ends on chapter 3 with position 0: [goToChapter]
    shows the chapter, which sets the position back to 0 before the
    restored value is used.  [part_000] ends on chapter 0 with position
    0: [displayChapter(0)] saves the progress, which replaces the record
    before [loadProgress] reads it.  And with no record to restore,
    [reader.js] keeps the chapter index of the novel read before: after
    chapter 3 of Foo, the one-chapter document Plain is loaded and the
    current chapter is still 3. *)
Theorem C6_progress_not_restored :
  let a := ReaderJs.processFile tall (file "foo.html") foo (ReaderJs.initial fooSavedReaderJs 500) in
  let b := Part000.processFile None (parserFor foo) tall (file "foo.html") foo
             (Part000.initial fooSavedPart000 500) in
  (option_map ReaderJs.novel_title (ReaderJs.novelData a) = Some "Foo"%string /\
   option_map (fun nd => List.length (ReaderJs.chapters nd)) (ReaderJs.novelData a) = Some 5%nat /\
   ReaderJs.currentChapter a = 3%Z /\
   ReaderJs.currentPosition a = 0%Q /\
   (scrollTop (ReaderJs.viewer a) == 0)%Q)
  /\
  (option_map Part000.novel_title (Part000.novelData b) = Some "Foo"%string /\
   option_map (fun nd => List.length (Part000.chapters nd)) (Part000.novelData b) = Some 5%nat /\
   Part000.currentChapter b = 0%Z /\
   (Part000.currentPosition b == 0)%Q /\
   option_map Part000.p_currentChapter (Part000.PROGRESS (Part000.localStorage b)) = Some 0%Z)
  /\
  (option_map ReaderJs.novel_title (ReaderJs.novelData plainAfterChapter3) = Some "Plain"%string /\
   option_map (fun nd => List.length (ReaderJs.chapters nd)) (ReaderJs.novelData plainAfterChapter3)
   = Some 1%nat /\
   ReaderJs.PROGRESS (ReaderJs.localStorage plainAfterChapter3) = None /\
   ReaderJs.currentChapter plainAfterChapter3 = 3%Z).
Proof. vm_compute. repeat split. Qed.

(** ** C7: toggling a bookmark *)

(** C7 (as amended).  With a novel loaded and the current chapter in
    range, [toggleBookmark] of [part_000] takes out the first bookmark
    with the current novel title and chapter index if there is one, and
    appends a new one otherwise; the list is written to storage.  When
    no two bookmarks share a place this stays so, a second toggle brings
    back the same places, and brings back the very list when the place
    was not bookmarked.  [reader.js] matches on the chapter index alone:
    it takes out the bookmarks that carry the id of the first bookmark of
    the current chapter, and appends a new one otherwise; a second toggle
    then brings back the list if no other bookmark has the new id. *)
Theorem C7_toggle_bookmark :
  (forall (s : Part000.State) (nd : Part000.Novel) (ch : Part000.Chapter),
      Part000.novelData s = Some nd ->
      at_index (Part000.chapters nd) (Part000.currentChapter s) = Some ch ->
      let here := Part000.same_place (Part000.novel_title nd) (Part000.currentChapter s) in
      exists s1 s2,
        Part000.toggleBookmark s = Some s1 /\
        Part000.toggleBookmark s1 = Some s2 /\
        Part000.BOOKMARKS (Part000.localStorage s1) = Some (Part000.bookmarks s1) /\
        (existsb here (Part000.bookmarks s) = true ->
           exists l1 x l2,
             Part000.bookmarks s = l1 ++ x :: l2 /\ here x = true /\
             existsb here l1 = false /\ Part000.bookmarks s1 = l1 ++ l2) /\
        (existsb here (Part000.bookmarks s) = false ->
           Part000.bookmarks s1 = Part000.bookmarks s ++ [Part000.freshBookmark nd ch s] /\
           Part000.bookmarks s2 = Part000.bookmarks s) /\
        (NoDup (map Part000.place (Part000.bookmarks s)) ->
           NoDup (map Part000.place (Part000.bookmarks s1)) /\
           (existsb here (Part000.bookmarks s) = true ->
              existsb here (Part000.bookmarks s1) = false /\
              Part000.bookmarks s2
              = Part000.bookmarks s1 ++ [Part000.freshBookmark nd ch s]) /\
           Permutation (map Part000.place (Part000.bookmarks s2))
             (map Part000.place (Part000.bookmarks s))))
  /\
  (forall (now : Z) (s : ReaderJs.State) (nd : ReaderJs.Novel) (ch : ReaderJs.Chapter),
      ReaderJs.novelData s = Some nd ->
      at_index (ReaderJs.chapters nd) (ReaderJs.currentChapter s) = Some ch ->
      let here := fun b => (ReaderJs.b_chapter b =? ReaderJs.currentChapter s)%Z in
      let fresh :=
        {| ReaderJs.b_id :=
             (Str.of_Z (ReaderJs.currentChapter s) ++ "-" ++ Str.of_Z now)%string;
           ReaderJs.b_title := ReaderJs.title ch;
           ReaderJs.b_chapter := ReaderJs.currentChapter s;
           ReaderJs.b_position := ReaderJs.currentPosition s;
           ReaderJs.b_timestamp := now |} in
      exists s1,
        ReaderJs.toggleBookmark now s = Some s1 /\
        (forall x, find here (ReaderJs.bookmarks s) = Some x ->
           ReaderJs.bookmarks s1
           = filter (fun b => negb (String.eqb (ReaderJs.b_id b) (ReaderJs.b_id x)))
               (ReaderJs.bookmarks s)) /\
        (find here (ReaderJs.bookmarks s) = None ->
           ReaderJs.bookmarks s1 = ReaderJs.bookmarks s ++ [fresh] /\
           (Forall (fun b => ReaderJs.b_id b <> ReaderJs.b_id fresh) (ReaderJs.bookmarks s) ->
              exists s2, ReaderJs.toggleBookmark now s1 = Some s2 /\
                         ReaderJs.bookmarks s2 = ReaderJs.bookmarks s))).
Proof.
  split.
  - intros s nd ch Hnd Hch here.
    destruct (toggleBookmark_step s nd ch Hnd Hch) as (s1 & T1 & B1 & N1 & C1 & K1 & S1).
    assert (Hch1 : at_index (Part000.chapters nd) (Part000.currentChapter s1) = Some ch)
      by now rewrite C1.
    destruct (toggleBookmark_step s1 nd ch N1 Hch1) as (s2 & T2 & B2 & _).
    rewrite C1 in B2. fold here in B1, B2.
    assert (F12 : Part000.freshBookmark nd ch s1 = Part000.freshBookmark nd ch s)
      by (unfold Part000.freshBookmark; now rewrite C1, K1).
    rewrite F12 in B2.
    assert (Hfresh : here (Part000.freshBookmark nd ch s) = true).
    { unfold here, Part000.same_place. simpl. now rewrite String.eqb_refl, Z.eqb_refl. }
    exists s1, s2. split; [exact T1|]. split; [exact T2|]. split; [exact S1|].
    destruct (Part000.findIndex here (Part000.bookmarks s)) as [i|] eqn:Ef.
    + destruct (findIndex_Some _ _ _ Ef) as (l1 & x & l2 & El & Hx & Hl1 & Hs).
      assert (Ex : existsb here (Part000.bookmarks s) = true).
      { rewrite El, existsb_app. simpl. rewrite Hx. now rewrite orb_true_r. }
      split; [|split].
      * intros _. exists l1, x, l2. rewrite B1, Hs. auto.
      * intros H. congruence.
      * intros Hnodup. rewrite El in Hnodup.
        destruct (NoDup_place_app_inv _ _ _ Hnodup) as [Hnd' Hnot].
        assert (Hgone : existsb here (l1 ++ l2) = false).
        { apply existsb_place_false. apply same_place_iff in Hx. now rewrite <- Hx. }
        rewrite B1, Hs. apply findIndex_None in Hgone.
        assert (R2 : Part000.bookmarks s2 = (l1 ++ l2) ++ [Part000.freshBookmark nd ch s])
          by (rewrite B2, B1, Hs, Hgone; reflexivity).
        split; [exact Hnd'|]. split; [intros _; split; [now apply findIndex_None | exact R2]|].
        rewrite R2, El.
        assert (Ep : Part000.place (Part000.freshBookmark nd ch s) = Part000.place x).
        { apply same_place_iff in Hx. rewrite Hx. reflexivity. }
        rewrite !map_app. simpl. rewrite Ep.
        rewrite <- app_assoc. apply Permutation_app_head.
        apply Permutation_sym, Permutation_cons_append.
    + apply findIndex_None in Ef.
      destruct (findIndex_last _ _ _ Ef Hfresh) as [Ei Es].
      assert (R2 : Part000.bookmarks s2 = Part000.bookmarks s).
      { rewrite B2, B1, Ei. exact Es. }
      split; [|split].
      * intros H. congruence.
      * intros _. auto.
      * intros Hnodup. split; [|split].
        -- rewrite B1, map_app. simpl. apply NoDup_app; [assumption | repeat constructor; auto |].
           intros k Hin [<- | []]. revert Hin. now apply existsb_place_false.
        -- intros H. congruence.
        -- now rewrite R2.
  - intros now s nd ch Hnd Hch here fresh.
    destruct (readerjs_toggleBookmark_step now s nd ch Hnd Hch) as (s1 & T1 & B1 & N1 & C1 & P1).
    fold here in B1. fold fresh in B1.
    exists s1. split; [exact T1|]. split.
    + intros x Hx. now rewrite B1, Hx.
    + intros Hnone. rewrite Hnone in B1. split; [exact B1|]. intros Hids.
      assert (Hch1 : at_index (ReaderJs.chapters nd) (ReaderJs.currentChapter s1) = Some ch)
        by now rewrite C1.
      destruct (readerjs_toggleBookmark_step now s1 nd ch N1 Hch1) as (s2 & T2 & B2 & _).
      rewrite C1 in B2. fold here in B2.
      assert (Hfind : find here (ReaderJs.bookmarks s ++ [fresh]) = Some fresh).
      { clear - Hnone. induction (ReaderJs.bookmarks s) as [|b l IH]; simpl in *.
        - unfold here at 1. simpl. now rewrite Z.eqb_refl.
        - destruct (here b); [discriminate|]. now apply IH. }
      exists s2. split; [exact T2|]. rewrite B2, B1, Hfind.
      rewrite filter_app. simpl. rewrite String.eqb_refl. simpl. rewrite app_nil_r.
      clear - Hids. induction Hids as [|b l Hb _ IH]; simpl; [reflexivity|].
      apply String.eqb_neq in Hb. unfold fresh in Hb. simpl in Hb. rewrite Hb. simpl.
      now rewrite IH.
Qed.

Lemma C7_toggle_bookmark_witness :
  (exists s1 s2,
      Part000.toggleBookmark fooInPart000 = Some s1 /\
      Part000.toggleBookmark s1 = Some s2 /\
      Part000.bookmarks s2 = Part000.bookmarks fooInPart000 /\
      Permutation (map Part000.place (Part000.bookmarks s2))
        (map Part000.place (Part000.bookmarks fooInPart000))) /\
  (exists ch s1 s2,
      Part000.toggleBookmark marked = Some s1 /\
      Part000.toggleBookmark s1 = Some s2 /\
      NoDup (map Part000.place (Part000.bookmarks s1)) /\
      Part000.bookmarks s2
      = Part000.bookmarks s1 ++ [Part000.freshBookmark (novelOf marked) ch marked]) /\
  (exists s1 s2,
      ReaderJs.toggleBookmark 0 fooInReaderJs = Some s1 /\
      ReaderJs.toggleBookmark 0 s1 = Some s2 /\
      ReaderJs.bookmarks s2 = ReaderJs.bookmarks fooInReaderJs).
Proof.
  destruct C7_toggle_bookmark as [HB HA].
  split; [|split].
  - assert (NB : Part000.novelData fooInPart000 = Some (novelOf fooInPart000))
      by (vm_compute; reflexivity).
    assert (CB : at_index (Part000.chapters (novelOf fooInPart000))
                   (Part000.currentChapter fooInPart000)
                 = hd_error (Part000.chapters (novelOf fooInPart000)))
      by (vm_compute; reflexivity).
    destruct (hd_error (Part000.chapters (novelOf fooInPart000))) as [ch|] eqn:Ech;
      [|vm_compute in Ech; discriminate Ech].
    destruct (HB fooInPart000 _ ch NB CB) as (s1 & s2 & T1 & T2 & _ & _ & Habsent & Hunique).
    exists s1, s2. split; [exact T1|]. split; [exact T2|]. split.
    + apply Habsent. vm_compute. reflexivity.
    + apply Hunique. vm_compute. constructor.
  - assert (NB : Part000.novelData marked = Some (novelOf marked))
      by (vm_compute; reflexivity).
    assert (CB : at_index (Part000.chapters (novelOf marked)) (Part000.currentChapter marked)
                 = hd_error (Part000.chapters (novelOf marked)))
      by (vm_compute; reflexivity).
    destruct (hd_error (Part000.chapters (novelOf marked))) as [ch|] eqn:Ech;
      [|vm_compute in Ech; discriminate Ech].
    destruct (HB marked _ ch NB CB) as (s1 & s2 & T1 & T2 & _ & _ & _ & Hunique).
    assert (P : existsb (Part000.same_place (Part000.novel_title (novelOf marked))
                           (Part000.currentChapter marked)) (Part000.bookmarks marked) = true)
      by (vm_compute; reflexivity).
    assert (U : NoDup (map Part000.place (Part000.bookmarks marked)))
      by (vm_compute; repeat constructor; intros []).
    destruct (Hunique U) as (U1 & Hnew & _). destruct (Hnew P) as [_ E2].
    exists ch, s1, s2. auto.
  - assert (NA : ReaderJs.novelData fooInReaderJs = Some (ReaderJs.parseNovelHTML foo))
      by (vm_compute; reflexivity).
    assert (CA : at_index (ReaderJs.chapters (ReaderJs.parseNovelHTML foo))
                   (ReaderJs.currentChapter fooInReaderJs)
                 = hd_error (ReaderJs.chapters (ReaderJs.parseNovelHTML foo)))
      by (vm_compute; reflexivity).
    destruct (hd_error (ReaderJs.chapters (ReaderJs.parseNovelHTML foo))) as [ch|] eqn:Ech;
      [|vm_compute in Ech; discriminate Ech].
    destruct (HA 0%Z fooInReaderJs _ ch NA CA) as (s1 & T1 & _ & Habsent).
    assert (F : find (fun b => (ReaderJs.b_chapter b =? ReaderJs.currentChapter fooInReaderJs)%Z)
                  (ReaderJs.bookmarks fooInReaderJs) = None)
      by (vm_compute; reflexivity).
    destruct (Habsent F) as [_ Htwice].
    assert (I : Forall (fun b => ReaderJs.b_id b <>
                          (Str.of_Z (ReaderJs.currentChapter fooInReaderJs) ++ "-" ++ Str.of_Z 0)%string)
                  (ReaderJs.bookmarks fooInReaderJs))
      by (vm_compute; constructor).
    destruct (Htwice I) as (s2 & T2 & E2).
    exists s1, s2. auto.
Defined.

(** C7 as stated fails.  In [part_000], when the chapter is bookmarked,
    a second later the first toggle removes the bookmark of time 0 and
    the second appends one of time 1000, so the list is not the one
    before.  In [reader.js] the bookmark set on the first chapter of Foo
    is still there when Plain is loaded, and the toggle on the first
    chapter of Plain removes it instead of adding one. *)
Lemma C7_second_toggle_makes_a_new_bookmark :
  map Part000.timestamp (Part000.bookmarks marked) = [0%Z] /\
  map Part000.timestamp (Part000.bookmarks markedTwiceMore) = [1000%Z] /\
  map Part000.place (Part000.bookmarks markedTwiceMore) = map Part000.place (Part000.bookmarks marked) /\
  Part000.bookmarks markedTwiceMore <> Part000.bookmarks marked /\
  map ReaderJs.b_title (ReaderJs.bookmarks markedReaderJs) = ["One"%string] /\
  option_map ReaderJs.novel_title (ReaderJs.novelData plainAfterMark) = Some "Plain"%string /\
  ReaderJs.bookmarks plainAfterMark = ReaderJs.bookmarks markedReaderJs /\
  option_map ReaderJs.bookmarks plainToggled = Some [].
Proof.
  vm_compute. repeat split. intros H. discriminate H.
Qed.

(** ** C8: the stored scroll fraction *)

(** C8 (as amended).  The stored fraction is computed from the offset the
    box reports and is not clamped.  When that offset lies between 0 and
    the scrollable range, the fraction stored by [handleScrollDebounced]
    of [reader.js] lies between 0 and 1; [updateProgress] of [part_000]
    stores offset over range, between 0 and 1, when the chapter scrolls,
    and leaves the fraction as it was when it does not. *)
Theorem C8_fraction_within_unit_interval_for_offsets_in_range :
  (forall (now : Z) (s : ReaderJs.State),
      let v := ReaderJs.viewer s in
      let stored := ReaderJs.currentPosition (ReaderJs.handleScrollDebounced now s) in
      stored = (if Qltb (clientHeight v) (scrollHeight v)
                then ReaderJs.round4 (scrollTop v / maxScroll v)
                else 0)%Q /\
      ((0 <= scrollTop v)%Q -> (scrollTop v <= maxScroll v)%Q ->
       (0 <= stored)%Q /\ (stored <= 1)%Q))
  /\
  (forall (s : Part000.State),
      let v := Part000.viewer s in
      let stored := Part000.currentPosition (Part000.updateProgress s) in
      ((0 < maxScroll v)%Q -> stored = (scrollTop v / maxScroll v)%Q) /\
      ((maxScroll v <= 0)%Q -> stored = Part000.currentPosition s) /\
      ((0 < maxScroll v)%Q -> (0 <= scrollTop v)%Q -> (scrollTop v <= maxScroll v)%Q ->
       (0 <= stored)%Q /\ (stored <= 1)%Q)).
Proof.
  split.
  - intros now s v stored.
    assert (E : stored = (if Qltb (clientHeight v) (scrollHeight v)
                          then ReaderJs.round4 (scrollTop v / maxScroll v)
                          else 0)%Q).
    { unfold stored, ReaderJs.handleScrollDebounced, ReaderJs.saveReadingProgress.
      destruct (ReaderJs.novelData _); reflexivity. }
    split; [exact E|]. intros H0 H1.
    rewrite E. destruct (Qltb (clientHeight v) (scrollHeight v)) eqn:Hs.
    + apply Qltb_true in Hs.
      assert (Hpos : (0 < maxScroll v)%Q).
      { unfold maxScroll, Qminus. rewrite <- (Qplus_opp_r (clientHeight v)).
        apply Qplus_lt_l. exact Hs. }
      destruct (ratio_in_unit _ _ Hpos H0 H1) as [Ha Hb].
      now apply ReaderJsFacts.round4_in_unit.
    + split; discriminate.
  - intros s v stored. unfold stored, Part000.updateProgress. fold v.
    change (scrollHeight v - clientHeight v)%Q with (maxScroll v).
    split; [|split].
    + intros Hpos. apply Qltb_true in Hpos. now rewrite Hpos.
    + intros Hneg. apply Qltb_false in Hneg. now rewrite Hneg.
    + intros Hpos H0 H1. pose proof Hpos as Hb. apply Qltb_true in Hb. rewrite Hb.
      now apply ratio_in_unit.
Qed.

Lemma C8_fraction_within_unit_interval_for_offsets_in_range_witness :
  (0 <= ReaderJs.currentPosition (ReaderJs.handleScrollDebounced 0 midWayReaderJs))%Q /\
  (ReaderJs.currentPosition (ReaderJs.handleScrollDebounced 0 midWayReaderJs) <= 1)%Q /\
  (Part000.currentPosition (Part000.updateProgress midWayPart000) <= 1)%Q.
Proof.
  destruct C8_fraction_within_unit_interval_for_offsets_in_range as [HA HB].
  assert (A0 : (0 <= scrollTop (ReaderJs.viewer midWayReaderJs))%Q) by (vm_compute; discriminate).
  assert (A1 : (scrollTop (ReaderJs.viewer midWayReaderJs) <= maxScroll (ReaderJs.viewer midWayReaderJs))%Q)
    by (vm_compute; discriminate).
  assert (B0 : (0 <= scrollTop (Part000.viewer midWayPart000))%Q) by (vm_compute; discriminate).
  assert (B1 : (scrollTop (Part000.viewer midWayPart000) <= maxScroll (Part000.viewer midWayPart000))%Q)
    by (vm_compute; discriminate).
  destruct (HA 0%Z midWayReaderJs) as [_ HA'].
  destruct (HA' A0 A1) as [L U].
  assert (P : (0 < maxScroll (Part000.viewer midWayPart000))%Q) by (vm_compute; reflexivity).
  destruct (HB midWayPart000) as (_ & _ & HB').
  destruct (HB' P B0 B1) as [_ UB].
  split; [exact L|]. split; [exact U | exact UB].
Defined.

(** C8 as stated fails: nothing clamps.  With the box pulled 1000 pixels
    above the top of a 2000 pixel range, both variants store minus one
    half; pushed to 3400 they store 1.7. *)
Lemma C8_fraction_is_not_clamped :
  (ReaderJs.currentPosition (ReaderJs.handleScrollDebounced 0 pulledDownReaderJs) == - (1 # 2))%Q /\
  (ReaderJs.currentPosition (ReaderJs.handleScrollDebounced 0 pushedUpReaderJs) == 17 # 10)%Q /\
  (Part000.currentPosition (Part000.updateProgress pulledDownPart000) == - (1 # 2))%Q /\
  (Part000.currentPosition (Part000.updateProgress pushedUpPart000) == 17 # 10)%Q /\
  ~ (Part000.currentPosition (Part000.updateProgress pulledDownPart000) == 0)%Q /\
  ~ (Part000.currentPosition (Part000.updateProgress pushedUpPart000) == 1)%Q.
Proof.
  vm_compute. repeat split; try reflexivity; intros H; discriminate H.
Qed.

(** ** C9: the delayed advance *)

(** C9 (as amended).  In every state a session of [part_000] can reach,
    at most one delayed advance is pending.  When the debounced scroll
    check runs with a novel loaded, a chapter after the current one and
    the position above the bottom zone of 100 pixels, no delayed advance
    is pending afterwards and the current chapter is the same. *)
Theorem C9_debounced_check_cancels_pending_advance :
  forall DOMPurify parseFragment measure st height (s : Part000.State),
    Part000.reachable DOMPurify parseFragment measure st height s ->
    (List.length (Part000.pendingAdvances s) <= 1)%nat /\
    (forall nd : Part000.Novel,
        Part000.novelData s = Some nd ->
        (Part000.currentChapter s < Part000.lastIndex nd)%Z ->
        Part000.nearBottom (Part000.viewer s) = false ->
        let s' := Part000.run measure Part000.CbDebounce s in
        Part000.pendingAdvances s' = [] /\
        Part000.autoAdvanceTimeout s' = None /\
        Part000.currentChapter s' = Part000.currentChapter s).
Proof.
  intros DOMPurify parseFragment measure st height s Hs.
  pose proof (TimerFacts.reachable_tidy _ _ _ _ _ _ Hs) as Ht. split.
  - now apply TimerFacts.tidy_one_advance.
  - intros nd Hnd Hlast Hnear. now apply ScheduleFacts.debounced_check_cancels with nd.
Qed.

Lemma C9_debounced_check_cancels_pending_advance_witness :
  (List.length (Part000.pendingAdvances backUp) <= 1)%nat /\
  Part000.pendingAdvances (Part000.run tall Part000.CbDebounce backUp) = [] /\
  Part000.currentChapter (Part000.run tall Part000.CbDebounce backUp)
  = Part000.currentChapter backUp.
Proof.
  assert (R : Part000.reachable None (parserFor foo) tall Part000.emptyStorage 500%Q backUp).
  { unfold backUp, play. apply ScheduleFacts.reachable_events.
    unfold waiting. apply ScheduleFacts.reachable_run_until.
    unfold nearEnd, play. apply ScheduleFacts.reachable_events.
    unfold fooInPart000, play. apply ScheduleFacts.reachable_events.
    apply Part000.reach_initial. }
  destruct (C9_debounced_check_cancels_pending_advance _ _ _ _ _ _ R) as [H1 H2].
  assert (N : Part000.novelData backUp = Some (novelOf backUp)) by (vm_compute; reflexivity).
  assert (L : (Part000.currentChapter backUp < Part000.lastIndex (novelOf backUp))%Z)
    by (vm_compute; reflexivity).
  assert (B : Part000.nearBottom (Part000.viewer backUp) = false) by (vm_compute; reflexivity).
  destruct (H2 _ N L B) as (P & _ & C).
  split; [exact H1|]. split; [exact P | exact C].
Defined.

(** C9 as stated fails.  The reader rests at 96 per cent of the first
    chapter from time 0; the debounced check at 200 sets the advance for
    700.  At 600 the reader scrolls back to 50 per cent, below the
    threshold, 100 ms before the advance is due; the check for that
    scroll is itself debounced to 800.  At 700 the advance runs and the
    session is on the next chapter. *)
Lemma C9_late_scroll_does_not_cancel :
  map Part000.due (Part000.pendingAdvances backUp) = [700%Z] /\
  Part000.clock backUp = 600%Z /\
  Part000.nearBottom (Part000.viewer backUp) = false /\
  (scrollTop (Part000.viewer backUp) / maxScroll (Part000.viewer backUp) == 1 # 2)%Q /\
  Part000.currentChapter backUp = 0%Z /\
  Part000.clock later = 700%Z /\
  Part000.currentChapter later = 1%Z /\
  Part000.notices later
  = ["Novel loaded successfully!"%string; "Auto-advanced to next chapter"%string].
Proof. vm_compute. repeat split. Qed.

(** ** C10: unknown themes and fonts *)

(** C10.  For a name that is not one of light, dark, sepia, [setTheme]
    returns the state it was given: settings, storage and everything
    else are the same; likewise [setFont] for a name that is not one of
    serif, sans, mono.  This holds in both variants. *)
Theorem C10_unknown_theme_or_font_is_ignored :
  forall (a : ReaderJs.State) (b : Part000.State) (name : string),
    (~ In name THEMES ->
       ReaderJs.setTheme name a = a /\ Part000.setTheme name b = b) /\
    (~ In name FONTS ->
       ReaderJs.setFont name a = a /\ Part000.setFont name b = b).
Proof.
  intros a b name. split; intros H.
  - assert (E : mem name THEMES = false).
    { destruct (mem name THEMES) eqn:E; [|reflexivity]. apply mem_In in E. contradiction. }
    unfold ReaderJs.setTheme, Part000.setTheme. rewrite E. split; reflexivity.
  - assert (E : mem name FONTS = false).
    { destruct (mem name FONTS) eqn:E; [|reflexivity]. apply mem_In in E. contradiction. }
    unfold ReaderJs.setFont, Part000.setFont. rewrite E. split; reflexivity.
Qed.

Lemma C10_unknown_theme_or_font_is_ignored_witness :
  (ReaderJs.setTheme "blue" fooInReaderJs = fooInReaderJs /\
   Part000.setTheme "blue" fooInPart000 = fooInPart000) /\
  (ReaderJs.setFont "comic" fooInReaderJs = fooInReaderJs /\
   Part000.setFont "comic" fooInPart000 = fooInPart000).
Proof.
  split.
  - apply (proj1 (C10_unknown_theme_or_font_is_ignored fooInReaderJs fooInPart000 "blue")).
    simpl. intros [H | [H | [H | []]]]; discriminate H.
  - apply (proj2 (C10_unknown_theme_or_font_is_ignored fooInReaderJs fooInPart000 "comic")).
    simpl. intros [H | [H | [H | []]]]; discriminate H.
Defined.

(** ** What the operations of part_000 leave alone, continued *)

Module KeepFacts.
Import Dom Config Host Part000 Part000More.

Lemma same_refl {A : Type} (f : State -> A) s : same f s s.
Proof. reflexivity. Qed.

Lemma same_trans {A : Type} (f : State -> A) s1 s2 s3 :
  same f s1 s2 -> same f s2 s3 -> same f s1 s3.
Proof. unfold same. congruence. Qed.

Lemma kept_same s s' :
  same kept s s' ->
  settings s' = settings s /\ SETTINGS (localStorage s') = SETTINGS (localStorage s) /\
  bookmarks s' = bookmarks s /\ BOOKMARKS (localStorage s') = BOOKMARKS (localStorage s).
Proof. unfold same, kept. intros H. inversion H. auto. Qed.

(** One operation on a state written out member by member: unfold it
    down to assignments and look at each way through its tests. *)
Ltac open_op :=
  cbv beta iota zeta delta
    [displayChapter displayChapterWithScrollToTop show previousChapter nextChapter
     nextChapterDirect handleChapterEndNavigation updateProgress restoreScrollPosition
     saveProgress saveSettings saveBookmarks loadProgress checkAutoAdvance
     debounce handleScroll scrollTo setTimeout clearTimeout showNotification
     setTheme setFont handleError showReaderInterface
     set_novelData set_currentChapter set_currentPosition set_bookmarks set_settings
     set_scrollTimeout set_autoAdvanceTimeout set_localStorage set_viewer set_className
     set_notices set_clock set_timers set_nextTimer
     novelData currentChapter currentPosition bookmarks settings scrollTimeout
     autoAdvanceTimeout localStorage viewer className notices clock timers nextTimer
     SETTINGS PROGRESS BOOKMARKS kept spot advances pendingAdvances checks
     pendingScrollChecks fst snd].

Ltac by_cases :=
  repeat match goal with
         | |- context [match ?x with _ => _ end] =>
             lazymatch x with
             | context [match _ with _ => _ end] => fail
             | _ => destruct x
             end
         end.

(** A pending list with callbacks other than the delayed advance added
    at its end shows the same delayed advances. *)
Ltac same_leaf :=
  first [ reflexivity
        | rewrite ?filter_app; cbn [filter advancing debouncing cb]; rewrite ?app_nil_r;
          reflexivity ].

Ltac same_step :=
  lazymatch goal with
  | |- same _ ?t _ =>
      unfold same; generalize t; intros [];
      open_op; by_cases; same_leaf
  end.

(** [same f s (op1 (op2 (... s)))]: take the operations off one by one,
    from the outside. *)
Ltac same_chain :=
  lazymatch goal with
  | |- same _ ?s ?s => apply same_refl
  | |- same ?f ?s (snd (setTimeout ?c ?d ?t)) =>
      apply (same_trans f s t); [same_chain | same_step]
  | |- same ?f ?s (?g ?t) =>
      apply (same_trans f s t); [same_chain | same_step]
  end.

Section Session.
Variable DOMPurify : option (string -> SanitizeConfig -> string).
Variable parseFragment : string -> list node.
Variable measure : string -> Q.

Lemma kept_processFile file doc s :
  same kept s (processFile DOMPurify parseFragment measure file doc s).
Proof.
  unfold processFile. destruct (doc_querySelectorAll _ doc); [|unfold handleError; same_chain].
  destruct (_ =? _)%nat; [unfold handleError; same_chain|].
  cbv zeta. same_chain.
Qed.

Lemma kept_run c s : same kept s (run measure c s).
Proof.
  destruct c; cbv beta iota delta [run].
  - same_chain.
  - destruct (novelData s); [|apply same_refl].
    destruct (_ <? _)%Z; same_chain.
  - same_chain.
  - same_chain.
  - same_chain.
Qed.

Lemma kept_fire u s : same kept s (fire measure u s).
Proof.
  unfold fire. eapply same_trans; [|apply kept_run]. same_chain.
Qed.

(** Every event but a bookmark toggle and a change of theme or font. *)
Lemma kept_handle e s :
  match e with
  | ToggleBookmark | SetTheme _ | SetFont _ => True
  | _ => same kept s (handle DOMPurify parseFragment measure e s)
  end.
Proof.
  destruct e; try exact I; cbn [handle]; try same_chain.
  - apply kept_processFile.
  - destruct (find _ _); [apply kept_fire | apply same_refl].
Qed.

(** **** Settings and bookmarks agree with storage *)

Lemma toggleBookmark_storage s s' :
  toggleBookmark s = Some s' ->
  settings s' = settings s /\ SETTINGS (localStorage s') = SETTINGS (localStorage s) /\
  (BOOKMARKS (localStorage s') = Some (bookmarks s') \/
   localStorage s' = localStorage s /\ bookmarks s' = bookmarks s).
Proof.
  unfold toggleBookmark. intros H. destruct (novelData s).
  - destruct (findIndex _ _).
    + injection H as <-. cbn. auto.
    + destruct (at_index _ _); [|discriminate]. injection H as <-. cbn. auto.
  - injection H as <-. cbn. auto.
Qed.

Lemma settingsSaved_handle e s :
  settingsSaved s -> settingsSaved (handle DOMPurify parseFragment measure e s).
Proof.
  unfold settingsSaved. intros Hs. pose proof (kept_handle e s) as K.
  destruct e; cbn [handle] in *;
    try (destruct (kept_same _ _ K) as (K1 & K2 & _ & _); rewrite K1, K2; exact Hs).
  - destruct (toggleBookmark s) as [s'|] eqn:E; [|exact Hs].
    destruct (toggleBookmark_storage _ _ E) as (-> & -> & _). exact Hs.
  - unfold setTheme. destruct (negb _); [exact Hs | reflexivity].
  - unfold setFont. destruct (negb _); [exact Hs | reflexivity].
Qed.

Lemma bookmarksSaved_handle e s :
  bookmarksSaved s -> bookmarksSaved (handle DOMPurify parseFragment measure e s).
Proof.
  unfold bookmarksSaved. intros Hs. pose proof (kept_handle e s) as K.
  destruct e; cbn [handle] in *;
    try (destruct (kept_same _ _ K) as (_ & _ & K1 & K2); rewrite K1, K2; exact Hs).
  - destruct (toggleBookmark s) as [s'|] eqn:E; [|exact Hs].
    destruct (toggleBookmark_storage _ _ E) as (_ & _ & [-> | [-> ->]]);
      [reflexivity | exact Hs].
  - unfold setTheme. destruct (negb _); exact Hs.
  - unfold setFont. destruct (negb _); exact Hs.
Qed.

Lemma settingsSaved_initial st height : settingsSaved (initial st height).
Proof. reflexivity. Qed.

Lemma bookmarks_initial st height :
  bookmarks (initial st height) = match BOOKMARKS st with Some l => l | None => [] end.
Proof.
  unfold initial, applySettings, updateFontSize, setFont, setTheme.
  destruct (negb _), (negb _); reflexivity.
Qed.

Lemma bookmarksSaved_initial st height : bookmarksSaved (initial st height).
Proof.
  unfold bookmarksSaved. rewrite bookmarks_initial.
  unfold initial, applySettings, updateFontSize, setFont, setTheme.
  destruct (negb _), (negb _); reflexivity.
Qed.

Lemma reachable_saved st height s :
  reachable DOMPurify parseFragment measure st height s ->
  settingsSaved s /\ bookmarksSaved s.
Proof.
  induction 1 as [|s e _ [IH1 IH2]].
  - split; [apply settingsSaved_initial | apply bookmarksSaved_initial].
  - split; [now apply settingsSaved_handle | now apply bookmarksSaved_handle].
Qed.

Lemma settings_setTheme_self s : settings (setTheme (theme (settings s)) s) = settings s.
Proof.
  unfold setTheme. destruct (negb _); [reflexivity|]. cbn. now destruct (settings s).
Qed.

Lemma settings_setFont_self s : settings (setFont (font (settings s)) s) = settings s.
Proof.
  unfold setFont. destruct (negb _); [reflexivity|]. cbn. now destruct (settings s).
Qed.

Lemma settings_updateFontSize_self s :
  settings (updateFontSize (fontSize (settings s)) s) = settings s.
Proof. unfold updateFontSize. cbn. now destruct (settings s). Qed.

(** Applying the settings changes none of them. *)
Lemma settings_applySettings s : settings (applySettings s) = settings s.
Proof.
  unfold applySettings.
  pose proof (settings_setTheme_self s) as E1.
  remember (setTheme (theme (settings s)) s) as s1 eqn:D1. clear D1.
  rewrite <- E1.
  pose proof (settings_setFont_self s1) as E2.
  remember (setFont (font (settings s1)) s1) as s2 eqn:D2. clear D2.
  rewrite <- E2. apply settings_updateFontSize_self.
Qed.

(** Starting from stored settings applies them as they are. *)
Lemma settings_initial st height : settings (initial st height) = loadSettings st.
Proof. unfold initial. rewrite settings_applySettings. reflexivity. Qed.

End Session.
End KeepFacts.

(** ** The current chapter stays inside the novel *)

Module RangeFacts.
Import Dom Config Host Part000 Part000More KeepFacts.

Lemma chapterInRange_same s s' : same spot s s' -> chapterInRange s -> chapterInRange s'.
Proof.
  unfold same, spot, chapterInRange. intros E H nd Hnd. injection E as E1 E2.
  rewrite E2. apply H. now rewrite <- E1.
Qed.

Lemma chapterInRange_at nd i s :
  spot s = (Some nd, i) -> in_range (chapters nd) i = true -> chapterInRange s.
Proof.
  unfold spot, chapterInRange. intros E H nd' Hnd. injection E as E1 E2.
  rewrite E1 in Hnd. injection Hnd as <-. now rewrite E2.
Qed.

Lemma guard_in_range {A : Type} (l : list A) (i : Z) :
  orb (i <? 0)%Z (Z.of_nat (List.length l) <=? i)%Z = negb (in_range l i).
Proof.
  unfold in_range. destruct (i <? 0)%Z eqn:A1, (0 <=? i)%Z eqn:A2,
    (Z.of_nat (List.length l) <=? i)%Z eqn:A3, (i <? Z.of_nat (List.length l))%Z eqn:A4;
    try reflexivity; lia.
Qed.

(** Progress that was just saved restores to itself. *)
Lemma loadProgress_saveProgress s :
  novelData s <> None -> loadProgress (saveProgress s) = saveProgress s.
Proof.
  destruct s as [nd c p b se sc au st v cl no ck ti nx]. cbn. destruct nd as [nd|]; [|congruence].
  intros _. unfold loadProgress. cbn. rewrite String.eqb_refl. reflexivity.
Qed.

Section Session.
Variable DOMPurify : option (string -> SanitizeConfig -> string).
Variable parseFragment : string -> list node.
Variable measure : string -> Q.

Lemma spot_displayChapter i s :
  spot (displayChapter measure i s) = spot s \/
  exists nd, novelData s = Some nd /\ in_range (chapters nd) i = true /\
             spot (displayChapter measure i s) = (Some nd, i).
Proof.
  unfold displayChapter. destruct (novelData s) as [nd|] eqn:N; [|now left].
  rewrite guard_in_range. destruct (in_range (chapters nd) i) eqn:R; [|now left].
  cbn [negb]. destruct (at_index _ _) as [ch|]; [|now left].
  right. exists nd. split; [reflexivity|]. split; [exact R|]. cbv zeta.
  transitivity (spot (set_currentChapter i s)); [|unfold spot; cbn; now rewrite N].
  change (same spot (set_currentChapter i s)
            (saveProgress (updateProgress (restoreScrollPosition
               (show measure nd i ch (set_currentChapter i s)))))).
  same_chain.
Qed.

Lemma spot_displayChapterWithScrollToTop i s :
  spot (displayChapterWithScrollToTop measure i s) = spot s \/
  exists nd, novelData s = Some nd /\ in_range (chapters nd) i = true /\
             spot (displayChapterWithScrollToTop measure i s) = (Some nd, i).
Proof.
  unfold displayChapterWithScrollToTop. destruct (novelData s) as [nd|] eqn:N; [|now left].
  rewrite guard_in_range. destruct (in_range (chapters nd) i) eqn:R; [|now left].
  cbn [negb]. destruct (at_index _ _) as [ch|]; [|now left].
  right. exists nd. split; [reflexivity|]. split; [exact R|]. cbv zeta.
  transitivity (spot (set_currentChapter i s)); [|unfold spot; cbn; now rewrite N].
  change (same spot (set_currentChapter i s)
            (snd (setTimeout CbFrame 0 (show measure nd i ch (set_currentChapter i s))))).
  same_chain.
Qed.

Lemma chapterInRange_displayChapter i s :
  chapterInRange s -> chapterInRange (displayChapter measure i s).
Proof.
  intros H. destruct (spot_displayChapter i s) as [E | (nd & _ & R & E)].
  - now apply chapterInRange_same with s.
  - now apply chapterInRange_at with nd i.
Qed.

Lemma chapterInRange_previousChapter s :
  chapterInRange s -> chapterInRange (previousChapter measure s).
Proof.
  intros H. unfold previousChapter. destruct (_ <? _)%Z; [|exact H].
  now apply chapterInRange_displayChapter.
Qed.

Lemma chapterInRange_nextChapter s :
  chapterInRange s -> chapterInRange (nextChapter measure s).
Proof.
  intros H. unfold nextChapter. destruct (novelData s); [|exact H].
  destruct (_ <? _)%Z; [|exact H]. now apply chapterInRange_displayChapter.
Qed.

Lemma in_range_next (nd : Novel) (c : Z) :
  in_range (chapters nd) c = true -> (lastIndex nd <=? c)%Z = false ->
  in_range (chapters nd) (c + 1) = true.
Proof.
  unfold in_range, lastIndex. intros H L. apply andb_true_iff in H as [H0 H1].
  apply Z.leb_le in H0. apply Z.ltb_lt in H1. apply Z.leb_gt in L.
  apply andb_true_iff. split; [apply Z.leb_le | apply Z.ltb_lt]; lia.
Qed.

(** Where the button at the end of a chapter leads. *)
Lemma spot_nextChapterDirect s nd :
  novelData s = Some nd -> in_range (chapters nd) (currentChapter s) = true ->
  spot (nextChapterDirect measure s) =
  (Some nd, if (lastIndex nd <=? currentChapter s)%Z then currentChapter s
            else (currentChapter s + 1)%Z).
Proof.
  intros N R. unfold nextChapterDirect. rewrite N.
  destruct (_ <=? _)%Z eqn:L; [unfold spot; now rewrite N|].
  cbv zeta. change (currentChapter (set_currentChapter (currentChapter s + 1) s))
    with (currentChapter s + 1)%Z.
  destruct (spot_displayChapterWithScrollToTop (currentChapter s + 1)
              (set_currentChapter (currentChapter s + 1) s)) as [E | (nd' & N' & _ & E)].
  - rewrite E. unfold spot. cbn. now rewrite N.
  - rewrite E. cbn in N'. rewrite N in N'. now injection N' as <-.
Qed.

Lemma chapterInRange_nextChapterDirect s :
  chapterInRange s -> chapterInRange (nextChapterDirect measure s).
Proof.
  intros H. destruct (novelData s) as [nd|] eqn:N.
  - apply chapterInRange_at with nd
      (if (lastIndex nd <=? currentChapter s)%Z then currentChapter s
       else (currentChapter s + 1)%Z).
    + apply spot_nextChapterDirect; auto.
    + destruct (_ <=? _)%Z eqn:L; [auto | apply in_range_next; auto].
  - unfold nextChapterDirect. rewrite N. exact H.
Qed.

Lemma chapterInRange_handleChapterEndNavigation s :
  chapterInRange s -> chapterInRange (handleChapterEndNavigation measure s).
Proof.
  intros H. unfold handleChapterEndNavigation. destruct (novelData s); [|exact H].
  destruct (_ <=? _)%Z.
  - apply chapterInRange_same with s; [same_chain | exact H].
  - apply chapterInRange_same with (nextChapterDirect measure s);
      [same_chain | now apply chapterInRange_nextChapterDirect].
Qed.

Lemma spot_toggleBookmark s s' : toggleBookmark s = Some s' -> same spot s s'.
Proof.
  unfold toggleBookmark. intros H. destruct (novelData s) eqn:N.
  - destruct (findIndex _ _).
    + injection H as <-. same_chain.
    + destruct (at_index _ _); [|discriminate]. injection H as <-. same_chain.
  - injection H as <-. same_chain.
Qed.

(** Loading a file that holds chapters. *)
Lemma processFile_loaded file doc s ch rest :
  doc_querySelectorAll [[[SType "parsererror"]]] doc = [] ->
  extractChapters DOMPurify parseFragment doc = ch :: rest ->
  let nd := novelFrom file doc (ch :: rest) in
  processFile DOMPurify parseFragment measure file doc s =
  showNotification "Novel loaded successfully!"
    (saveProgress (updateProgress (restoreScrollPosition
       (show measure nd 0 ch
          (set_currentChapter 0 (set_currentPosition 0 (set_currentChapter 0
             (set_novelData (Some nd) s)))))))).
Proof.
  intros P E nd. unfold processFile. rewrite P, E. cbn [List.length Nat.eqb]. cbv zeta.
  unfold showReaderInterface. f_equal. fold nd.
  unfold displayChapter at 1.
  cbn [novelData set_currentPosition set_currentChapter set_novelData chapters nd novelFrom].
  cbn [List.length Z.of_nat orb Z.ltb Z.leb Z.compare Pos.of_succ_nat].
  cbn [at_index Z.ltb Z.compare Z.to_nat nth_error].
  cbv zeta. apply loadProgress_saveProgress.
  rewrite SessionFacts.novelData_updateProgress, SessionFacts.novelData_restoreScrollPosition.
  discriminate.
Qed.

Lemma chapterInRange_processFile file doc s :
  chapterInRange s -> chapterInRange (processFile DOMPurify parseFragment measure file doc s).
Proof.
  intros H. destruct (doc_querySelectorAll [[[SType "parsererror"]]] doc) eqn:P.
  - destruct (extractChapters DOMPurify parseFragment doc) as [|ch rest] eqn:E.
    + unfold processFile. rewrite P, E. cbn [List.length Nat.eqb].
      apply chapterInRange_same with s; [unfold handleError; same_chain | exact H].
    + rewrite (processFile_loaded file doc s ch rest P E).
      apply chapterInRange_at with (novelFrom file doc (ch :: rest)) 0%Z; [|reflexivity].
      match goal with
      | |- spot (showNotification _ (saveProgress (updateProgress (restoreScrollPosition
                   (show _ _ _ _ ?t))))) = _ =>
          transitivity (spot t); [|reflexivity]
      end.
      match goal with |- spot ?a = spot ?b => change (same spot b a) end.
      same_chain.
  - unfold processFile. rewrite P.
    apply chapterInRange_same with s; [unfold handleError; same_chain | exact H].
Qed.

Lemma chapterInRange_run c s : chapterInRange s -> chapterInRange (run measure c s).
Proof.
  intros H. destruct c; cbv beta iota delta [run].
  - apply chapterInRange_same with s; [same_chain | exact H].
  - destruct (novelData s); [|exact H]. destruct (_ <? _)%Z.
    + apply chapterInRange_same with (nextChapter measure s);
        [same_chain | now apply chapterInRange_nextChapter].
    + apply chapterInRange_same with s; [same_chain | exact H].
  - apply chapterInRange_same with s; [same_chain | exact H].
  - apply chapterInRange_same with s; [same_chain | exact H].
  - apply chapterInRange_same with s; [same_chain | exact H].
Qed.

Lemma chapterInRange_fire u s : chapterInRange s -> chapterInRange (fire measure u s).
Proof.
  intros H. unfold fire. apply chapterInRange_run.
  apply chapterInRange_same with s; [same_chain | exact H].
Qed.

Lemma chapterInRange_handle e s :
  chapterInRange s -> chapterInRange (handle DOMPurify parseFragment measure e s).
Proof.
  intros H. destruct e; cbn [handle].
  - now apply chapterInRange_processFile.
  - now apply chapterInRange_displayChapter.
  - now apply chapterInRange_previousChapter.
  - now apply chapterInRange_nextChapter.
  - now apply chapterInRange_handleChapterEndNavigation.
  - apply chapterInRange_same with s; [same_chain | exact H].
  - destruct (toggleBookmark s) eqn:E; [|exact H].
    apply chapterInRange_same with s; [now apply spot_toggleBookmark | exact H].
  - apply chapterInRange_same with s; [same_chain | exact H].
  - apply chapterInRange_same with s; [same_chain | exact H].
  - apply chapterInRange_same with s; [same_chain | exact H].
  - destruct (find _ _); [now apply chapterInRange_fire | exact H].
Qed.

Lemma reachable_chapterInRange st height s :
  reachable DOMPurify parseFragment measure st height s -> chapterInRange s.
Proof.
  induction 1 as [|s e _ IH].
  - intros nd Hnd. rewrite SessionFacts.novelData_initial in Hnd. discriminate.
  - now apply chapterInRange_handle.
Qed.

(** The keys lead nowhere the buttons do not. *)
Lemma chapterInRange_handleKeyboard hidden e s :
  chapterInRange s -> chapterInRange (handleKeyboard measure hidden e s).
Proof.
  intros H. unfold handleKeyboard. destruct (novelData s); [|exact H].
  destruct hidden; [exact H|].
  destruct (_ =? _)%string; [now apply chapterInRange_previousChapter|].
  destruct (_ =? _)%string; [now apply chapterInRange_nextChapter|].
  destruct (_ =? _)%string.
  - destruct (_ || _)%bool; [|exact H]. destruct (toggleBookmark s) eqn:E; [|exact H].
    apply chapterInRange_same with s; [now apply spot_toggleBookmark | exact H].
  - destruct (_ =? _)%string; [|exact H]. destruct (_ || _)%bool; [|exact H].
    apply chapterInRange_same with s; [same_chain | exact H].
Qed.

End Session.
End RangeFacts.

(** ** Bookmarks over a session *)

Module MarkFacts.
Import Dom Config Host Part000 Part000More KeepFacts.

Lemma toggleBookmark_NoDup s s' :
  toggleBookmark s = Some s' ->
  NoDup (map place (bookmarks s)) -> NoDup (map place (bookmarks s')).
Proof.
  unfold toggleBookmark. intros H N. destruct (novelData s) as [nd|].
  - destruct (findIndex _ _) as [i|] eqn:F.
    + injection H as <-. cbn.
      destruct (BookmarkFacts.findIndex_Some _ _ _ F) as (l1 & x & l2 & E & _ & _ & ->).
      rewrite E in N. now apply BookmarkFacts.NoDup_place_app_inv in N.
    + destruct (at_index _ _) as [ch|]; [|discriminate]. injection H as <-. cbn.
      rewrite map_app. cbn [map].
      eapply Permutation_NoDup; [apply Permutation_cons_append|].
      constructor; [|exact N].
      apply BookmarkFacts.findIndex_None in F.
      now apply BookmarkFacts.existsb_place_false in F.
  - injection H as <-. exact N.
Qed.

Section Session.
Variable DOMPurify : option (string -> SanitizeConfig -> string).
Variable parseFragment : string -> list node.
Variable measure : string -> Q.

Lemma NoDup_places_handle e s :
  NoDup (map place (bookmarks s)) ->
  NoDup (map place (bookmarks (handle DOMPurify parseFragment measure e s))).
Proof.
  intros N. pose proof (kept_handle DOMPurify parseFragment measure e s) as K.
  destruct e; cbn [handle] in *;
    try (destruct (kept_same _ _ K) as (_ & _ & -> & _); exact N).
  - destruct (toggleBookmark s) eqn:E; [|exact N]. now apply toggleBookmark_NoDup with s.
  - unfold setTheme. destruct (negb _); exact N.
  - unfold setFont. destruct (negb _); exact N.
Qed.

Lemma reachable_NoDup_places st height s :
  NoDup (map place (match BOOKMARKS st with Some l => l | None => [] end)) ->
  reachable DOMPurify parseFragment measure st height s ->
  NoDup (map place (bookmarks s)).
Proof.
  intros N. induction 1 as [|s e _ IH].
  - now rewrite bookmarks_initial.
  - now apply NoDup_places_handle.
Qed.

End Session.
End MarkFacts.

(** ** The debounced scroll check *)

Module DebounceFacts.
Import Dom Config Host Part000 Part000More KeepFacts.

Lemma Forall_when_filter {A : Type} (p : A -> bool) (Q : A -> Prop) (l : list A) :
  Forall (fun x => p x = true -> Q x) l <-> Forall Q (filter p l).
Proof.
  induction l as [|x l IH]; cbn; [split; constructor|].
  destruct (p x) eqn:E; split; intros H.
  - inversion H; subst. constructor; [auto | now apply IH].
  - inversion H; subst. constructor; [auto | now apply IH].
  - inversion H; subst. now apply IH.
  - constructor; [congruence | now apply IH].
Qed.

Lemma scrollTracked_checks s :
  scrollTracked s <->
  Forall (fun t => fst (checks s) = Some (tid t)) (snd (checks s)).
Proof. unfold scrollTracked, checks, pendingScrollChecks. cbn. apply Forall_when_filter. Qed.

Lemma hush_refl s : hush s s.
Proof. split; auto. Qed.

Lemma hush_trans s1 s2 s3 : hush s1 s2 -> hush s2 s3 -> hush s1 s3.
Proof. intros [A1 A2] [B1 B2]. split; [congruence | auto]. Qed.

Lemma hush_same s s' : same checks s s' -> hush s s'.
Proof.
  intros E. split.
  - unfold same, checks in E. now injection E.
  - rewrite !scrollTracked_checks. unfold same in E. now rewrite E.
Qed.

Lemma hush_filter keep s : hush s (set_timers (filter keep (timers s)) s).
Proof.
  split; [reflexivity|]. unfold scrollTracked. cbn. rewrite !Forall_forall.
  intros H t Ht. apply filter_In in Ht as [Ht _]. now apply H.
Qed.

Lemma hush_clearTimeout h s : hush s (clearTimeout h s).
Proof. destruct h; cbn [clearTimeout]; [apply hush_filter | apply hush_refl]. Qed.

(** A pending list in which every callback of one kind carries the handle
    kept for that kind holds at most one of the kind. *)
Lemma tracked_at_most_one (p : Timer -> bool) (h : option nat) (l : list Timer) :
  NoDup (map tid l) ->
  Forall (fun t => p t = true -> h = Some (tid t)) l ->
  (List.length (filter p l) <= 1)%nat.
Proof.
  intros D T. induction l as [|t l IH]; cbn; [lia|].
  inversion D as [|? ? Hnot Hl]; subst. inversion T as [|? ? Ht Hrest]; subst.
  destruct (p t) eqn:E; [|auto].
  assert (N : filter p l = []).
  { apply TimerFacts.filter_none. rewrite Forall_forall in Hrest. apply Forall_forall.
    intros u Hu. destruct (p u) eqn:Eu; [|reflexivity].
    exfalso. apply Hnot. specialize (Ht eq_refl). specialize (Hrest u Hu Eu).
    assert (tid t = tid u) as -> by congruence. now apply in_map. }
  cbn. rewrite N. cbn. lia.
Qed.

Lemma scrollTracked_handleScroll s : scrollTracked s -> scrollTracked (handleScroll s).
Proof.
  intros T. unfold handleScroll, debounce.
  assert (C : pendingScrollChecks (clearTimeout (scrollTimeout s) s) = []).
  { unfold pendingScrollChecks, scrollTracked in *. apply TimerFacts.filter_none.
    destruct (scrollTimeout s) as [h|]; cbn [clearTimeout timers set_timers].
    - apply Forall_forall. intros t Ht. apply filter_In in Ht as [Ht Hk].
      rewrite Forall_forall in T. specialize (T t Ht).
      destruct (debouncing t); [|reflexivity]. specialize (T eq_refl). injection T as ->.
      rewrite Nat.eqb_refl in Hk. discriminate.
    - eapply Forall_impl; [|exact T]. cbn. intros t H.
      destruct (debouncing t); [specialize (H eq_refl); discriminate | reflexivity]. }
  revert C. generalize (clearTimeout (scrollTimeout s) s). intros s1 C.
  apply scrollTracked_checks. unfold checks, pendingScrollChecks in *. cbn.
  rewrite filter_app, C. cbn. repeat constructor.
Qed.

Lemma hush_checkAutoAdvance s : hush s (checkAutoAdvance s).
Proof.
  unfold checkAutoAdvance. destruct (novelData s); [|apply hush_refl].
  destruct (_ <=? _)%Z; [apply hush_refl|]. destruct (nearBottom _).
  - apply hush_trans with
      (match autoAdvanceTimeout s with
       | Some _ => clearTimeout (autoAdvanceTimeout s) s
       | None => s
       end).
    + destruct (autoAdvanceTimeout s); [apply hush_clearTimeout | apply hush_refl].
    + generalize (match autoAdvanceTimeout s with
                  | Some _ => clearTimeout (autoAdvanceTimeout s) s
                  | None => s
                  end).
      intros s1. apply hush_same. unfold same. destruct s1. cbn.
      unfold checks, pendingScrollChecks. cbn. rewrite filter_app. cbn.
      now rewrite app_nil_r.
  - destruct (autoAdvanceTimeout s) as [h|]; [|apply hush_refl].
    apply hush_trans with (clearTimeout (Some h) s); [apply hush_clearTimeout|].
    apply hush_same. same_chain.
Qed.

Section Session.
Variable DOMPurify : option (string -> SanitizeConfig -> string).
Variable parseFragment : string -> list node.
Variable measure : string -> Q.

Lemma hush_run c s : hush s (run measure c s).
Proof.
  destruct c; cbv beta iota delta [run].
  - apply hush_trans with (saveProgress (updateProgress s)); [|apply hush_checkAutoAdvance].
    apply hush_same. same_chain.
  - apply hush_same. destruct (novelData s); [|apply same_refl].
    destruct (_ <? _)%Z; same_chain.
  - apply hush_same. same_chain.
  - apply hush_same. same_chain.
  - apply hush_same. same_chain.
Qed.

Lemma hush_fire u s : hush s (fire measure u s).
Proof.
  unfold fire. cbv zeta. eapply hush_trans; [|apply hush_run].
  apply hush_trans with (set_timers (filter (fun v => negb (tid v =? tid u)%nat) (timers s)) s);
    [apply hush_filter|].
  apply hush_same. same_chain.
Qed.

Lemma hush_processFile file doc s :
  hush s (processFile DOMPurify parseFragment measure file doc s).
Proof.
  apply hush_same.
  unfold processFile. destruct (doc_querySelectorAll _ doc); [|unfold handleError; same_chain].
  destruct (_ =? _)%nat; [unfold handleError; same_chain|].
  cbv zeta. same_chain.
Qed.

Lemma scrollTracked_handle e s :
  scrollTracked s -> scrollTracked (handle DOMPurify parseFragment measure e s).
Proof.
  intros T. destruct e; cbn [handle].
  - now apply hush_processFile.
  - apply (hush_same s); [same_chain | exact T].
  - apply (hush_same s); [same_chain | exact T].
  - apply (hush_same s); [same_chain | exact T].
  - apply (hush_same s); [same_chain | exact T].
  - unfold scrollTo. apply scrollTracked_handleScroll.
    apply (hush_same s); [same_chain | exact T].
  - destruct (toggleBookmark s) eqn:E; [|exact T]. revert E. unfold toggleBookmark.
    destruct (novelData s).
    + destruct (findIndex _ _).
      * intros [= <-]. apply (hush_same s); [same_chain | exact T].
      * destruct (at_index _ _); [|discriminate].
        intros [= <-]. apply (hush_same s); [same_chain | exact T].
    + intros [= <-]. apply (hush_same s); [same_chain | exact T].
  - apply (hush_same s); [same_chain | exact T].
  - apply (hush_same s); [same_chain | exact T].
  - apply (hush_same s); [same_chain | exact T].
  - destruct (find _ _); [now apply hush_fire | exact T].
Qed.

Lemma checks_initial st height : checks (initial st height) = (None, []).
Proof.
  unfold initial, applySettings. set (b0 := loadBookmarks _).
  transitivity (checks b0); [|reflexivity].
  match goal with |- checks ?a = checks ?b => change (same checks b a) end.
  unfold updateFontSize. same_chain.
Qed.

Lemma scrollTracked_initial st height : scrollTracked (initial st height).
Proof. apply scrollTracked_checks. rewrite checks_initial. constructor. Qed.

Lemma reachable_scrollTracked st height s :
  reachable DOMPurify parseFragment measure st height s -> scrollTracked s.
Proof.
  induction 1 as [|s e _ IH]; [apply scrollTracked_initial | now apply scrollTracked_handle].
Qed.

End Session.

End DebounceFacts.

(** ** The delayed advance over a session *)

Module AdvanceFacts.
Import Dom Config Host Part000 Part000More KeepFacts.

Lemma calm_none s : calm s -> pendingAdvances s = [].
Proof. intros C. now apply TimerFacts.filter_none. Qed.

Section Session.
Variable DOMPurify : option (string -> SanitizeConfig -> string).
Variable parseFragment : string -> list node.
Variable measure : string -> Q.

Lemma advances_processFile file doc s :
  same advances s (processFile DOMPurify parseFragment measure file doc s).
Proof.
  unfold processFile. destruct (doc_querySelectorAll _ doc); [|unfold handleError; same_chain].
  destruct (_ =? _)%nat; [unfold handleError; same_chain|].
  cbv zeta. same_chain.
Qed.

Lemma advances_toggleBookmark s s' : toggleBookmark s = Some s' -> same advances s s'.
Proof.
  unfold toggleBookmark. intros H. destruct (novelData s) eqn:N.
  - destruct (findIndex _ _).
    + injection H as <-. same_chain.
    + destruct (at_index _ _); [|discriminate]. injection H as <-. same_chain.
  - injection H as <-. same_chain.
Qed.

(** Every event but scrolling and a callback coming due. *)
Lemma advances_handle e s :
  match e with
  | Scroll _ | Fire _ => True
  | _ => same advances s (handle DOMPurify parseFragment measure e s)
  end.
Proof.
  destruct e; try exact I; cbn [handle]; try same_chain.
  - apply advances_processFile.
  - destruct (toggleBookmark s) eqn:E; [now apply advances_toggleBookmark | apply same_refl].
Qed.

(** The delayed advance comes due. *)
Lemma fire_advance u s nd :
  tidy s -> In u (timers s) -> cb u = CbAutoAdvance ->
  novelData s = Some nd -> in_range (chapters nd) (currentChapter s) = true ->
  let s' := fire measure u s in
  pendingAdvances s' = [] /\ autoAdvanceTimeout s' = None /\
  spot s' = (Some nd, if (currentChapter s <? lastIndex nd)%Z
                      then (currentChapter s + 1)%Z else currentChapter s).
Proof.
  intros Hs Hin Ecb N R. unfold fire. cbv zeta.
  set (s1 := set_clock _ (set_timers _ s)).
  assert (C1 : calm s1).
  { destruct Hs as [D I T]. unfold calm, s1. cbn.
    apply Forall_forall. intros t Ht. apply filter_In in Ht as [Ht Hk].
    rewrite Forall_forall in T.
    destruct (advancing t) eqn:Et; [|reflexivity].
    pose proof (T t Ht Et) as H1.
    assert (Eu : advancing u = true) by (unfold advancing; now rewrite Ecb).
    pose proof (T u Hin Eu) as H2. rewrite H1 in H2. injection H2 as H2.
    rewrite H2, Nat.eqb_refl in Hk. discriminate. }
  assert (N1 : novelData s1 = Some nd) by exact N.
  assert (Cur : currentChapter s1 = currentChapter s) by reflexivity.
  rewrite Ecb. cbv beta iota delta [run]. rewrite N1, Cur.
  clearbody s1. destruct (_ <? _)%Z eqn:L.
  - assert (Q : quiet s1 (showNotification "Auto-advanced to next chapter"
                            (nextChapter measure s1)))
      by (apply TimerFacts.quiet_trans with (nextChapter measure s1);
          [apply TimerFacts.quiet_nextChapter | apply TimerFacts.quiet_showNotification]).
    split; [|split; [reflexivity|]].
    + apply calm_none. destruct Q as (_ & _ & Q). exact (Q C1).
    + transitivity (spot (nextChapter measure s1)).
      { match goal with |- spot ?a = spot ?b => change (same spot b a) end. same_chain. }
      unfold nextChapter. rewrite N1, Cur, L.
      destruct (RangeFacts.spot_displayChapter measure (currentChapter s + 1) s1)
        as [E | (nd' & N' & _ & E)].
      * exfalso. revert E. unfold displayChapter. rewrite N1, RangeFacts.guard_in_range.
        assert (R' : in_range (chapters nd) (currentChapter s + 1) = true).
        { apply RangeFacts.in_range_next; [exact R|]. apply Z.leb_gt. apply Z.ltb_lt in L. lia. }
        rewrite R'. cbn [negb].
        destruct (HostFacts.in_range_at_index _ _ R') as (ch & ->). cbv zeta.
        match goal with
        | |- spot (saveProgress (updateProgress (restoreScrollPosition
                     (show _ _ _ _ ?t)))) = _ -> _ =>
            assert (E : same spot t (saveProgress (updateProgress (restoreScrollPosition
                     (show measure nd (currentChapter s + 1) ch t))))) by same_chain
        end.
        unfold same in E. rewrite E. unfold spot. cbn. rewrite Cur. intros H.
        injection H as H. lia.
      * rewrite E. rewrite N1 in N'. now injection N' as <-.
  - split; [|split; [reflexivity|]].
    + now apply calm_none.
    + unfold spot. cbn. now rewrite N1, Cur.
Qed.

End Session.
End AdvanceFacts.

(** ** Scroll offsets and fractions *)

Module ScrollFacts.
Import Dom Config Host Part000 Part000More.

Lemma Qclamp_inside (lo hi x : Q) : (lo <= x)%Q -> (x <= hi)%Q -> (Qclamp lo hi x == x)%Q.
Proof.
  intros L H. unfold Qclamp. rewrite (Q.max_r lo x L). now apply Q.min_l.
Qed.

Lemma Qclamp_bounds (lo hi x : Q) :
  (lo <= hi)%Q -> (lo <= Qclamp lo hi x)%Q /\ (Qclamp lo hi x <= hi)%Q.
Proof.
  intros L. unfold Qclamp. split.
  - apply Q.min_glb; [apply Q.le_max_l | exact L].
  - apply Q.le_min_r.
Qed.

(** An offset assigned by the program lies in the scrollable range. *)
Lemma set_scrollTop_in_range (x : Q) (v : Viewer) :
  (0 <= scrollTop (set_scrollTop x v))%Q /\
  (scrollTop (set_scrollTop x v) <= Qmax 0 (maxScroll v))%Q.
Proof. cbn. apply Qclamp_bounds. apply Q.le_max_l. Qed.

Section Session.
Variable measure : string -> Q.



Lemma forced_top (s : State) :
  let s' := run measure CbForceTop s in
  (scrollTop (viewer s') == 0)%Q /\
  ((0 < maxScroll (viewer s))%Q -> (currentPosition s' == 0)%Q) /\
  ((maxScroll (viewer s) <= 0)%Q -> currentPosition s' = currentPosition s) /\
  currentChapter s' = currentChapter s /\
  (forall nd, novelData s = Some nd ->
     PROGRESS (localStorage s') =
     Some {| p_novelTitle := novel_title nd; p_currentChapter := currentChapter s;
             p_currentPosition := currentPosition s'; p_timestamp := clock s |}).
Proof.
  cbv zeta. cbv beta iota delta [run].
  set (s0 := set_viewer (set_scrollTop 0 (viewer s)) s).
  assert (T : (scrollTop (viewer s0) == 0)%Q).
  { cbn. apply Qclamp_inside; [apply Qle_refl | apply Q.le_max_l]. }
  assert (M0 : maxScroll (viewer s0) = maxScroll (viewer s)) by reflexivity.
  assert (P0 : currentPosition s0 = currentPosition s) by reflexivity.
  assert (C0 : currentChapter s0 = currentChapter s) by reflexivity.
  assert (N0 : novelData s0 = novelData s) by reflexivity.
  assert (K0 : clock s0 = clock s) by reflexivity.
  clearbody s0.
  rewrite SessionFacts.viewer_saveProgress, SessionFacts.viewer_updateProgress,
    SessionFacts.currentPosition_saveProgress, SessionFacts.currentChapter_saveProgress,
    SessionFacts.currentChapter_updateProgress.
  split; [exact T|]. split; [|split; [|split; [exact C0|]]].
  - intros M. unfold updateProgress. cbv zeta.
    change (scrollHeight (viewer s0) - clientHeight (viewer s0))%Q with (maxScroll (viewer s0)).
    rewrite M0. apply HostFacts.Qltb_true in M as ->. cbn [currentPosition set_currentPosition].
    rewrite T. unfold Qdiv. apply Qmult_0_l.
  - intros M. unfold updateProgress. cbv zeta.
    change (scrollHeight (viewer s0) - clientHeight (viewer s0))%Q with (maxScroll (viewer s0)).
    rewrite M0. apply HostFacts.Qltb_false in M as ->. exact P0.
  - intros nd N. unfold saveProgress.
    rewrite SessionFacts.novelData_updateProgress, N0, N. cbn [localStorage set_localStorage PROGRESS].
    rewrite SessionFacts.currentChapter_updateProgress, C0. f_equal. f_equal.
    unfold updateProgress. cbv zeta. destruct (Qltb _ _); [exact K0 | exact K0].
Qed.

End Session.

End ScrollFacts.

(** ** The selector loop, continued *)

Module SelectorFacts.
Import Dom Config Host.

Lemma flat_map_nil {A B : Type} (f : A -> list B) (l : list A) :
  flat_map f l = [] <-> Forall (fun x => f x = []) l.
Proof.
  induction l as [|x l IH]; cbn; [split; auto|]. split.
  - intros H. apply app_eq_nil in H as [H1 H2]. constructor; [exact H1 | now apply IH].
  - intros H. inversion H as [|? ? H1 H2]; subst. rewrite H1. now apply IH.
Qed.

(** A selector that matches only what another one matches finds nothing
    where the other finds nothing. *)
Lemma select_in_narrower (wide narrow : selector) :
  (forall anc e, matches narrow anc e = true -> matches wide anc e = true) ->
  forall n anc, select_in wide anc n = [] -> select_in narrow anc n = [].
Proof.
  intros Sub. induction n as [s | s | t a kids IH] using node_rect'; intros anc; cbn;
    [reflexivity | reflexivity |].
  intros H. apply app_eq_nil in H as [H1 H2].
  destruct (matches narrow anc (t, a)) eqn:M.
  - apply Sub in M. rewrite M in H1. discriminate.
  - cbn. apply flat_map_nil. apply flat_map_nil in H2.
    rewrite Forall_forall in *. intros k Hk. apply IH; auto.
Qed.

Lemma section_inside_narrower (outer : compound) (anc : list elt) (e : elt) :
  matches [[[SType "section"]; outer]] anc e = true ->
  matches [[[SType "section"]]] anc e = true.
Proof.
  unfold matches. cbn [existsb matches_complex]. rewrite !orb_false_r.
  intros H. apply andb_true_iff in H as [H _]. now rewrite H.
Qed.

Lemma no_section_inside (outer : compound) (doc : document) :
  doc_querySelectorAll [[[SType "section"]]] doc = [] ->
  doc_querySelectorAll [[[SType "section"]; outer]] doc = [].
Proof.
  unfold doc_querySelectorAll. apply select_in_narrower. apply section_inside_narrower.
Qed.

Lemma readerjs_last_selectors_dead (doc : document) :
  ReaderJs.for_selectors SELECTORS doc = ReaderJs.for_selectors (firstn 6 SELECTORS) doc.
Proof.
  unfold SELECTORS. cbn [firstn ReaderJs.for_selectors].
  repeat match goal with
         | |- context [match doc_querySelectorAll ?sel doc with _ => _ end] =>
             lazymatch sel with
             | [[[SType "section"]]] => fail
             | _ => destruct (doc_querySelectorAll sel doc); [|reflexivity]
             end
         end.
  destruct (doc_querySelectorAll [[[SType "section"]]] doc) eqn:E; [|reflexivity].
  now rewrite !(no_section_inside _ doc E).
Qed.

Section WithBrowser.
Variable DOMPurify : option (string -> Part000.SanitizeConfig -> string).
Variable parseFragment : string -> list node.

Lemma part000_last_selectors_dead (doc : document) :
  Part000.for_selectors DOMPurify parseFragment SELECTORS doc []
  = Part000.for_selectors DOMPurify parseFragment (firstn 6 SELECTORS) doc [].
Proof.
  unfold SELECTORS. cbn [firstn Part000.for_selectors].
  repeat match goal with
         | |- context [doc_querySelectorAll ?sel doc] =>
             lazymatch sel with
             | [[[SType "section"]]] => fail
             | [[[SType "section"]; _]] => fail
             | _ => destruct (doc_querySelectorAll sel doc); [|reflexivity]
             end
         end.
  cbn [List.length Nat.ltb Nat.leb].
  destruct (doc_querySelectorAll [[[SType "section"]]] doc) eqn:E; [|reflexivity].
  now rewrite !(no_section_inside _ doc E).
Qed.

End WithBrowser.

(** *** Titles in reader.js *)

Lemma readerjs_forEach_push_titles (els : list node) :
  forall index,
    Forall (fun c => Str.truthy (ReaderJs.title c) = true) (ReaderJs.forEach_push index els).
Proof.
  induction els as [|el els IH]; intros index; cbn [ReaderJs.forEach_push]; [constructor|].
  apply Forall_app. split; [|apply IH].
  unfold ReaderJs.push_element. destruct (andb _ _) eqn:E; [|constructor].
  constructor; [|constructor]. cbn. apply ExtractFacts.chapter_title_truthy.
Qed.

Lemma readerjs_for_selectors_titles (sels : list selector) (doc : document) :
  Forall (fun c => Str.truthy (ReaderJs.title c) = true) (ReaderJs.for_selectors sels doc).
Proof.
  induction sels as [|sel sels IH]; cbn [ReaderJs.for_selectors]; [constructor|].
  destruct (doc_querySelectorAll sel doc) eqn:E; [exact IH|]. apply readerjs_forEach_push_titles.
Qed.

Lemma or_else_truthy (a b : string) : Str.truthy b = true -> Str.truthy (Str.or_else a b) = true.
Proof. unfold Str.or_else. destruct (Str.truthy a) eqn:E; auto. Qed.

Lemma readerjs_extract_titles (doc : document) :
  Forall (fun c => Str.truthy (ReaderJs.title c) = true) (ReaderJs.extract doc).
Proof.
  unfold ReaderJs.extract. cbv zeta.
  pose proof (readerjs_for_selectors_titles SELECTORS doc) as H.
  destruct (ReaderJs.for_selectors SELECTORS doc); [|exact H].
  destruct (body_of doc); constructor; [|constructor].
  cbn. now apply or_else_truthy.
Qed.

End SelectorFacts.

(** ** Settings and progress in reader.js *)

Module ReaderJsSession.
Import Dom Config Host ReaderJs.

Lemma classList_remove_other (c x : string) (l : list string) :
  x <> c -> In x l -> In x (classList_remove c l).
Proof.
  intros N H. unfold classList_remove. apply filter_In. split; [exact H|].
  apply negb_true_iff. now apply String.eqb_neq.
Qed.

Lemma classList_add_keeps (c x : string) (l : list string) :
  In x l -> In x (classList_add c l).
Proof.
  unfold classList_add. destruct (existsb _ l); [auto|]. intros H. apply in_or_app. now left.
Qed.

Lemma classList_add_has (c : string) (l : list string) : In c (classList_add c l).
Proof.
  unfold classList_add. destruct (existsb _ l) eqn:E.
  - apply existsb_exists in E as (x & Hx & E). apply String.eqb_eq in E. now subst.
  - apply in_or_app. right. now left.
Qed.

(** Whatever class the root element carries, it still carries after a
    change of theme. *)
Lemma setTheme_keeps_classes (t x : string) (s : State) :
  In x (rootClasses s) -> In x (rootClasses (setTheme t s)).
Proof.
  intros H. unfold setTheme. destruct (negb _); [exact H|]. cbn.
  destruct (String.eqb x ("theme-" ++ t)%string) eqn:E.
  - apply String.eqb_eq in E. subst. apply classList_add_has.
  - apply String.eqb_neq in E. apply classList_add_keeps. now apply classList_remove_other.
Qed.

Lemma setFont_keeps_classes (f x : string) (s : State) :
  In x (rootClasses s) -> In x (rootClasses (setFont f s)).
Proof.
  intros H. unfold setFont. destruct (negb _); [exact H|]. cbn.
  destruct (String.eqb x ("font-" ++ f)%string) eqn:E.
  - apply String.eqb_eq in E. subst. apply classList_add_has.
  - apply String.eqb_neq in E. apply classList_add_keeps. now apply classList_remove_other.
Qed.

Lemma setTheme_adds_class (t : string) (s : State) :
  mem t THEMES = true -> In ("theme-" ++ t)%string (rootClasses (setTheme t s)).
Proof. intros M. unfold setTheme. rewrite M. cbn. apply classList_add_has. Qed.





Section Browser.
Variable measure : string -> Q.

(** Going to a chapter of the novel sets the position back to 0. *)
Lemma goToChapter_in_range index s nd :
  novelData s = Some nd -> in_range (chapters nd) index = true ->
  let s' := goToChapter measure index s in
  novelData s' = Some nd /\ currentChapter s' = index /\ currentPosition s' = 0%Q /\
  (scrollTop (viewer s') == 0)%Q /\ localStorage s' = localStorage s.
Proof.
  intros N R. cbv zeta. unfold goToChapter. rewrite N, R.
  unfold displayChapter. cbn [novelData set_currentChapter]. rewrite N.
  destruct (HostFacts.in_range_at_index _ _ R) as (ch & ->). cbv zeta. unfold updateUI.
  cbn. repeat split; auto.
  apply ScrollFacts.Qclamp_inside; [apply Qle_refl | apply Q.le_max_l].
Qed.

Lemma goToChapter_out_of_range index s nd :
  novelData s = Some nd -> in_range (chapters nd) index = false ->
  goToChapter measure index s = s.
Proof. intros N R. unfold goToChapter. now rewrite N, R. Qed.

(** A stored record for the novel at hand. *)
Lemma loadReadingProgress_matching s nd data :
  novelData s = Some nd -> PROGRESS (localStorage s) = Some data ->
  p_novel data = novel_title nd ->
  let s' := loadReadingProgress measure s in
  currentChapter s' = p_chapter data /\
  (in_range (chapters nd) (p_chapter data) = true ->
     currentPosition s' = 0%Q /\ (scrollTop (viewer s') == 0)%Q) /\
  (in_range (chapters nd) (p_chapter data) = false ->
     currentPosition s' = p_position data).
Proof.
  intros N P T. cbv zeta. unfold loadReadingProgress. rewrite P, N, T, String.eqb_refl.
  cbv zeta. cbn [currentChapter set_currentPosition set_currentChapter].
  set (s2 := set_currentPosition (p_position data) (set_currentChapter (p_chapter data) s)).
  assert (N2 : novelData s2 = Some nd) by exact N.
  assert (C2 : currentChapter s2 = p_chapter data) by reflexivity.
  assert (P2 : currentPosition s2 = p_position data) by reflexivity.
  clearbody s2.
  destruct (in_range (chapters nd) (p_chapter data)) eqn:R.
  - destruct (goToChapter_in_range (p_chapter data) s2 nd N2 R) as (_ & A & B & C & _).
    rewrite B. change (Qltb 0 0) with false. cbv iota. rewrite A, B.
    split; [reflexivity|]. split; [auto | discriminate].
  - rewrite (goToChapter_out_of_range (p_chapter data) s2 nd N2 R).
    unfold restoreScrollPosition. destruct (Qltb 0 (currentPosition s2)); cbn; rewrite C2, P2;
      (split; [reflexivity|]; split; [discriminate | reflexivity]).
Qed.

Lemma loadReadingProgress_other s :
  (forall data nd, PROGRESS (localStorage s) = Some data -> novelData s = Some nd ->
                   p_novel data <> novel_title nd) ->
  loadReadingProgress measure s = s.
Proof.
  intros H. unfold loadReadingProgress.
  destruct (PROGRESS (localStorage s)) as [data|]; [|reflexivity].
  destruct (novelData s) as [nd|]; [|reflexivity].
  specialize (H data nd eq_refl eq_refl). apply String.eqb_neq in H. now rewrite H.
Qed.

(** Nothing sets the chapter index back when a file is read. *)
Lemma onload_keeps_chapter doc s :
  PROGRESS (localStorage s) = None ->
  currentChapter (onload measure doc s) = currentChapter s /\
  novelData (onload measure doc s) = Some (parseNovelHTML doc).
Proof.
  intros P. unfold onload. cbv zeta. unfold displayChapter.
  cbn [novelData set_novelData]. destruct (at_index _ 0) as [ch|]; cbv zeta.
  - rewrite loadReadingProgress_other; [split; reflexivity|].
    intros data nd H. cbn in H. rewrite P in H. discriminate.
  - rewrite loadReadingProgress_other; [split; reflexivity|].
    intros data nd H. cbn in H. rewrite P in H. discriminate.
Qed.

End Browser.

End ReaderJsSession.

(** ** Strings: escaping, trimming, the file extension *)

Module StringFacts.
Import Dom Config Host.

Lemma chars_app (a b : string) :
  list_ascii_of_string (a ++ b)%string = list_ascii_of_string a ++ list_ascii_of_string b.
Proof. induction a as [|c a IH]; cbn; [reflexivity | now rewrite IH]. Qed.

Lemma escapeText_no_angle (t : string) :
  Forall (fun c => c <> "<"%char /\ c <> ">"%char) (list_ascii_of_string (escapeText t)).
Proof.
  induction t as [|c t IH]; cbn [escapeText]; [constructor|].
  rewrite chars_app. apply Forall_app. split; [|exact IH].
  destruct (Ascii.eqb c "&") eqn:E1; [repeat constructor; discriminate|].
  destruct (Ascii.eqb c "<") eqn:E2; [repeat constructor; discriminate|].
  destruct (Ascii.eqb c ">") eqn:E3; [repeat constructor; discriminate|].
  destruct (Nat.eqb (nat_of_ascii c) 160) eqn:E4; [repeat constructor; discriminate|].
  apply Ascii.eqb_neq in E2, E3. repeat constructor; assumption.
Qed.

(** *** [trim] *)

Lemma trimEnd_idempotent (s : string) : Str.trimEnd (Str.trimEnd s) = Str.trimEnd s.
Proof.
  induction s as [|c s IH]; cbn [Str.trimEnd]; [reflexivity|].
  destruct (Str.trimEnd s) as [|d r] eqn:E.
  - destruct (Str.is_space c) eqn:Sp; cbn [Str.trimEnd]; [reflexivity | now rewrite Sp].
  - change (Str.trimEnd (String c (String d r)))
      with (match Str.trimEnd (String d r) with
            | EmptyString => if Str.is_space c then EmptyString else String c EmptyString
            | String x y => String c (String x y)
            end).
    now rewrite IH.
Qed.

Lemma trimStart_fixed (c : ascii) (s : string) :
  Str.is_space c = false -> Str.trimStart (String c s) = String c s.
Proof. intros H. cbn [Str.trimStart]. now rewrite H. Qed.

Lemma trimStart_shape (s : string) :
  Str.trimStart s = EmptyString \/
  exists c r, Str.trimStart s = String c r /\ Str.is_space c = false.
Proof.
  induction s as [|c s IH]; cbn [Str.trimStart]; [now left|].
  destruct (Str.is_space c) eqn:E; [exact IH | right; eauto].
Qed.

Lemma trimEnd_head (c : ascii) (s : string) :
  Str.is_space c = false -> exists r, Str.trimEnd (String c s) = String c r.
Proof.
  intros H. cbn [Str.trimEnd]. destruct (Str.trimEnd s); [rewrite H|]; eauto.
Qed.

Lemma trim_idempotent (s : string) : Str.trim (Str.trim s) = Str.trim s.
Proof.
  unfold Str.trim. destruct (trimStart_shape s) as [-> | (c & r & -> & Sp)]; [reflexivity|].
  destruct (trimEnd_head c r Sp) as (r' & E). rewrite E, (trimStart_fixed c r' Sp), <- E.
  apply trimEnd_idempotent.
Qed.

(** *** The extension of the file name *)

Import Part000.







End StringFacts.

(** ** Loading, keys and export in part_000 *)

Module LoadFacts.
Import Dom Config Host Part000 Part000More KeepFacts.

(** What [saveProgress] writes. *)
Lemma saveProgress_stored s nd :
  novelData s = Some nd ->
  PROGRESS (localStorage (saveProgress s))
  = Some {| p_novelTitle := novel_title nd; p_currentChapter := currentChapter s;
            p_currentPosition := currentPosition s; p_timestamp := clock s |}.
Proof. intros N. unfold saveProgress. rewrite N. reflexivity. Qed.

Lemma NoDup_chapters_of_one_novel (t : string) (l : list Bookmark) :
  NoDup (map place l) ->
  NoDup (map chapterIndex (filter (fun b => String.eqb (novelTitle b) t) l)).
Proof.
  induction l as [|b l IH]; cbn; intros N; [constructor|].
  inversion N as [|? ? Hnot Hl]; subst. destruct (String.eqb (novelTitle b) t) eqn:E.
  - cbn. constructor; [|now apply IH]. intros Hin. apply Hnot.
    apply in_map_iff in Hin as (b' & Hc & Hin). apply filter_In in Hin as [Hin Ht].
    apply String.eqb_eq in E, Ht. apply in_map_iff. exists b'. split; [|exact Hin].
    unfold place. now rewrite Hc, Ht, E.
  - now apply IH.
Qed.

Section Session.
Variable DOMPurify : option (string -> SanitizeConfig -> string).
Variable parseFragment : string -> list node.
Variable measure : string -> Q.

(** A file that holds chapters, once loaded. *)
Lemma processFile_result file doc s ch rest :
  doc_querySelectorAll [[[SType "parsererror"]]] doc = [] ->
  extractChapters DOMPurify parseFragment doc = ch :: rest ->
  let nd := novelFrom file doc (ch :: rest) in
  let s' := processFile DOMPurify parseFragment measure file doc s in
  spot s' = (Some nd, 0%Z) /\
  titleText (viewer s') = title ch /\
  PROGRESS (localStorage s')
  = Some {| p_novelTitle := novel_title nd; p_currentChapter := 0;
            p_currentPosition := currentPosition s'; p_timestamp := clock s |} /\
  kept s' = kept s.
Proof.
  intros P E nd s'. split; [|split; [|split]].
  - unfold s'. rewrite (RangeFacts.processFile_loaded _ _ measure file doc s ch rest P E).
    fold nd.
    match goal with
    | |- spot (showNotification _ (saveProgress (updateProgress (restoreScrollPosition
                 (show _ _ _ _ ?t))))) = _ =>
        transitivity (spot t); [|reflexivity]
    end.
    match goal with |- spot ?a = spot ?b => change (same spot b a) end.
    same_chain.
  - unfold s'. rewrite (RangeFacts.processFile_loaded _ _ measure file doc s ch rest P E).
    fold nd.
    match goal with
    | |- titleText (viewer (showNotification _ (saveProgress (updateProgress
           (restoreScrollPosition ?t))))) = _ =>
        transitivity (titleText (viewer t)); [|reflexivity];
        change (same (fun x => titleText (viewer x)) t
                  (showNotification "Novel loaded successfully!"
                     (saveProgress (updateProgress (restoreScrollPosition t)))))
    end.
    same_chain.
  - unfold s'. rewrite (RangeFacts.processFile_loaded _ _ measure file doc s ch rest P E).
    fold nd.
    match goal with
    | |- PROGRESS (localStorage (showNotification _ (saveProgress ?u))) = _ =>
        change (PROGRESS (localStorage (saveProgress u))
                = Some {| p_novelTitle := novel_title nd; p_currentChapter := 0;
                          p_currentPosition := currentPosition (saveProgress u);
                          p_timestamp := clock s |});
        assert (V : (novelData u, currentChapter u, clock u) = (Some nd, 0%Z, clock s))
    end.
    { match goal with
      | |- (novelData ?u, _, _) = _ =>
          lazymatch u with
          | updateProgress (restoreScrollPosition (show _ _ _ _ ?t)) =>
              transitivity ((fun x => (novelData x, currentChapter x, clock x)) t);
                [|reflexivity];
              change (same (fun x => (novelData x, currentChapter x, clock x)) t u)
          end
      end.
      same_chain. }
    injection V as V1 V2 V3.
    rewrite (saveProgress_stored _ nd V1), V2, V3, SessionFacts.currentPosition_saveProgress.
    reflexivity.
  - apply (kept_processFile DOMPurify parseFragment measure file doc s).
Qed.

End Session.
End LoadFacts.

(** * Further properties of the code *)

(** ** Sessions of part_000 *)

(** The sample session [backUp] is one a reader can be in. *)
Lemma backUp_reachable :
  Part000.reachable None (parserFor foo) tall Part000.emptyStorage 500%Q backUp.
Proof.
  unfold backUp, play. apply ScheduleFacts.reachable_events.
  unfold waiting. apply ScheduleFacts.reachable_run_until.
  unfold nearEnd, play. apply ScheduleFacts.reachable_events.
  unfold fooInPart000, play. apply ScheduleFacts.reachable_events.
  apply Part000.reach_initial.
Qed.

Lemma marked_reachable :
  Part000.reachable None (parserFor foo) tall Part000.emptyStorage 500%Q marked.
Proof.
  unfold marked, play. apply ScheduleFacts.reachable_events.
  unfold fooInPart000, play. apply ScheduleFacts.reachable_events.
  apply Part000.reach_initial.
Qed.

(** X1.  In every state a session of [part_000] can reach, the current
    chapter index is the index of a chapter of the loaded novel, so
    [toggleBookmark] always finds the chapter title it reads and never
    raises. *)
Theorem X1_current_chapter_is_a_chapter_of_the_novel :
  forall DOMPurify parseFragment measure st height (s : Part000.State),
    Part000.reachable DOMPurify parseFragment measure st height s ->
    Part000More.chapterInRange s /\
    exists s', Part000.toggleBookmark s = Some s'.
Proof.
  intros DOMPurify parseFragment measure st height s R.
  pose proof (RangeFacts.reachable_chapterInRange _ _ _ _ _ _ R) as H.
  split; [exact H|]. unfold Part000.toggleBookmark.
  destruct (Part000.novelData s) as [nd|] eqn:N; [|eauto].
  destruct (Part000.findIndex _ _); [eauto|].
  destruct (in_range_at_index _ _ (H nd N)) as (ch & ->). eauto.
Qed.

Lemma X1_current_chapter_is_a_chapter_of_the_novel_witness :
  Part000More.chapterInRange backUp /\ exists s', Part000.toggleBookmark backUp = Some s'.
Proof.
  apply (X1_current_chapter_is_a_chapter_of_the_novel
           None (parserFor foo) tall Part000.emptyStorage 500%Q backUp).
  exact backUp_reachable.
Defined.

(** X2.  In every state a session of [part_000] can reach, storage holds
    the settings in use and the bookmarks in use are the stored ones; a
    reader started anew on that storage has the same settings and the
    same bookmarks. *)
Theorem X2_settings_and_bookmarks_survive_a_restart :
  forall DOMPurify parseFragment measure st height (s : Part000.State),
    Part000.reachable DOMPurify parseFragment measure st height s ->
    Part000More.settingsSaved s /\ Part000More.bookmarksSaved s /\
    forall height' : Q,
      Part000.settings (Part000.initial (Part000.localStorage s) height') = Part000.settings s /\
      Part000.bookmarks (Part000.initial (Part000.localStorage s) height') = Part000.bookmarks s.
Proof.
  intros DOMPurify parseFragment measure st height s R.
  destruct (KeepFacts.reachable_saved _ _ _ _ _ _ R) as [A B].
  split; [exact A|]. split; [exact B|]. intros height'. split.
  - rewrite KeepFacts.settings_initial. unfold Part000.loadSettings.
    unfold Part000More.settingsSaved in A. now rewrite A.
  - rewrite KeepFacts.bookmarks_initial. unfold Part000More.bookmarksSaved in B. now rewrite B.
Qed.

Lemma X2_settings_and_bookmarks_survive_a_restart_witness :
  Part000More.settingsSaved marked /\ Part000More.bookmarksSaved marked /\
  forall height' : Q,
    Part000.settings (Part000.initial (Part000.localStorage marked) height')
    = Part000.settings marked /\
    Part000.bookmarks (Part000.initial (Part000.localStorage marked) height')
    = Part000.bookmarks marked.
Proof.
  apply (X2_settings_and_bookmarks_survive_a_restart
           None (parserFor foo) tall Part000.emptyStorage 500%Q marked).
  exact marked_reachable.
Defined.



(** X4.  When no two stored bookmarks mark the same chapter of the same
    novel, no two bookmarks do in any state a session of [part_000]
    started on that storage can reach. *)
Theorem X4_bookmarks_mark_distinct_places :
  forall DOMPurify parseFragment measure st height (s : Part000.State),
    NoDup (map Part000.place
             (match Part000.BOOKMARKS st with Some l => l | None => [] end)) ->
    Part000.reachable DOMPurify parseFragment measure st height s ->
    NoDup (map Part000.place (Part000.bookmarks s)).
Proof.
  intros DOMPurify parseFragment measure st height s N R.
  now apply (MarkFacts.reachable_NoDup_places DOMPurify parseFragment measure st height).
Qed.

Lemma X4_bookmarks_mark_distinct_places_witness :
  NoDup (map Part000.place (Part000.bookmarks marked)).
Proof.
  apply (X4_bookmarks_mark_distinct_places
           None (parserFor foo) tall Part000.emptyStorage 500%Q marked).
  - cbn. constructor.
  - exact marked_reachable.
Defined.

(** X5.  In every state a session of [part_000] can reach, at most one
    debounced scroll check is pending: [debounce] clears the one it set
    before it sets the next. *)
Theorem X5_one_pending_scroll_check :
  forall DOMPurify parseFragment measure st height (s : Part000.State),
    Part000.reachable DOMPurify parseFragment measure st height s ->
    (List.length (Part000More.pendingScrollChecks s) <= 1)%nat.
Proof.
  intros DOMPurify parseFragment measure st height s R.
  apply DebounceFacts.tracked_at_most_one with (Part000.scrollTimeout s).
  - apply (Part000.ids_distinct s). exact (TimerFacts.reachable_tidy _ _ _ _ _ _ R).
  - exact (DebounceFacts.reachable_scrollTracked _ _ _ _ _ _ R).
Qed.

Lemma X5_one_pending_scroll_check_witness :
  (List.length (Part000More.pendingScrollChecks backUp) <= 1)%nat.
Proof.
  apply (X5_one_pending_scroll_check
           None (parserFor foo) tall Part000.emptyStorage 500%Q backUp).
  exact backUp_reachable.
Defined.

(** X6.  When the delayed advance comes due in a state a session of
    [part_000] can reach, with a novel loaded, no delayed advance is
    pending afterwards, [autoAdvanceTimeout] is null, and the session is
    on the next chapter if there is one and on the same chapter if not. *)
Theorem X6_the_delayed_advance_runs_once :
  forall DOMPurify parseFragment measure st height (s : Part000.State)
         (i : nat) (u : Part000.Timer) (nd : Part000.Novel),
    Part000.reachable DOMPurify parseFragment measure st height s ->
    find (fun t => (Part000.tid t =? i)%nat) (Part000.timers s) = Some u ->
    Part000.cb u = Part000.CbAutoAdvance ->
    Part000.novelData s = Some nd ->
    let s' := Part000.handle DOMPurify parseFragment measure (Part000.Fire i) s in
    Part000.pendingAdvances s' = [] /\
    Part000.autoAdvanceTimeout s' = None /\
    Part000.novelData s' = Some nd /\
    Part000.currentChapter s'
    = (if (Part000.currentChapter s <? Part000.lastIndex nd)%Z
       then Part000.currentChapter s + 1 else Part000.currentChapter s)%Z.
Proof.
  intros DOMPurify parseFragment measure st height s i u nd R F C N. cbv zeta.
  cbn [Part000.handle]. rewrite F. apply find_some in F as [Hin _].
  destruct (AdvanceFacts.fire_advance measure u s nd
              (TimerFacts.reachable_tidy _ _ _ _ _ _ R) Hin C N
              (RangeFacts.reachable_chapterInRange _ _ _ _ _ _ R nd N)) as (A & B & S).
  unfold Part000More.spot in S. injection S as S1 S2. auto.
Qed.

Lemma X6_the_delayed_advance_runs_once_witness :
  let s' := Part000.handle None (parserFor foo) tall (Part000.Fire 2) backUp in
  Part000.pendingAdvances s' = [] /\
  Part000.autoAdvanceTimeout s' = None /\
  Part000.novelData s' = Some (novelOf backUp) /\
  Part000.currentChapter s' = 1%Z.
Proof.
  apply (X6_the_delayed_advance_runs_once
           None (parserFor foo) tall Part000.emptyStorage 500%Q backUp 2%nat
           {| Part000.tid := 2; Part000.due := 700; Part000.cb := Part000.CbAutoAdvance |}
           (novelOf backUp)).
  - exact backUp_reachable.
  - vm_compute. reflexivity.
  - reflexivity.
  - vm_compute. reflexivity.
Defined.

(** X7.  Loading a file, going to a chapter by the list, the buttons or
    the button at the end of a chapter, toggling a bookmark and changing
    theme or font neither cancel a pending delayed advance nor set one:
    only the debounced scroll check and the advance itself do. *)
Theorem X7_navigation_leaves_the_delayed_advance_pending :
  forall DOMPurify parseFragment measure (e : Part000.event) (s : Part000.State),
    (forall top, e <> Part000.Scroll top) ->
    (forall i, e <> Part000.Fire i) ->
    let s' := Part000.handle DOMPurify parseFragment measure e s in
    Part000.autoAdvanceTimeout s' = Part000.autoAdvanceTimeout s /\
    Part000.pendingAdvances s' = Part000.pendingAdvances s.
Proof.
  intros DOMPurify parseFragment measure e s H1 H2. cbv zeta.
  pose proof (AdvanceFacts.advances_handle DOMPurify parseFragment measure e s) as A.
  destruct e as [file doc | index | | | | top | | name | name | t | i];
    try (now destruct (H1 top)); try (now destruct (H2 i));
    (split; [exact (f_equal fst A) | exact (f_equal snd A)]).
Qed.

Lemma X7_navigation_leaves_the_delayed_advance_pending_witness :
  let s' := Part000.handle None (parserFor foo) tall (Part000.ChapterLink 3) backUp in
  Part000.autoAdvanceTimeout s' = Some 2%nat /\
  Part000.pendingAdvances s'
  = [ {| Part000.tid := 2; Part000.due := 700; Part000.cb := Part000.CbAutoAdvance |} ].
Proof.
  apply (X7_navigation_leaves_the_delayed_advance_pending
           None (parserFor foo) tall (Part000.ChapterLink 3) backUp).
  - intros top. discriminate.
  - intros i. discriminate.
Defined.



(** X9.  The callback that [displayChapterWithScrollToTop] leaves puts
    the chapter box at offset 0 and saves the progress: the position is 0
    when the chapter scrolls and is left as it was when it does not, the
    chapter index is unchanged, and with a novel loaded the stored
    record is that of the current chapter and position. *)
Theorem X9_forced_scroll_to_top :
  forall (measure : string -> Q) (s : Part000.State),
    let s' := Part000.run measure Part000.CbForceTop s in
    (scrollTop (Part000.viewer s') == 0)%Q /\
    ((0 < maxScroll (Part000.viewer s))%Q -> (Part000.currentPosition s' == 0)%Q) /\
    ((maxScroll (Part000.viewer s) <= 0)%Q ->
       Part000.currentPosition s' = Part000.currentPosition s) /\
    Part000.currentChapter s' = Part000.currentChapter s /\
    (forall nd, Part000.novelData s = Some nd ->
       Part000.PROGRESS (Part000.localStorage s') =
       Some {| Part000.p_novelTitle := Part000.novel_title nd;
               Part000.p_currentChapter := Part000.currentChapter s;
               Part000.p_currentPosition := Part000.currentPosition s';
               Part000.p_timestamp := Part000.clock s |}).
Proof. intros measure s. apply ScrollFacts.forced_top. Qed.

Lemma X9_forced_scroll_to_top_witness :
  (let s' := Part000.run tall Part000.CbForceTop midWayPart000 in
   (scrollTop (Part000.viewer s') == 0)%Q /\
   (Part000.currentPosition s' == 0)%Q /\
   Part000.currentChapter s' = 0%Z /\
   option_map Part000.p_currentChapter (Part000.PROGRESS (Part000.localStorage s'))
   = Some 0%Z) /\
  Part000.currentPosition (Part000.run tall Part000.CbForceTop freshPart000)
  = Part000.currentPosition freshPart000.
Proof.
  split.
  - destruct (X9_forced_scroll_to_top tall midWayPart000) as (A & B & _ & C & D).
    split; [exact A|]. split; [apply B; vm_compute; reflexivity|]. split; [exact C|].
    rewrite (D (novelOf midWayPart000)); [reflexivity | vm_compute; reflexivity].
  - apply (X9_forced_scroll_to_top tall freshPart000). vm_compute. discriminate.
Defined.

(** X10.  A document without a parser error that has a body always
    loads in [part_000]: the novel holds the chapters [extractChapters]
    returns, the current chapter is 0 and its title is on the page,
    whatever progress was stored is replaced by a record for chapter 0,
    and bookmarks and settings are as before.  With a parser error the
    only change is a message. *)
Theorem X10_a_document_with_a_body_loads_at_chapter_0 :
  forall DOMPurify parseFragment measure (file : File) (doc : document) (s : Part000.State),
    let s' := Part000.processFile DOMPurify parseFragment measure file doc s in
    (doc_querySelectorAll [[[SType "parsererror"]]] doc = [] ->
     forall body, body_of doc = Some body ->
       exists nd ch,
         Part000.novelData s' = Some nd /\
         Part000.chapters nd = Part000.extractChapters DOMPurify parseFragment doc /\
         hd_error (Part000.chapters nd) = Some ch /\
         Part000.currentChapter s' = 0%Z /\
         titleText (Part000.viewer s') = Part000.title ch /\
         Part000.PROGRESS (Part000.localStorage s') =
         Some {| Part000.p_novelTitle := Part000.novel_title nd;
                 Part000.p_currentChapter := 0;
                 Part000.p_currentPosition := Part000.currentPosition s';
                 Part000.p_timestamp := Part000.clock s |} /\
         Part000.bookmarks s' = Part000.bookmarks s /\
         Part000.settings s' = Part000.settings s) /\
    (doc_querySelectorAll [[[SType "parsererror"]]] doc <> [] ->
     s' = Part000.showNotification "An error occurred: Invalid HTML format" s).
Proof.
  intros DOMPurify parseFragment measure file doc s s'. split.
  - intros P body B.
    pose proof (part000_extractChapters_nonempty DOMPurify parseFragment doc body B) as NE.
    destruct (Part000.extractChapters DOMPurify parseFragment doc) as [|ch rest] eqn:E;
      [congruence|].
    destruct (LoadFacts.processFile_result DOMPurify parseFragment measure file doc s ch rest P E)
      as (S & T & G & K).
    fold s' in S, T, G, K. unfold Part000More.spot in S. injection S as S1 S2.
    destruct (KeepFacts.kept_same _ _ K) as (K1 & _ & K3 & _).
    exists (Part000More.novelFrom file doc (ch :: rest)), ch.
    repeat split; auto.
  - intros P. unfold s', Part000.processFile.
    destruct (doc_querySelectorAll [[[SType "parsererror"]]] doc); [congruence | reflexivity].
Qed.

Lemma X10_a_document_with_a_body_loads_at_chapter_0_witness :
  (let s' := Part000.processFile None (parserFor foo) tall (file "foo.html") foo
               (Part000.initial fooSavedPart000 500) in
   exists nd ch,
     Part000.novelData s' = Some nd /\
     Part000.chapters nd = Part000.extractChapters None (parserFor foo) foo /\
     hd_error (Part000.chapters nd) = Some ch /\
     Part000.currentChapter s' = 0%Z /\
     titleText (Part000.viewer s') = Part000.title ch /\
     Part000.PROGRESS (Part000.localStorage s') =
     Some {| Part000.p_novelTitle := Part000.novel_title nd;
             Part000.p_currentChapter := 0;
             Part000.p_currentPosition := Part000.currentPosition s';
             Part000.p_timestamp := Part000.clock (Part000.initial fooSavedPart000 500) |} /\
     Part000.bookmarks s' = Part000.bookmarks (Part000.initial fooSavedPart000 500) /\
     Part000.settings s' = Part000.settings (Part000.initial fooSavedPart000 500)) /\
  Part000.processFile None (parserFor foo) tall (file "bad.html")
    (page "Bad" [Elem "parsererror" [] [Text "error on line 1"]]) fooInPart000
  = Part000.showNotification "An error occurred: Invalid HTML format" fooInPart000.
Proof.
  split.
  - destruct (X10_a_document_with_a_body_loads_at_chapter_0
                None (parserFor foo) tall (file "foo.html") foo
                (Part000.initial fooSavedPart000 500)) as [A _].
    apply (A eq_refl
             (Elem "body" []
                [chapterEl "One" "first"; chapterEl "Two" "second"; chapterEl "Three" "third";
                 chapterEl "Four" "fourth"; chapterEl "Five" "fifth"])).
    reflexivity.
  - apply (X10_a_document_with_a_body_loads_at_chapter_0
             None (parserFor foo) tall (file "bad.html")
             (page "Bad" [Elem "parsererror" [] [Text "error on line 1"]]) fooInPart000).
    vm_compute. discriminate.
Defined.

(** ** Files, keys and export in part_000 *)

(** X11.  A file dropped on the page is checked: with a type other than
    the two allowed ones, or with more than 10 MB, the only change is a
    message; otherwise it is processed just as a file chosen in the file
    dialog, which is processed without any check. *)
Theorem X11_only_dropped_files_are_validated :
  forall DOMPurify parseFragment measure (file : File) (doc : document)
         (rest : list (File * document)) (s : Part000.State),
    let dropped := Part000More.handleDrop DOMPurify parseFragment measure
                     ((file, doc) :: rest) s in
    let chosen := Part000More.handleFileSelect DOMPurify parseFragment measure
                    ((file, doc) :: rest) s in
    chosen = Part000.processFile DOMPurify parseFragment measure file doc s /\
    (mem (file_type file) Part000More.ALLOWED_MIME_TYPES = false ->
       dropped = Part000.showNotification FILE_TYPE_ERROR s) /\
    (mem (file_type file) Part000More.ALLOWED_MIME_TYPES = true ->
       (Part000More.MAX_FILE_SIZE < file_size file)%Z ->
       dropped = Part000.showNotification "File too large. Maximum size is 10MB." s) /\
    (mem (file_type file) Part000More.ALLOWED_MIME_TYPES = true ->
       (file_size file <= Part000More.MAX_FILE_SIZE)%Z ->
       dropped = chosen).
Proof.
  intros DOMPurify parseFragment measure file doc rest s. cbv zeta.
  unfold Part000More.handleDrop, Part000More.handleFileSelect, Part000More.validateFile.
  split; [reflexivity|]. split; [|split].
  - intros ->. reflexivity.
  - intros -> L. apply Z.ltb_lt in L. cbn [negb]. now rewrite L.
  - intros -> L. apply Z.ltb_ge in L. cbn [negb]. now rewrite L.
Qed.

Lemma X11_only_dropped_files_are_validated_witness :
  let big := {| file_name := "foo.html"; file_type := "text/html"; file_size := 20000000 |} in
  let text := {| file_name := "foo.html"; file_type := "text/plain"; file_size := 1000 |} in
  Part000More.handleDrop None (parserFor foo) tall [(text, foo)] freshPart000
  = Part000.showNotification FILE_TYPE_ERROR freshPart000 /\
  Part000More.handleDrop None (parserFor foo) tall [(big, foo)] freshPart000
  = Part000.showNotification "File too large. Maximum size is 10MB." freshPart000 /\
  Part000More.handleDrop None (parserFor foo) tall [(file "foo.html", foo)] freshPart000
  = Part000More.handleFileSelect None (parserFor foo) tall [(file "foo.html", foo)] freshPart000.
Proof.
  cbv zeta. split; [|split].
  - apply (X11_only_dropped_files_are_validated None (parserFor foo) tall
             {| file_name := "foo.html"; file_type := "text/plain"; file_size := 1000 |}
             foo [] freshPart000).
    reflexivity.
  - apply (X11_only_dropped_files_are_validated None (parserFor foo) tall
             {| file_name := "foo.html"; file_type := "text/html"; file_size := 20000000 |}
             foo [] freshPart000);
      reflexivity.
  - apply (X11_only_dropped_files_are_validated None (parserFor foo) tall
             (file "foo.html") foo [] freshPart000);
      [reflexivity | vm_compute; discriminate].
Defined.

(** X12.  A key pressed with no novel loaded or with the reader hidden
    changes nothing.  The key s, whatever modifier is held, leaves the
    novel, the chapter, the position, the page and all of storage as
    they are: with Ctrl or Cmd it shows the message that the progress
    was saved and writes nothing.  And no key leads to a chapter index
    outside the novel. *)
Theorem X12_keyboard_shortcuts :
  forall (measure : string -> Q) (hidden : bool) (e : Part000More.KeyEvent)
         (s : Part000.State),
    let s' := Part000More.handleKeyboard measure hidden e s in
    (Part000.novelData s = None \/ hidden = true -> s' = s) /\
    (Part000More.key e = "s"%string ->
       Part000.localStorage s' = Part000.localStorage s /\
       Part000More.spot s' = Part000More.spot s /\
       Part000.currentPosition s' = Part000.currentPosition s /\
       Part000.viewer s' = Part000.viewer s /\
       Part000.timers s' = Part000.timers s) /\
    (Part000More.chapterInRange s -> Part000More.chapterInRange s').
Proof.
  intros measure hidden e s. cbv zeta. split; [|split].
  - unfold Part000More.handleKeyboard. intros [-> | ->]; [reflexivity|].
    now destruct (Part000.novelData s).
  - intros K. unfold Part000More.handleKeyboard. rewrite K.
    destruct (Part000.novelData s); [|repeat split].
    destruct hidden; [repeat split|]. cbn [String.eqb Ascii.eqb Bool.eqb].
    destruct (_ || _)%bool; repeat split.
  - apply RangeFacts.chapterInRange_handleKeyboard.
Qed.

Lemma X12_keyboard_shortcuts_witness :
  let save := {| Part000More.key := "s"; Part000More.ctrlKey := true;
                 Part000More.metaKey := false |} in
  Part000More.handleKeyboard tall true save fooInPart000 = fooInPart000 /\
  Part000.localStorage (Part000More.handleKeyboard tall false save midWayPart000)
  = Part000.localStorage midWayPart000 /\
  Part000More.chapterInRange (Part000More.handleKeyboard tall false save backUp).
Proof.
  cbv zeta. split; [|split].
  - apply (X12_keyboard_shortcuts tall true
             {| Part000More.key := "s"; Part000More.ctrlKey := true;
                Part000More.metaKey := false |} fooInPart000).
    right. reflexivity.
  - apply (X12_keyboard_shortcuts tall false
             {| Part000More.key := "s"; Part000More.ctrlKey := true;
                Part000More.metaKey := false |} midWayPart000).
    reflexivity.
  - apply (X12_keyboard_shortcuts tall false
             {| Part000More.key := "s"; Part000More.ctrlKey := true;
                Part000More.metaKey := false |} backUp).
    exact (RangeFacts.reachable_chapterInRange _ _ _ _ _ _ backUp_reachable).
Defined.

(** X13.  With a novel loaded, [exportNovel] of [part_000] names the
    download after the novel and exports exactly the bookmarks of that
    novel, in their order, with the current chapter and position; when
    no two bookmarks mark the same place, no two exported ones mark the
    same chapter.  The session itself only gets a message.  With no
    novel loaded nothing is exported. *)
Theorem X13_export_holds_the_bookmarks_of_the_novel :
  forall (s : Part000.State),
    (forall nd, Part000.novelData s = Some nd ->
       exists data,
         fst (Part000More.exportNovel s)
         = Some ((Part000.novel_title nd ++ "-export.json")%string, data) /\
         Part000More.x_novel data = nd /\
         (forall b, In b (Part000More.x_bookmarks data) <->
                    In b (Part000.bookmarks s) /\
                    Part000.novelTitle b = Part000.novel_title nd) /\
         (NoDup (map Part000.place (Part000.bookmarks s)) ->
          NoDup (map Part000.chapterIndex (Part000More.x_bookmarks data))) /\
         Part000More.x_currentChapter data = Part000.currentChapter s /\
         Part000More.x_currentPosition data = Part000.currentPosition s /\
         snd (Part000More.exportNovel s)
         = Part000.showNotification "Novel exported successfully!" s) /\
    (Part000.novelData s = None ->
       Part000More.exportNovel s = (None, Part000.showNotification NO_NOVEL_LOADED s)).
Proof.
  intros s. unfold Part000More.exportNovel. split.
  - intros nd ->. eexists. split; [reflexivity|]. cbn.
    split; [reflexivity|]. split; [|split; [|auto]].
    + intros b. rewrite filter_In, String.eqb_eq. tauto.
    + apply LoadFacts.NoDup_chapters_of_one_novel.
  - intros ->. reflexivity.
Qed.

Lemma X13_export_holds_the_bookmarks_of_the_novel_witness :
  (exists data,
     fst (Part000More.exportNovel marked) = Some ("Foo-export.json"%string, data) /\
     Part000More.x_bookmarks data = Part000.bookmarks marked /\
     NoDup (map Part000.chapterIndex (Part000More.x_bookmarks data)) /\
     snd (Part000More.exportNovel marked)
     = Part000.showNotification "Novel exported successfully!" marked) /\
  Part000More.exportNovel freshPart000
  = (None, Part000.showNotification NO_NOVEL_LOADED freshPart000).
Proof.
  split.
  - destruct (proj1 (X13_export_holds_the_bookmarks_of_the_novel marked) (novelOf marked))
      as (data & A & _ & _ & D & _ & _ & G); [vm_compute; reflexivity|].
    exists data. split; [exact A|]. split; [|split; [|exact G]].
    + vm_compute in A. injection A as <-. vm_compute. reflexivity.
    + apply D. vm_compute. constructor; [intros [] | constructor].
  - apply (proj2 (X13_export_holds_the_bookmarks_of_the_novel freshPart000)).
    vm_compute. reflexivity.
Defined.

(** X14.  What [escapeHtml] returns holds neither of the characters that
    open and close a tag, so a chapter title written into the button at
    the end of a chapter cannot add markup to the page. *)
Theorem X14_escaped_text_holds_no_angle_bracket :
  forall (text : string),
    Forall (fun c => c <> "<"%char /\ c <> ">"%char)
           (list_ascii_of_string (Part000.escapeHtml text)).
Proof. intros text. apply StringFacts.escapeText_no_angle. Qed.



(** ** Both variants *)

(** X16.  The last two entries of [CONFIG.SELECTORS], ['#content section']
    and ['#main section'], never give a chapter: whenever one of them
    matches an element, the entry ['section'] before them matches it too
    and ends the loop.  In both variants the loop over all eight entries
    returns what the loop over the first six returns. *)
Theorem X16_last_two_selectors_never_decide :
  forall (doc : document),
    ReaderJs.for_selectors SELECTORS doc = ReaderJs.for_selectors (firstn 6 SELECTORS) doc /\
    forall DOMPurify parseFragment,
      Part000.for_selectors DOMPurify parseFragment SELECTORS doc []
      = Part000.for_selectors DOMPurify parseFragment (firstn 6 SELECTORS) doc [].
Proof.
  intros doc. split.
  - apply SelectorFacts.readerjs_last_selectors_dead.
  - intros DOMPurify parseFragment. apply SelectorFacts.part000_last_selectors_dead.
Qed.

(** ** reader.js *)

Module ReaderJsContent.
Import ReaderJs.

Lemma sanitizeContent_trimmed (raw : string) :
  Str.trim (sanitizeContent raw) = sanitizeContent raw.
Proof. unfold sanitizeContent. apply StringFacts.trim_idempotent. Qed.

Lemma forEach_push_trimmed (els : list node) :
  forall index,
    Forall (fun c => Str.trim (content c) = content c) (forEach_push index els).
Proof.
  induction els as [|el els IH]; intros index; cbn [forEach_push]; [constructor|].
  apply Forall_app. split; [|apply IH].
  unfold push_element. destruct (andb _ _); [|constructor].
  constructor; [|constructor]. cbn. apply sanitizeContent_trimmed.
Qed.

Lemma for_selectors_trimmed (sels : list selector) (doc : document) :
  Forall (fun c => Str.trim (content c) = content c) (for_selectors sels doc).
Proof.
  induction sels as [|sel sels IH]; cbn [for_selectors]; [constructor|].
  destruct (doc_querySelectorAll sel doc); [exact IH | apply forEach_push_trimmed].
Qed.

Lemma extract_trimmed (doc : document) :
  Forall (fun c => Str.trim (content c) = content c) (extract doc).
Proof.
  unfold extract. cbv zeta. pose proof (for_selectors_trimmed SELECTORS doc) as H.
  destruct (for_selectors SELECTORS doc); [|exact H].
  destruct (body_of doc); constructor; [|constructor]. cbn. apply sanitizeContent_trimmed.
Qed.


End ReaderJsContent.

(** X17.  In [reader.js] neither the novel nor any chapter has an empty
    title: a missing or blank one is replaced by a default. *)
Theorem X17_readerjs_titles_are_never_empty :
  forall (doc : document),
    Str.truthy (ReaderJs.novel_title (ReaderJs.parseNovelHTML doc)) = true /\
    Forall (fun c => Str.truthy (ReaderJs.title c) = true)
           (ReaderJs.chapters (ReaderJs.parseNovelHTML doc)).
Proof.
  intros doc. split.
  - cbn. now apply SelectorFacts.or_else_truthy.
  - cbn. apply SelectorFacts.readerjs_extract_titles.
Qed.

(** X18.  The content of every chapter [reader.js] extracts has no white
    space at either end: trimming it again changes nothing. *)
Theorem X18_readerjs_chapter_content_is_trimmed :
  forall (doc : document),
    Forall (fun c => Str.trim (ReaderJs.content c) = ReaderJs.content c)
           (ReaderJs.chapters (ReaderJs.parseNovelHTML doc)).
Proof. intros doc. cbn. apply ReaderJsContent.extract_trimmed. Qed.



(** X20.  A change of theme or font in [reader.js] takes no class off the
    root element: the class of a valid new theme is added, and whatever
    class was there before, that of the theme before included, is still
    there. *)
Theorem X20_readerjs_theme_classes_pile_up :
  forall (name x : string) (s : ReaderJs.State),
    In x (ReaderJs.rootClasses s) ->
    In x (ReaderJs.rootClasses (ReaderJs.setTheme name s)) /\
    In x (ReaderJs.rootClasses (ReaderJs.setFont name s)) /\
    (mem name THEMES = true ->
     In ("theme-" ++ name)%string (ReaderJs.rootClasses (ReaderJs.setTheme name s))).
Proof.
  intros name x s H. split; [|split].
  - now apply ReaderJsSession.setTheme_keeps_classes.
  - now apply ReaderJsSession.setFont_keeps_classes.
  - apply ReaderJsSession.setTheme_adds_class.
Qed.

Lemma X20_readerjs_theme_classes_pile_up_witness :
  In "theme-light"%string (ReaderJs.rootClasses (ReaderJs.setTheme "dark" fooInReaderJs)) /\
  In "theme-dark"%string (ReaderJs.rootClasses (ReaderJs.setTheme "dark" fooInReaderJs)).
Proof.
  destruct (X20_readerjs_theme_classes_pile_up "dark" "theme-light" fooInReaderJs)
    as (A & _ & B).
  - vm_compute. auto.
  - split; [exact A | apply B; reflexivity].
Defined.

(** X21.  [loadReadingProgress] of [reader.js], with a novel loaded and a
    stored record that carries its title, makes the stored chapter index
    the current one without checking it.  When it is the index of a
    chapter, that chapter is shown and the position is 0, not the stored
    one; when it is not, the index is current all the same and the
    stored position is kept.  A record for another novel changes
    nothing. *)
Theorem X21_readerjs_stored_progress :
  forall (measure : string -> Q) (s : ReaderJs.State) (nd : ReaderJs.Novel)
         (data : ReaderJs.Progress),
    ReaderJs.novelData s = Some nd ->
    ReaderJs.PROGRESS (ReaderJs.localStorage s) = Some data ->
    let s' := ReaderJs.loadReadingProgress measure s in
    (ReaderJs.p_novel data = ReaderJs.novel_title nd ->
       ReaderJs.currentChapter s' = ReaderJs.p_chapter data /\
       (in_range (ReaderJs.chapters nd) (ReaderJs.p_chapter data) = true ->
          ReaderJs.currentPosition s' = 0%Q /\ (scrollTop (ReaderJs.viewer s') == 0)%Q) /\
       (in_range (ReaderJs.chapters nd) (ReaderJs.p_chapter data) = false ->
          ReaderJs.currentPosition s' = ReaderJs.p_position data)) /\
    (ReaderJs.p_novel data <> ReaderJs.novel_title nd -> s' = s).
Proof.
  intros measure s nd data N P. cbv zeta. split.
  - intros T. now apply ReaderJsSession.loadReadingProgress_matching.
  - intros T. apply ReaderJsSession.loadReadingProgress_other.
    intros data' nd' P' N'. rewrite P in P'. rewrite N in N'.
    injection P' as <-. injection N' as <-. exact T.
Qed.

Lemma X21_readerjs_stored_progress_witness :
  let stored c :=
    ReaderJs.set_localStorage
      {| ReaderJs.SETTINGS := None;
         ReaderJs.PROGRESS :=
           Some {| ReaderJs.p_novel := "Foo"; ReaderJs.p_chapter := c;
                   ReaderJs.p_position := 42 # 100; ReaderJs.p_timestamp := 5 |};
         ReaderJs.BOOKMARKS := None |} in
  (ReaderJs.currentChapter (ReaderJs.loadReadingProgress tall (stored 3%Z fooInReaderJs)) = 3%Z /\
   ReaderJs.currentPosition (ReaderJs.loadReadingProgress tall (stored 3%Z fooInReaderJs)) = 0%Q) /\
  (ReaderJs.currentChapter (ReaderJs.loadReadingProgress tall (stored 9%Z fooInReaderJs)) = 9%Z /\
   ReaderJs.currentPosition (ReaderJs.loadReadingProgress tall (stored 9%Z fooInReaderJs))
   = 42 # 100) /\
  ReaderJs.loadReadingProgress tall (stored 3%Z plainAfterChapter3) = stored 3%Z plainAfterChapter3.
Proof.
  cbv zeta. split; [|split].
  - destruct (X21_readerjs_stored_progress tall
                (ReaderJs.set_localStorage
                   {| ReaderJs.SETTINGS := None;
                      ReaderJs.PROGRESS :=
                        Some {| ReaderJs.p_novel := "Foo"; ReaderJs.p_chapter := 3;
                                ReaderJs.p_position := 42 # 100; ReaderJs.p_timestamp := 5 |};
                      ReaderJs.BOOKMARKS := None |} fooInReaderJs)
                (ReaderJs.parseNovelHTML foo) _ eq_refl eq_refl) as [A _].
    destruct (A eq_refl) as (B & C & _). split; [exact B | apply C; reflexivity].
  - destruct (X21_readerjs_stored_progress tall
                (ReaderJs.set_localStorage
                   {| ReaderJs.SETTINGS := None;
                      ReaderJs.PROGRESS :=
                        Some {| ReaderJs.p_novel := "Foo"; ReaderJs.p_chapter := 9;
                                ReaderJs.p_position := 42 # 100; ReaderJs.p_timestamp := 5 |};
                      ReaderJs.BOOKMARKS := None |} fooInReaderJs)
                (ReaderJs.parseNovelHTML foo) _ eq_refl eq_refl) as [A _].
    destruct (A eq_refl) as (B & _ & C). split; [exact B | apply C; reflexivity].
  - apply (X21_readerjs_stored_progress tall
             (ReaderJs.set_localStorage
                {| ReaderJs.SETTINGS := None;
                   ReaderJs.PROGRESS :=
                     Some {| ReaderJs.p_novel := "Foo"; ReaderJs.p_chapter := 3;
                             ReaderJs.p_position := 42 # 100; ReaderJs.p_timestamp := 5 |};
                   ReaderJs.BOOKMARKS := None |} plainAfterChapter3)
             (ReaderJs.parseNovelHTML plain) _ eq_refl eq_refl).
    vm_compute. discriminate.
Defined.

(** X22.  Reading a file in [reader.js] with no progress stored replaces
    the novel and leaves the current chapter index as it was: nothing
    sets it back to 0. *)
Theorem X22_readerjs_loading_keeps_the_chapter_index :
  forall (measure : string -> Q) (doc : document) (s : ReaderJs.State),
    ReaderJs.PROGRESS (ReaderJs.localStorage s) = None ->
    ReaderJs.currentChapter (ReaderJs.onload measure doc s) = ReaderJs.currentChapter s /\
    ReaderJs.novelData (ReaderJs.onload measure doc s) = Some (ReaderJs.parseNovelHTML doc).
Proof. intros measure doc s P. now apply ReaderJsSession.onload_keeps_chapter. Qed.

Lemma X22_readerjs_loading_keeps_the_chapter_index_witness :
  ReaderJs.currentChapter (ReaderJs.onload tall plain (ReaderJs.goToChapter tall 3 fooInReaderJs))
  = 3%Z /\
  ReaderJs.novelData (ReaderJs.onload tall plain (ReaderJs.goToChapter tall 3 fooInReaderJs))
  = Some (ReaderJs.parseNovelHTML plain).
Proof.
  apply (X22_readerjs_loading_keeps_the_chapter_index tall plain
           (ReaderJs.goToChapter tall 3 fooInReaderJs)).
  vm_compute. reflexivity.
Defined.


(** ** The button at the end of a chapter in part_000 *)

Module EndFacts.
Import Part000 Part000More KeepFacts.

Section Session.
Variable measure : string -> Q.

Lemma nextChapterDirect_moves s nd ch :
  novelData s = Some nd ->
  (lastIndex nd <=? currentChapter s)%Z = false ->
  at_index (chapters nd) (currentChapter s + 1) = Some ch ->
  nextChapterDirect measure s
  = snd (setTimeout CbFrame 0
           (show measure nd (currentChapter s + 1) ch
              (set_currentChapter (currentChapter s + 1)
                 (set_currentChapter (currentChapter s + 1) s)))).
Proof.
  intros N L A. unfold nextChapterDirect. rewrite N, L. cbv zeta.
  unfold displayChapterWithScrollToTop. cbn [novelData set_currentChapter currentChapter].
  rewrite N, RangeFacts.guard_in_range.
  destruct (in_range (chapters nd) (currentChapter s + 1)) eqn:R.
  - cbn [negb]. rewrite A. reflexivity.
  - apply not_in_range_at_index in R. congruence.
Qed.

End Session.
End EndFacts.

(** X24.  The button at the end of a chapter, in a state a session of
    [part_000] can reach with a novel loaded: on the last chapter the
    only change is a message; otherwise the next chapter becomes the
    current one and its title is on the page, while the position and the
    stored progress stay those of the chapter left until the callback
    that was set runs. *)
Theorem X24_button_at_the_end_of_a_chapter :
  forall DOMPurify parseFragment measure st height (s : Part000.State) (nd : Part000.Novel),
    Part000.reachable DOMPurify parseFragment measure st height s ->
    Part000.novelData s = Some nd ->
    let s' := Part000.handle DOMPurify parseFragment measure Part000.EndButton s in
    ((Part000.lastIndex nd <= Part000.currentChapter s)%Z ->
       s' = Part000.showNotification "You've reached the end of the book!" s) /\
    ((Part000.currentChapter s < Part000.lastIndex nd)%Z ->
       exists ch,
         at_index (Part000.chapters nd) (Part000.currentChapter s + 1) = Some ch /\
         Part000.novelData s' = Some nd /\
         Part000.currentChapter s' = (Part000.currentChapter s + 1)%Z /\
         titleText (Part000.viewer s') = Part000.title ch /\
         Part000.currentPosition s' = Part000.currentPosition s /\
         Part000.localStorage s' = Part000.localStorage s /\
         Part000.timers s'
         = Part000.timers s ++
           [ {| Part000.tid := Part000.nextTimer s; Part000.due := Part000.clock s + 0;
                Part000.cb := Part000.CbFrame |} ]).
Proof.
  intros DOMPurify parseFragment measure st height s nd R N. cbv zeta.
  cbn [Part000.handle]. unfold Part000.handleChapterEndNavigation. rewrite N. split.
  - intros L. apply Z.leb_le in L. now rewrite L.
  - intros L. apply Z.leb_gt in L. rewrite L.
    pose proof (RangeFacts.reachable_chapterInRange _ _ _ _ _ _ R nd N) as I.
    destruct (in_range_at_index _ _ (RangeFacts.in_range_next nd _ I L)) as (ch & A).
    exists ch. split; [exact A|].
    rewrite (EndFacts.nextChapterDirect_moves measure s nd ch N L A).
    destruct s. cbn in N. subst. cbn. repeat split.
Qed.

Lemma X24_button_at_the_end_of_a_chapter_witness :
  (exists ch,
     at_index (Part000.chapters (novelOf marked)) 1 = Some ch /\
     Part000.currentChapter (Part000.handle None (parserFor foo) tall Part000.EndButton marked)
     = 1%Z /\
     titleText
       (Part000.viewer (Part000.handle None (parserFor foo) tall Part000.EndButton marked))
     = Part000.title ch /\
     Part000.localStorage (Part000.handle None (parserFor foo) tall Part000.EndButton marked)
     = Part000.localStorage marked) /\
  Part000.handle None (parserFor foo) tall Part000.EndButton
    (play foo tall [Part000.ChapterLink 4] marked)
  = Part000.showNotification "You've reached the end of the book!"
      (play foo tall [Part000.ChapterLink 4] marked).
Proof.
  split.
  - destruct (X24_button_at_the_end_of_a_chapter None (parserFor foo) tall
                Part000.emptyStorage 500%Q marked (novelOf marked) marked_reachable)
      as [_ A]; [vm_compute; reflexivity|].
    destruct A as (ch & A1 & _ & A3 & A4 & _ & A6 & _); [vm_compute; reflexivity|].
    exists ch. repeat split; assumption.
  - assert (R : Part000.reachable None (parserFor foo) tall Part000.emptyStorage 500%Q
                  (play foo tall [Part000.ChapterLink 4] marked)).
    { unfold play. apply ScheduleFacts.reachable_events. exact marked_reachable. }
    apply (X24_button_at_the_end_of_a_chapter None (parserFor foo) tall
             Part000.emptyStorage 500%Q _ (novelOf marked) R).
    + vm_compute. reflexivity.
    + vm_compute. discriminate.
Defined.

(** ** Setting the delayed advance in part_000 *)

Module RearmFacts.
Import Part000 Part000More KeepFacts.

Lemma calm_after_clear s :
  tidy s ->
  calm (match autoAdvanceTimeout s with
        | Some _ => clearTimeout (autoAdvanceTimeout s) s
        | None => s
        end).
Proof.
  intros [D I T]. unfold calm. destruct (autoAdvanceTimeout s) as [h|] eqn:Eh.
  - cbn. apply Forall_forall. intros t Hin. apply filter_In in Hin as [Hin Hk].
    rewrite Forall_forall in T. specialize (T t Hin).
    destruct (advancing t); [|reflexivity]. specialize (T eq_refl).
    injection T as ->. rewrite Nat.eqb_refl in Hk. discriminate.
  - eapply Forall_impl; [|exact T]. cbn. intros t H.
    destruct (advancing t); [specialize (H eq_refl); discriminate | reflexivity].
Qed.

Lemma checkAutoAdvance_sets s nd :
  tidy s -> novelData s = Some nd ->
  (currentChapter s < lastIndex nd)%Z -> nearBottom (viewer s) = true ->
  let s' := checkAutoAdvance s in
  pendingAdvances s'
  = [ {| tid := nextTimer s; due := clock s + 500; cb := CbAutoAdvance |} ] /\
  autoAdvanceTimeout s' = Some (nextTimer s) /\
  currentChapter s' = currentChapter s.
Proof.
  intros Hs N L B. cbv zeta. unfold checkAutoAdvance. rewrite N, B.
  apply Z.leb_gt in L. rewrite L.
  pose proof (calm_after_clear s Hs) as C.
  set (s1 := match autoAdvanceTimeout s with
             | Some _ => clearTimeout (autoAdvanceTimeout s) s
             | None => s
             end) in *.
  assert (E : (clock s1, nextTimer s1, currentChapter s1)
              = (clock s, nextTimer s, currentChapter s)).
  { unfold s1. destruct (autoAdvanceTimeout s); reflexivity. }
  injection E as E1 E2 E3. apply AdvanceFacts.calm_none in C.
  unfold pendingAdvances in *. clearbody s1. cbn. rewrite filter_app, C, E1, E2, E3.
  cbn. auto.
Qed.

Section Session.
Variable measure : string -> Q.

Lemma debounced_check_sets s nd :
  tidy s -> novelData s = Some nd ->
  (currentChapter s < lastIndex nd)%Z -> nearBottom (viewer s) = true ->
  let s' := run measure CbDebounce s in
  pendingAdvances s'
  = [ {| tid := nextTimer s; due := clock s + 500; cb := CbAutoAdvance |} ] /\
  autoAdvanceTimeout s' = Some (nextTimer s) /\
  currentChapter s' = currentChapter s.
Proof.
  intros Hs N L B. cbv zeta. cbv beta iota delta [run].
  set (s1 := saveProgress (updateProgress s)).
  assert (T1 : tidy s1)
    by now apply TimerFacts.quiet_saveProgress, TimerFacts.quiet_updateProgress.
  assert (E : same (fun x => (novelData x, currentChapter x, viewer x, clock x, nextTimer x))
                s s1) by (unfold s1; same_chain).
  unfold same in E. injection E as E1 E2 E3 E4 E5.
  clearbody s1. rewrite <- E1 in N. rewrite <- E2 in L. rewrite <- E3 in B.
  rewrite <- E2, <- E4, <- E5. now apply checkAutoAdvance_sets with nd.
Qed.

End Session.
End RearmFacts.

(** X25.  When the debounced scroll check runs in a state a session of
    [part_000] can reach, with a chapter after the current one and the
    position within 100 pixels of the bottom, exactly one delayed
    advance is pending afterwards: a new one, due 500 ms after the
    check, in place of any that was pending; the chapter is the same. *)
Theorem X25_check_at_the_bottom_sets_one_advance :
  forall DOMPurify parseFragment measure st height (s : Part000.State) (nd : Part000.Novel),
    Part000.reachable DOMPurify parseFragment measure st height s ->
    Part000.novelData s = Some nd ->
    (Part000.currentChapter s < Part000.lastIndex nd)%Z ->
    Part000.nearBottom (Part000.viewer s) = true ->
    let s' := Part000.run measure Part000.CbDebounce s in
    Part000.pendingAdvances s'
    = [ {| Part000.tid := Part000.nextTimer s; Part000.due := Part000.clock s + 500;
           Part000.cb := Part000.CbAutoAdvance |} ] /\
    Part000.autoAdvanceTimeout s' = Some (Part000.nextTimer s) /\
    Part000.currentChapter s' = Part000.currentChapter s.
Proof.
  intros DOMPurify parseFragment measure st height s nd R N L B.
  apply RearmFacts.debounced_check_sets with nd; auto.
  exact (TimerFacts.reachable_tidy _ _ _ _ _ _ R).
Qed.

Lemma X25_check_at_the_bottom_sets_one_advance_witness :
  let s' := Part000.run tall Part000.CbDebounce waiting in
  Part000.pendingAdvances s'
  = [ {| Part000.tid := 3; Part000.due := 1100; Part000.cb := Part000.CbAutoAdvance |} ] /\
  Part000.autoAdvanceTimeout s' = Some 3%nat /\
  Part000.currentChapter s' = 0%Z.
Proof.
  apply (X25_check_at_the_bottom_sets_one_advance
           None (parserFor foo) tall Part000.emptyStorage 500%Q waiting (novelOf waiting)).
  - unfold waiting. apply ScheduleFacts.reachable_run_until.
    unfold nearEnd, play. apply ScheduleFacts.reachable_events.
    unfold fooInPart000, play. apply ScheduleFacts.reachable_events.
    apply Part000.reach_initial.
  - vm_compute. reflexivity.
  - vm_compute. reflexivity.
  - vm_compute. reflexivity.
Defined.

(** ** The class of the reader element in part_000 *)

Module DressFacts.
Import Part000 Part000More KeepFacts.

Lemma dressed_same s s' :
  same (fun x => (className x, settings x)) s s' -> dressed s -> dressed s'.
Proof.
  unfold same, dressed. intros E H.
  assert (E1 : className s' = className s) by exact (f_equal fst E).
  assert (E2 : settings s' = settings s) by exact (f_equal snd E).
  now rewrite E1, E2.
Qed.

Lemma dressed_setTheme t s : mem t THEMES = true -> dressed (setTheme t s).
Proof. intros M. unfold setTheme. rewrite M. reflexivity. Qed.

Lemma dressed_setFont f s : mem f FONTS = true -> dressed (setFont f s).
Proof. intros M. unfold setFont. rewrite M. reflexivity. Qed.

Lemma dressed_setTheme_keeps t s : dressed s -> dressed (setTheme t s).
Proof.
  intros H. destruct (mem t THEMES) eqn:M; [now apply dressed_setTheme|].
  unfold setTheme. now rewrite M.
Qed.

Lemma dressed_setFont_keeps f s : dressed s -> dressed (setFont f s).
Proof.
  intros H. destruct (mem f FONTS) eqn:M; [now apply dressed_setFont|].
  unfold setFont. now rewrite M.
Qed.

Lemma dressed_updateFontSize z s : dressed s -> dressed (updateFontSize z s).
Proof. unfold dressed, updateFontSize, classFor. cbn. auto. Qed.

Lemma dressed_initial st height :
  mem (theme (loadSettings st)) THEMES = true \/ mem (font (loadSettings st)) FONTS = true ->
  dressed (initial st height).
Proof.
  intros H. unfold initial, applySettings. set (b0 := loadBookmarks _).
  apply dressed_updateFontSize.
  change (settings b0) with (loadSettings st).
  destruct (mem (font (loadSettings st)) FONTS) eqn:F; [now apply dressed_setFont|].
  destruct H as [T | T]; [|discriminate].
  apply dressed_setFont_keeps. now apply dressed_setTheme.
Qed.

Section Session.
Variable DOMPurify : option (string -> SanitizeConfig -> string).
Variable parseFragment : string -> list node.
Variable measure : string -> Q.

Lemma dress_processFile file doc s :
  same (fun x => (className x, settings x)) s
    (processFile DOMPurify parseFragment measure file doc s).
Proof.
  unfold processFile. destruct (doc_querySelectorAll _ doc); [|unfold handleError; same_chain].
  destruct (_ =? _)%nat; [unfold handleError; same_chain|].
  cbv zeta. same_chain.
Qed.

Lemma dress_run c s : same (fun x => (className x, settings x)) s (run measure c s).
Proof.
  destruct c; cbv beta iota delta [run].
  - same_chain.
  - destruct (novelData s); [|apply same_refl].
    destruct (_ <? _)%Z; same_chain.
  - same_chain.
  - same_chain.
  - same_chain.
Qed.

Lemma dress_fire u s : same (fun x => (className x, settings x)) s (fire measure u s).
Proof.
  unfold fire. cbv zeta. eapply same_trans; [|apply dress_run]. same_chain.
Qed.

Lemma dressed_handle e s :
  dressed s -> dressed (handle DOMPurify parseFragment measure e s).
Proof.
  intros H. destruct e; cbn [handle].
  - apply (dressed_same s); [apply dress_processFile | exact H].
  - apply (dressed_same s); [same_chain | exact H].
  - apply (dressed_same s); [same_chain | exact H].
  - apply (dressed_same s); [same_chain | exact H].
  - apply (dressed_same s); [same_chain | exact H].
  - apply (dressed_same s); [same_chain | exact H].
  - destruct (toggleBookmark s) as [s1|] eqn:E; [|exact H]. revert E. unfold toggleBookmark.
    destruct (novelData s).
    + destruct (findIndex _ _).
      * intros [= <-]. apply (dressed_same s); [same_chain | exact H].
      * destruct (at_index _ _); [|discriminate].
        intros [= <-]. apply (dressed_same s); [same_chain | exact H].
    + intros [= <-]. apply (dressed_same s); [same_chain | exact H].
  - now apply dressed_setTheme_keeps.
  - now apply dressed_setFont_keeps.
  - apply (dressed_same s); [same_chain | exact H].
  - destruct (find _ _); [|exact H]. apply (dressed_same s); [apply dress_fire | exact H].
Qed.

End Session.
End DressFacts.

(** X26.  When the stored theme or the stored font is one of the known
    ones (as the defaults are), the class of the reader element names
    the theme and the font in use in every state a session of
    [part_000] can reach. *)
Theorem X26_reader_class_names_theme_and_font_in_use :
  forall DOMPurify parseFragment measure st height (s : Part000.State),
    mem (theme (Part000.loadSettings st)) THEMES = true \/
    mem (font (Part000.loadSettings st)) FONTS = true ->
    Part000.reachable DOMPurify parseFragment measure st height s ->
    Part000.className s
    = ("novel-reader theme-" ++ theme (Part000.settings s)
         ++ " font-" ++ font (Part000.settings s))%string.
Proof.
  intros DOMPurify parseFragment measure st height s V R.
  change (Part000More.dressed s). induction R as [|s e _ IH].
  - now apply DressFacts.dressed_initial.
  - now apply DressFacts.dressed_handle.
Qed.

Lemma X26_reader_class_names_theme_and_font_in_use_witness :
  Part000.className (play foo tall [Part000.SetTheme "sepia"; Part000.SetFont "mono"] marked)
  = "novel-reader theme-sepia font-mono"%string.
Proof.
  apply (X26_reader_class_names_theme_and_font_in_use
           None (parserFor foo) tall Part000.emptyStorage 500%Q
           (play foo tall [Part000.SetTheme "sepia"; Part000.SetFont "mono"] marked)).
  - left. reflexivity.
  - unfold play. apply ScheduleFacts.reachable_events. exact marked_reachable.
Defined.

